(** * expo-genie-cli: the project manifest store, package-manager detection
      and generator file naming

    A shallow embedding of
    - [src/src/utils/fs.ts] (the [fileSystem] object),
    - [src/src/utils/config.ts] (the [config] object),
    - [src/src/utils/packageManager.ts] ([packageManager.detect] and
      [getInstallCommand]),
    - the staleness test of [src/src/commands/add.ts],
    - [src/src/commands/clean.ts] and [src/src/commands/config.ts],
    - the naming and file functions of the generators: [BaseGenerator]
      ([src/unnamed/part_003], imported elsewhere as [generators/base]),
      [ScreenGenerator] ([src/unnamed/part_001]) and [ComponentGenerator]
      ([src/unnamed/part_002]),
    followed by the properties the specification states about them and
    further properties read off the code.

    Conventions of the embedding:
    - a JavaScript string is a Rocq [string], the bytes of its UTF-8 form;
      the case and white-space functions below are those of JavaScript on
      ASCII text only (bytes above 127 are left alone and are never
      separators), and the properties that depend on them are stated for
      ASCII text;
    - a JavaScript value read from or written to a JSON file is a [json] tree;
      an object is the finite map of its own properties, an absent property
      reads as [None] ([undefined]); where the code reads or writes a
      property under a name it is given, the prototype chain is followed
      ([Js.member_truthy], [Js.assign_property]);
    - [async] functions become functions in the monad [M] that threads the
      file system and propagates a thrown [Error]. *)

From Stdlib Require Import Ascii String List ZArith Lia DecimalString.
From stdpp Require Import base option list gmap strings fin_maps pretty.

Set Warnings "-register-all".
Open Scope string_scope.

(** ** JavaScript string primitives

    [toUpperCase], [toLowerCase], the class [\s] and [trim] are modelled on
    ASCII characters, where they agree with JavaScript; on other text
    JavaScript maps and matches more (accented letters, the no-break space). *)

Module JsString.

Definition is_lower (c : ascii) : bool :=
  let n := nat_of_ascii c in (97 <=? n)%nat && (n <=? 122)%nat.

Definition is_upper (c : ascii) : bool :=
  let n := nat_of_ascii c in (65 <=? n)%nat && (n <=? 90)%nat.

Definition upper_char (c : ascii) : ascii :=
  if is_lower c then ascii_of_nat (nat_of_ascii c - 32) else c.

Definition lower_char (c : ascii) : ascii :=
  if is_upper c then ascii_of_nat (nat_of_ascii c + 32) else c.

(** [String.prototype.toUpperCase] and [toLowerCase]. *)
Definition toUpperCase (s : string) : string :=
  string_of_list_ascii (map upper_char (list_ascii_of_string s)).

Definition toLowerCase (s : string) : string :=
  string_of_list_ascii (map lower_char (list_ascii_of_string s)).

(** [s.charAt(0)]: the first character as a string, [""] when [s] is empty. *)
Definition charAt0 (s : string) : string :=
  match s with
  | EmptyString => EmptyString
  | String c _ => String c EmptyString
  end.

(** [s.slice(1)]: everything after the first character. *)
Definition slice1 (s : string) : string :=
  match s with
  | EmptyString => EmptyString
  | String _ rest => rest
  end.

(** [s.split(re)] for a regular expression [re] that matches exactly one
    character of the class [sep]: the pieces between the matches, empty
    pieces included; the empty string splits into one empty piece. *)
Fixpoint split (sep : ascii -> bool) (s : string) : list string :=
  match s with
  | EmptyString => [EmptyString]
  | String c rest =>
      if sep c then EmptyString :: split sep rest
      else match split sep rest with
           | w :: ws => String c w :: ws
           | [] => [String c EmptyString]
           end
  end.

(** [pieces.join(glue)]. *)
Fixpoint join (glue : string) (pieces : list string) : string :=
  match pieces with
  | [] => EmptyString
  | [w] => w
  | w :: ws => w ++ glue ++ join glue ws
  end.

(** [s.endsWith(suffix)]. *)
Definition endsWith (s suffix : string) : bool :=
  let n := String.length s in
  let k := String.length suffix in
  (k <=? n)%nat && String.eqb (substring (n - k) k s) suffix.

(** The class [\s] of a JavaScript regular expression, on ASCII: tab, line
    feed, vertical tab, form feed, carriage return and space. *)
Definition is_space (c : ascii) : bool :=
  let n := nat_of_ascii c in
  ((9 <=? n)%nat && (n <=? 13)%nat) || (n =? 32)%nat.

(** [s.trim()] on ASCII text: white space and line ends go from both ends. *)
Fixpoint skip_spaces (chars : list ascii) : list ascii :=
  match chars with
  | [] => []
  | c :: rest => if is_space c then skip_spaces rest else chars
  end.

Definition trim (s : string) : string :=
  string_of_list_ascii
    (rev (skip_spaces (rev (skip_spaces (list_ascii_of_string s))))).

End JsString.

(** ** Node's [path.join] (POSIX flavour)

    [path] is Node's own module, not code of this repository; the model
    follows its documented algorithm: the non-empty arguments are glued with
    ["/"] and the result is normalised (empty and ["."] segments dropped,
    [".."] resolved against the segment before it, one trailing slash kept). *)

Module path.

Definition is_slash (c : ascii) : bool := Ascii.eqb c "/"%char.

(** One step of [normalizeString]: [acc] holds the kept segments, most
    recent first. *)
Definition push_segment (allowAboveRoot : bool) (acc : list string)
    (seg : string) : list string :=
  if String.eqb seg "" || String.eqb seg "." then acc
  else if String.eqb seg ".." then
    match acc with
    | top :: below =>
        if String.eqb top ".." then
          (if allowAboveRoot then seg :: acc else acc)
        else below
    | [] => if allowAboveRoot then [seg] else []
    end
  else seg :: acc.

Definition normalizeString (p : string) (allowAboveRoot : bool) : string :=
  JsString.join "/"
    (rev (fold_left (push_segment allowAboveRoot)
            (JsString.split is_slash p) [])).

Definition normalize (p : string) : string :=
  if String.eqb p "" then "."
  else
    let isAbsolute := String.eqb (JsString.charAt0 p) "/" in
    let trailingSeparator := JsString.endsWith p "/" in
    let body := normalizeString p (negb isAbsolute) in
    if String.eqb body "" then
      (if isAbsolute then "/" else if trailingSeparator then "./" else ".")
    else
      let body := if trailingSeparator then body ++ "/" else body in
      if isAbsolute then "/" ++ body else body.

Definition join (args : list string) : string :=
  match filter (fun a => negb (String.eqb a "")) args with
  | [] => "."
  | parts => normalize (JsString.join "/" parts)
  end.

Fixpoint drop_while (test : ascii -> bool) (chars : list ascii) : list ascii :=
  match chars with
  | [] => []
  | c :: rest => if test c then drop_while test rest else chars
  end.

(** [path.dirname]: scanning from the end and never looking at the first
    character, skip the trailing slashes and the last segment; what is
    before the slash found there is the answer, ["/"] or ["."] when there is
    none. *)
Definition dirname (p : string) : string :=
  match p with
  | EmptyString => "."
  | String first rest =>
      let hasRoot := is_slash first in
      let segment_and_before := drop_while is_slash (rev (list_ascii_of_string rest)) in
      match drop_while (fun c => negb (is_slash c)) segment_and_before with
      | [] => if hasRoot then "/" else "."
      | _ :: before =>
          if hasRoot && (List.length before =? 0)%nat then "//"
          else String first (string_of_list_ascii (rev before))
      end
  end.

End path.

(** ** Code generators: [BaseGenerator] and [ScreenGenerator] *)

(** [GeneratorOptions] as the constructor receives it. An optional key is an
    [option]; [None] is the key left out. (A key passed as [undefined] is
    falsy wherever the generators read it, like [Some false] or [Some ""].)
    The keys [styling] and [stateManagement] only select template text. *)
Module GeneratorOptions.
Record t := {
  projectPath : string;
  name : string;
  directory : option string;
  typescript : option bool;
}.
End GeneratorOptions.

Module BaseGenerator.

(** The constructor: [{ typescript: true, ...options }]. *)
Import GeneratorOptions.

Definition new (options : GeneratorOptions.t) : GeneratorOptions.t :=
  {| projectPath := projectPath options;
     name := name options;
     directory := directory options;
     typescript := Some (default true (typescript options)) |}.

Definition getFileExtension (this : GeneratorOptions.t) : string :=
  if default false (typescript this) then "tsx" else "jsx".

(** [this.options.directory || this.getDefaultDirectory()]: the empty
    string is falsy too. *)
Definition getFilePath (getDefaultDirectory : string)
    (this : GeneratorOptions.t) (filename : string) : string :=
  let dir :=
    match directory this with
    | Some d => if String.eqb d "" then getDefaultDirectory else d
    | None => getDefaultDirectory
    end in
  path.join [projectPath this; dir; filename].

Definition is_name_separator (c : ascii) : bool :=
  Ascii.eqb c "-"%char || Ascii.eqb c "_"%char || JsString.is_space c.

Definition capitalize (word : string) : string :=
  JsString.toUpperCase (JsString.charAt0 word)
    ++ JsString.toLowerCase (JsString.slice1 word).

(** [name.split(/[-_\s]/).map(word => ...).join('')], for ASCII names (see
    [JsString]). *)
Definition formatComponentName (name : string) : string :=
  JsString.join "" (map capitalize (JsString.split is_name_separator name)).

Definition formatFileName (this : GeneratorOptions.t) (name : string) : string :=
  let componentName := formatComponentName name in
  componentName ++ "." ++ getFileExtension this.

End BaseGenerator.

Module ScreenGenerator.

Import GeneratorOptions.

Definition getDefaultDirectory : string := "src/screens".

(** The name of the generated component: the PascalCase name with the
    suffix [Screen] unless it already ends with it. *)
Definition screenName (this : GeneratorOptions.t) : string :=
  let componentName := BaseGenerator.formatComponentName (name this) in
  if JsString.endsWith componentName "Screen" then componentName
  else componentName ++ "Screen".

(** The path [generate] writes to and returns. The text written there is
    template output and is left out. *)
Definition generate (options : GeneratorOptions.t) : string :=
  let this := BaseGenerator.new options in
  let filename := BaseGenerator.formatFileName this (screenName this) in
  BaseGenerator.getFilePath getDefaultDirectory this filename.

End ScreenGenerator.

(** [ComponentGenerator] ([src/unnamed/part_002]); as for screens, the path
    [generate] writes to and returns. *)
Module ComponentGenerator.

Import GeneratorOptions.

Definition getDefaultDirectory : string := "src/components".

Definition generate (options : GeneratorOptions.t) : string :=
  let this := BaseGenerator.new options in
  let componentName := BaseGenerator.formatComponentName (name this) in
  let filename := BaseGenerator.formatFileName this componentName in
  BaseGenerator.getFilePath getDefaultDirectory this filename.

End ComponentGenerator.

(** ** JavaScript values as they travel through JSON files

    The typed documents of this program hold no number; [JNum] stands for the
    numbers a hand-written file may hold, and only its being zero or not is
    ever looked at. *)

Inductive json :=
  | JNull
  | JBool (b : bool)
  | JNum (n : Z)
  | JStr (s : string)
  | JArr (items : list json)
  | JObj (props : gmap string json).

Module Js.

(** Truthiness, as tested by [if (existing)]. *)
Definition truthy (v : json) : bool :=
  match v with
  | JNull => false
  | JBool b => b
  | JNum n => negb (n =? 0)%Z
  | JStr s => negb (String.eqb s "")
  | JArr _ | JObj _ => true
  end.

(** [a === b] where [b] is a string. *)
Definition strict_eq_string (a : json) (b : string) : bool :=
  match a with
  | JStr s => String.eqb s b
  | _ => false
  end.

Definition index_key (i : nat) : string := pretty i.

Definition indexed (items : list json) : gmap string json :=
  list_to_map (imap (fun i v => (index_key i, v)) items).

(** The own enumerable properties a spread [{ ...v }] copies: those of an
    object, the elements of an array and the characters of a string under
    their indices, nothing for [null], booleans and numbers. *)
Definition own_props (v : json) : gmap string json :=
  match v with
  | JObj props => props
  | JArr items => indexed items
  | JStr s =>
      indexed (map (fun c => JStr (String c EmptyString)) (list_ascii_of_string s))
  | JNull | JBool _ | JNum _ => ∅
  end.

(** The object literal [{ ...a, ...b }]: the properties of [b] win. *)
Definition spread (a b : json) : json := JObj (own_props b ∪ own_props a).

(** [v.key] for the fixed keys read in this development ([features],
    [screens], [components], [recentProjects]), none of which is a property
    of an array or of a primitive; [None] is [undefined]. Never applied to
    [null]. *)
Definition get (v : json) (key : string) : option json :=
  match v with
  | JObj props => props !! key
  | _ => None
  end.

(** An array index in canonical decimal form, below [2^32 - 1]. *)
Definition array_index (key : string) : option nat :=
  match NilZero.uint_of_string key with
  | Some d =>
      let n := N.of_uint d in
      if String.eqb (pretty n) key && (n <? 4294967295)%N
      then Some (N.to_nat n) else None
  | None => None
  end.

(** [items[key] = value] on an array, as a later [JSON.stringify] sees it;
    [value] is an object here. Storing past the end leaves holes, which
    serialise as [null]; a key that is no index becomes a property that is
    not serialised; [length] cannot take an object ([RangeError], [None]). *)
Definition assign_element (items : list json) (key : string) (value : json)
    : option (list json) :=
  if String.eqb key "length" then None
  else match array_index key with
       | Some i =>
           if (i <? List.length items)%nat then Some (<[i := value]> items)
           else Some (items ++ replicate (i - List.length items) JNull ++ [value])%list
       | None => Some items
       end.

(** [entries[key] = value] on a plain object, as its own properties show it.
    An own property is replaced and a missing one created, except under the
    name [__proto__]: unless the object has an own property of that name (as
    [JSON.parse] makes one for that key), the assignment runs the setter that
    [Object.prototype] has for it, which changes the prototype of the object
    and none of its own properties, so that a later [JSON.stringify] writes
    the object as it was. *)
Definition assign_property {V : Type} (entries : gmap string V) (key : string)
    (value : V) : gmap string V :=
  if String.eqb key "__proto__" && negb (bool_decide (is_Some (entries !! key)))
  then entries
  else <[key := value]> entries.

(** [existing[member][key] = value] for a truthy [existing], returning
    [existing] as mutated. The module is strict code: a [member] that is
    [undefined], [null] or a primitive raises [TypeError]. *)
Definition assign_member (existing : json) (member key : string) (value : json)
    : string + json :=
  match existing with
  | JObj props =>
      match props !! member with
      | Some (JObj entries) =>
          inr (JObj (<[member := JObj (assign_property entries key value)]> props))
      | Some (JArr items) =>
          match assign_element items key value with
          | Some items' => inr (JObj (<[member := JArr items']> props))
          | None => inl "RangeError: Invalid array length"
          end
      | _ => inl "TypeError: Cannot set properties"
      end
  | _ => inl "TypeError: Cannot set properties of undefined"
  end.

(** [items[key]] read on an array: an element under its index, the length
    under [length], [undefined] otherwise. *)
Definition element (items : list json) (key : string) : option json :=
  if String.eqb key "length" then Some (JNum (Z.of_nat (List.length items)))
  else match array_index key with
       | Some i => items !! i
       | None => None
       end.

(** The characters of a string, each as a string. *)
Definition characters (s : string) : list json :=
  map (fun c => JStr (String c EmptyString)) (list_ascii_of_string s).

(** The own property [receiver[key]]; [None] when there is none. *)
Definition own_property (receiver : json) (key : string) : option json :=
  match receiver with
  | JObj entries => entries !! key
  | JArr items => element items key
  | JStr s => element (characters s) key
  | JNull | JBool _ | JNum _ => None
  end.

(** The names of the properties of [Object.prototype], at the end of the
    prototype chain of every object, array and primitive. They hold
    functions, and [__proto__] reads as the prototype of the receiver: all
    truthy. *)
Definition object_prototype : list string :=
  ["constructor"; "__defineGetter__"; "__defineSetter__"; "hasOwnProperty";
   "__lookupGetter__"; "__lookupSetter__"; "isPrototypeOf";
   "propertyIsEnumerable"; "toString"; "valueOf"; "__proto__";
   "toLocaleString"].

Section Prototypes.

(** The prototypes before [Object.prototype] on the chain of a value that is
    no plain object: [Array.prototype] for an array, [String.prototype],
    [Number.prototype] and [Boolean.prototype] for a primitive. Their
    properties differ between versions of the runtime; all hold functions.
    [builtin v key]: the prototype of [v] has a property named [key]. *)
Variable builtin : json -> string -> bool.

(** [key] is found on the prototype chain of [receiver]. *)
Definition inherits (receiver : json) (key : string) : bool :=
  bool_decide (key ∈ object_prototype)
  || match receiver with
     | JObj _ | JNull => false
     | _ => builtin receiver key
     end.

(** Whether [existing[member][key]] reads as truthy, for a truthy
    [existing]: an own property decides, and a name that is no own property
    is looked up along the prototype chain. Reading from [undefined] or
    [null] raises [TypeError]. *)
Definition member_truthy (existing : json) (member key : string) : string + bool :=
  match existing with
  | JObj props =>
      match props !! member with
      | Some JNull | None => inl "TypeError: Cannot read properties"
      | Some receiver =>
          inr (match own_property receiver key with
               | Some value => truthy value
               | None => inherits receiver key
               end)
      end
  | _ => inl "TypeError: Cannot read properties of undefined"
  end.

End Prototypes.

(** [delete existing[member][key]] where [existing[member][key]] was read as
    truthy, returning [existing] as mutated. Only an own property goes.
    Deleting an element of an array leaves a hole, which serialises as
    [null]; the length of an array and the characters and length of a string
    cannot be deleted ([TypeError] in strict code). *)
Definition delete_member (existing : json) (member key : string)
    : string + json :=
  match existing with
  | JObj props =>
      match props !! member with
      | Some (JObj entries) =>
          inr (JObj (<[member := JObj (delete key entries)]> props))
      | Some (JArr items) =>
          if String.eqb key "length" then inl "TypeError: Cannot delete property"
          else match array_index key with
               | Some i => inr (JObj (<[member := JArr (<[i := JNull]> items)]> props))
               | None => inr existing
               end
      | Some (JStr text) =>
          if bool_decide (is_Some (element (characters text) key))
          then inl "TypeError: Cannot delete property"
          else inr existing
      | _ => inr existing
      end
  | _ => inr existing
  end.

End Js.

(** ** The file system and the monad of [async] functions *)

(** What a path holds. A file is identified with what [JSON.parse] makes of
    its text; [JSON.stringify] followed by [JSON.parse] is the identity on
    [json]. *)
Inductive node :=
  | Directory
  | JsonFile (document : json)
  | OtherFile (text : string).

(** [nodes]: what exists, under normalised paths. [refuses p]: the operating
    system rejects creating or writing [p] (missing parent directory,
    permissions, full disk). [journal]: the paths written or created so far,
    most recent first. *)
Record FS := {
  nodes : gmap string node;
  refuses : string -> bool;
  journal : list string;
}.

Inductive outcome (A : Type) :=
  | Returns (a : A) (fs : FS)
  | Throws (message : string).
Arguments Returns {A} a fs.
Arguments Throws {A} message.

Definition M (A : Type) : Type := FS -> outcome A.

Definition ret {A : Type} (a : A) : M A := fun fs => Returns a fs.

(** [await m] followed by the rest of the function body. *)
Definition bind {A B : Type} (m : M A) (k : A -> M B) : M B := fun fs =>
  match m fs with
  | Returns a fs' => k a fs'
  | Throws message => Throws message
  end.

Notation "'let!' x ':=' m 'in' k" := (bind m (fun x => k))
  (at level 10, x name, m at level 100, k at level 200).

Definition throw {A : Type} (message : string) : M A := fun _ => Throws message.

Definition lift {A : Type} (r : string + A) : M A :=
  match r with
  | inl message => throw message
  | inr a => ret a
  end.

Definition record_write (p : string) (n : node) (fs : FS) : FS :=
  {| nodes := <[p := n]> (nodes fs);
     refuses := refuses fs;
     journal := p :: journal fs |}.

(** ** [src/utils/fs.ts] *)

Module fileSystem.

(** [fs.ensureDir]: nothing to do for a directory that exists. The missing
    ancestors, which [fs.ensureDir] creates on the way, are not recorded. *)
Definition createDirectory (dirPath : string) : M unit := fun fs =>
  match nodes fs !! dirPath with
  | Some Directory => Returns tt fs
  | Some _ => Throws ("Failed to create directory: " ++ dirPath)
  | None =>
      if refuses fs dirPath then Throws ("Failed to create directory: " ++ dirPath)
      else Returns tt (record_write dirPath Directory fs)
  end.

(** [fs.access] succeeds on anything that exists. *)
Definition fileExists (filePath : string) : M bool := fun fs =>
  Returns (bool_decide (is_Some (nodes fs !! filePath))) fs.

Definition readJson (filePath : string) : M json := fun fs =>
  match nodes fs !! filePath with
  | Some (JsonFile document) => Returns document fs
  | _ => Throws ("Failed to read JSON file: " ++ filePath)
  end.

Definition writeJson (filePath : string) (data : json) : M unit := fun fs =>
  match nodes fs !! filePath with
  | Some Directory => Throws ("Failed to write JSON file: " ++ filePath)
  | _ =>
      if refuses fs filePath then Throws ("Failed to write JSON file: " ++ filePath)
      else Returns tt (record_write filePath (JsonFile data) fs)
  end.

(** [dirPath] without its trailing slashes. *)
Definition trimmed (dirPath : string) : string :=
  string_of_list_ascii
    (rev (path.drop_while path.is_slash (rev (list_ascii_of_string dirPath)))).

(** [file] is what [dirPath] names, or lies under it. Trailing slashes of
    [dirPath] do not count, the root has every absolute path under it, and
    the empty path names nothing. *)
Definition inside (dirPath file : string) : bool :=
  String.eqb file dirPath
  || negb (String.eqb dirPath "")
     && (negb (String.eqb file "") && String.eqb file (trimmed dirPath)
         || String.prefix (trimmed dirPath ++ "/") file).

(** A path with a trailing slash names a directory: where a file stands
    under that name, the system call fails ([ENOTDIR]). *)
Definition not_a_directory (dirPath : string) (fs : FS) : bool :=
  negb (String.eqb (trimmed dirPath) dirPath)
  && match nodes fs !! trimmed dirPath with
     | Some (JsonFile _) | Some (OtherFile _) => true
     | Some Directory | None => false
     end.

(** [fs.remove]: the path and everything under it go; a path with nothing at
    or under it is left alone without an error. *)
Definition deleteDirectory (dirPath : string) : M unit := fun fs =>
  if not_a_directory dirPath fs
  then Throws ("Failed to delete directory: " ++ dirPath)
  else if bool_decide (map_Forall (fun file _ => inside dirPath file = false) (nodes fs))
  then Returns tt fs
  else if refuses fs dirPath then Throws ("Failed to delete directory: " ++ dirPath)
  else Returns tt
         {| nodes := filter (fun entry => inside dirPath entry.1 = false) (nodes fs);
            refuses := refuses fs;
            journal := dirPath :: journal fs |}.

(** [fs.stat] then [isDirectory()]; [false] when there is nothing to stat. *)
Definition isDirectory (dirPath : string) : M bool := fun fs =>
  Returns (match nodes fs !! dirPath with Some Directory => true | _ => false end) fs.

Section Text.

(** [JSON.parse] on the text of a file: [None] when it throws. It decides
    which [node] a written text is. *)
Variable parse : string -> option json.

Definition file_of_text (content : string) : node :=
  match parse content with
  | Some document => JsonFile document
  | None => OtherFile content
  end.

(** [fs.ensureDir] of the parent, then [fs.writeFile]; one error message for
    both. *)
Definition writeFile (filePath content : string) : M unit := fun fs =>
  match createDirectory (path.dirname filePath) fs with
  | Throws _ => Throws ("Failed to write file: " ++ filePath)
  | Returns _ fs1 =>
      match nodes fs1 !! filePath with
      | Some Directory => Throws ("Failed to write file: " ++ filePath)
      | _ =>
          if refuses fs1 filePath then Throws ("Failed to write file: " ++ filePath)
          else Returns tt (record_write filePath (file_of_text content) fs1)
      end
  end.

(** The text of a JSON file, as [fs.readFile] hands it out. *)
Variable print : json -> string.

Definition readFile (filePath : string) : M string := fun fs =>
  match nodes fs !! filePath with
  | Some (OtherFile text) => Returns text fs
  | Some (JsonFile document) => Returns (print document) fs
  | _ => Throws ("Failed to read file: " ++ filePath)
  end.

End Text.

End fileSystem.

(** ** [BaseGenerator.addImportToFile] ([src/unnamed/part_003]) *)

Module BaseGeneratorFiles.

Definition newline : string := String (ascii_of_nat 10) "".

Definition is_newline (c : ascii) : bool := Ascii.eqb c (ascii_of_nat 10).

(** The loop that looks for the last import line: [found] is
    [lastImportIndex] so far, [i] the index of the head of [lines]. *)
Fixpoint last_import_from (i : nat) (lines : list string) (found : nat) : nat :=
  match lines with
  | [] => found
  | line :: rest =>
      last_import_from (S i) rest (if String.prefix "import " line then i else found)
  end.

Definition lastImportIndex (lines : list string) : nat :=
  last_import_from 0 lines 0.

(** [lines.splice(start, 0, item)]. *)
Definition splice_in (start : nat) (item : string) (lines : list string)
    : list string :=
  (take start lines ++ item :: drop start lines)%list.

(** The new text of the file, from the old one. *)
Definition with_import (content importStatement : string) : string :=
  let lines := JsString.split is_newline content in
  JsString.join newline
    (splice_in (lastImportIndex lines + 1) importStatement lines).

Section Text.
Variable parse : string -> option json.
Variable print : json -> string.

Definition addImportToFile (filePath importStatement : string) : M unit :=
  let! content := fileSystem.readFile print filePath in
  fileSystem.writeFile parse filePath (with_import content importStatement).

End Text.

End BaseGeneratorFiles.

(** ** [src/utils/config.ts]: the typed documents *)

Module FeatureConfig.
Record t := {
  enabled : bool;
  version : string;
  installedAt : string;
  uiLibrary : string;
  stateManagement : string;
  files : list string;
  dependencies : list string;
}.

Definition toJS (c : t) : json :=
  JObj (list_to_map [
    ("enabled", JBool (enabled c));
    ("version", JStr (version c));
    ("installedAt", JStr (installedAt c));
    ("uiLibrary", JStr (uiLibrary c));
    ("stateManagement", JStr (stateManagement c));
    ("files", JArr (JStr <$> files c));
    ("dependencies", JArr (JStr <$> dependencies c))]).
End FeatureConfig.

Module ScreenConfig.
Record t := {
  type : string;
  uiLibrary : string;
  stateManagement : string;
  createdAt : string;
  filePath : string;
}.

Definition toJS (c : t) : json :=
  JObj (list_to_map [
    ("type", JStr (type c));
    ("uiLibrary", JStr (uiLibrary c));
    ("stateManagement", JStr (stateManagement c));
    ("createdAt", JStr (createdAt c));
    ("filePath", JStr (filePath c))]).
End ScreenConfig.

Module ComponentConfig.
Record t := {
  type : string;
  uiLibrary : string;
  createdAt : string;
  filePath : string;
}.

Definition toJS (c : t) : json :=
  JObj (list_to_map [
    ("type", JStr (type c));
    ("uiLibrary", JStr (uiLibrary c));
    ("createdAt", JStr (createdAt c));
    ("filePath", JStr (filePath c))]).
End ComponentConfig.

Module Preferences.
Record t := {
  packageManager : string;
  autoInstall : bool;
  gitCommit : bool;
  typescript : bool;
  darkMode : bool;
}.

Definition toJS (c : t) : json :=
  JObj (list_to_map [
    ("packageManager", JStr (packageManager c));
    ("autoInstall", JBool (autoInstall c));
    ("gitCommit", JBool (gitCommit c));
    ("typescript", JBool (typescript c));
    ("darkMode", JBool (darkMode c))]).
End Preferences.

(** The manifest. [uiLibrary] and [stateManagement] are declared as unions of
    string literals, but every producer casts a plain string into them. An
    optional [template] that is [None] is a key left out of the object, which
    is also what [JSON.stringify] makes of [undefined]. *)
Module ExpoGenieConfig.
Record t := {
  version : string;
  projectName : string;
  template : option string;
  uiLibrary : string;
  stateManagement : string;
  features : gmap string FeatureConfig.t;
  preferences : Preferences.t;
  screens : gmap string ScreenConfig.t;
  components : gmap string ComponentConfig.t;
}.

Definition required_props (c : t) : gmap string json :=
  list_to_map [
    ("version", JStr (version c));
    ("projectName", JStr (projectName c));
    ("uiLibrary", JStr (uiLibrary c));
    ("stateManagement", JStr (stateManagement c));
    ("features", JObj (FeatureConfig.toJS <$> features c));
    ("preferences", Preferences.toJS (preferences c));
    ("screens", JObj (ScreenConfig.toJS <$> screens c));
    ("components", JObj (ComponentConfig.toJS <$> components c))].

Definition toJS (c : t) : json :=
  JObj match template c with
       | Some name => <["template" := JStr name]> (required_props c)
       | None => required_props c
       end.

(** Record update, used to state what a mutation leaves behind. *)
Definition with_features (c : t) (entries : gmap string FeatureConfig.t) : t :=
  {| version := version c; projectName := projectName c;
     template := template c; uiLibrary := uiLibrary c;
     stateManagement := stateManagement c; features := entries;
     preferences := preferences c; screens := screens c;
     components := components c |}.

Definition with_screens (c : t) (entries : gmap string ScreenConfig.t) : t :=
  {| version := version c; projectName := projectName c;
     template := template c; uiLibrary := uiLibrary c;
     stateManagement := stateManagement c; features := features c;
     preferences := preferences c; screens := entries;
     components := components c |}.

Definition with_components (c : t) (entries : gmap string ComponentConfig.t) : t :=
  {| version := version c; projectName := projectName c;
     template := template c; uiLibrary := uiLibrary c;
     stateManagement := stateManagement c; features := features c;
     preferences := preferences c; screens := screens c;
     components := entries |}.

Definition with_uiLibrary (c : t) (library : string) : t :=
  {| version := version c; projectName := projectName c;
     template := template c; uiLibrary := library;
     stateManagement := stateManagement c; features := features c;
     preferences := preferences c; screens := screens c;
     components := components c |}.

Definition with_stateManagement (c : t) (library : string) : t :=
  {| version := version c; projectName := projectName c;
     template := template c; uiLibrary := uiLibrary c;
     stateManagement := library; features := features c;
     preferences := preferences c; screens := screens c;
     components := components c |}.
End ExpoGenieConfig.

Module GlobalConfig.
Record t := {
  defaultTemplate : string;
  defaultPackageManager : string;
  defaultUILibrary : string;
  defaultStateManagement : string;
  autoInstall : bool;
  gitCommit : bool;
  darkMode : bool;
  recentProjects : list string;
}.

Definition props (c : t) : gmap string json :=
  list_to_map [
    ("defaultTemplate", JStr (defaultTemplate c));
    ("defaultPackageManager", JStr (defaultPackageManager c));
    ("defaultUILibrary", JStr (defaultUILibrary c));
    ("defaultStateManagement", JStr (defaultStateManagement c));
    ("autoInstall", JBool (autoInstall c));
    ("gitCommit", JBool (gitCommit c));
    ("darkMode", JBool (darkMode c));
    ("recentProjects", JArr (JStr <$> recentProjects c))].

Definition toJS (c : t) : json := JObj (props c).

Definition as_string (v : option json) : option string :=
  match v with Some (JStr s) => Some s | _ => None end.

Definition as_bool (v : option json) : option bool :=
  match v with Some (JBool b) => Some b | _ => None end.

Fixpoint as_strings (items : list json) : option (list string) :=
  match items with
  | [] => Some []
  | JStr s :: rest => cons s <$> as_strings rest
  | _ => None
  end.

Definition as_string_list (v : option json) : option (list string) :=
  match v with Some (JArr items) => as_strings items | _ => None end.

(** A JavaScript value read at type [GlobalConfig]: its eight fields, each
    of the declared type; further properties are not looked at. *)
Definition fromJS (v : json) : option t :=
  match v with
  | JObj o =>
      template ← as_string (o !! "defaultTemplate");
      manager ← as_string (o !! "defaultPackageManager");
      library ← as_string (o !! "defaultUILibrary");
      state ← as_string (o !! "defaultStateManagement");
      install ← as_bool (o !! "autoInstall");
      commit ← as_bool (o !! "gitCommit");
      dark ← as_bool (o !! "darkMode");
      recent ← as_string_list (o !! "recentProjects");
      Some {| defaultTemplate := template; defaultPackageManager := manager;
              defaultUILibrary := library; defaultStateManagement := state;
              autoInstall := install; gitCommit := commit; darkMode := dark;
              recentProjects := recent |}
  | _ => None
  end.

(** The names of the eight fields. *)
Definition fields : list string :=
  ["defaultTemplate"; "defaultPackageManager"; "defaultUILibrary";
   "defaultStateManagement"; "autoInstall"; "gitCommit"; "darkMode";
   "recentProjects"].
End GlobalConfig.

(** ** [src/utils/config.ts]: the operations *)

Module config.
Section Home.

(** [os.homedir()]. *)
Variable homedir : string.

(** The built-in prototypes of the runtime (see [Js.inherits]). *)
Variable builtin : json -> string -> bool.

Definition CONFIG_FILE_NAME : string := "expo-genie.json".
Definition GLOBAL_CONFIG_DIR : string := path.join [homedir; ".expo-genie"].
Definition GLOBAL_CONFIG_FILE : string := path.join [GLOBAL_CONFIG_DIR; "config.json"].

(** Returns the parsed document, or [null] ([JNull]) when there is no file. *)
Definition loadProjectConfig (projectPath : string) : M json :=
  let configPath := path.join [projectPath; CONFIG_FILE_NAME] in
  let! found := fileSystem.fileExists configPath in
  if found then fileSystem.readJson configPath else ret JNull.

Definition saveProjectConfig (projectPath : string) (config : json) : M unit :=
  let configPath := path.join [projectPath; CONFIG_FILE_NAME] in
  fileSystem.writeJson configPath config.

Definition defaults : GlobalConfig.t :=
  {| GlobalConfig.defaultTemplate := "blank";
     GlobalConfig.defaultPackageManager := "npm";
     GlobalConfig.defaultUILibrary := "nativewind";
     GlobalConfig.defaultStateManagement := "zustand";
     GlobalConfig.autoInstall := true;
     GlobalConfig.gitCommit := false;
     GlobalConfig.darkMode := false;
     GlobalConfig.recentProjects := [] |}.

Definition loadGlobalConfig : M json :=
  let! found := fileSystem.fileExists GLOBAL_CONFIG_FILE in
  if found then
    let! saved := fileSystem.readJson GLOBAL_CONFIG_FILE in
    ret (Js.spread (GlobalConfig.toJS defaults) saved)
  else ret (GlobalConfig.toJS defaults).

Definition saveGlobalConfig (config : json) : M unit :=
  let! _ := fileSystem.createDirectory GLOBAL_CONFIG_DIR in
  let! existing := loadGlobalConfig in
  let updated := Js.spread existing config in
  fileSystem.writeJson GLOBAL_CONFIG_FILE updated.

Definition updateProjectConfig (projectPath : string) (updates : json) : M unit :=
  let! existing := loadProjectConfig projectPath in
  if Js.truthy existing then
    let updated := Js.spread existing updates in
    saveProjectConfig projectPath updated
  else ret tt.

Definition createDefaultConfig
    (projectName template uiLibrary stateManagement packageManager : string)
    : ExpoGenieConfig.t :=
  {| ExpoGenieConfig.version := "1.0.0";
     ExpoGenieConfig.projectName := projectName;
     ExpoGenieConfig.template := Some template;
     ExpoGenieConfig.uiLibrary := uiLibrary;
     ExpoGenieConfig.stateManagement := stateManagement;
     ExpoGenieConfig.features := ∅;
     ExpoGenieConfig.preferences :=
       {| Preferences.packageManager := packageManager;
          Preferences.autoInstall := true;
          Preferences.gitCommit := false;
          Preferences.typescript := true;
          Preferences.darkMode := false |};
     ExpoGenieConfig.screens := ∅;
     ExpoGenieConfig.components := ∅ |}.

(** [existing.features[featureName] = featureConfig] is [Js.assign_member],
    which answers [existing] as mutated or the error raised. *)
Definition addFeature (projectPath featureName : string)
    (featureConfig : FeatureConfig.t) : M unit :=
  let! existing := loadProjectConfig projectPath in
  if Js.truthy existing then
    let! existing := lift (Js.assign_member existing "features" featureName
                             (FeatureConfig.toJS featureConfig)) in
    saveProjectConfig projectPath existing
  else ret tt.

Definition addScreen (projectPath screenName : string)
    (screenConfig : ScreenConfig.t) : M unit :=
  let! existing := loadProjectConfig projectPath in
  if Js.truthy existing then
    let! existing := lift (Js.assign_member existing "screens" screenName
                             (ScreenConfig.toJS screenConfig)) in
    saveProjectConfig projectPath existing
  else ret tt.

Definition addComponent (projectPath componentName : string)
    (componentConfig : ComponentConfig.t) : M unit :=
  let! existing := loadProjectConfig projectPath in
  if Js.truthy existing then
    let! existing := lift (Js.assign_member existing "components" componentName
                             (ComponentConfig.toJS componentConfig)) in
    saveProjectConfig projectPath existing
  else ret tt.

Definition updateUILibrary (projectPath uiLibrary : string) : M unit :=
  updateProjectConfig projectPath (JObj {[ "uiLibrary" := JStr uiLibrary ]}).

Definition updateStateManagement (projectPath stateManagement : string) : M unit :=
  updateProjectConfig projectPath
    (JObj {[ "stateManagement" := JStr stateManagement ]}).

(** [filter], [unshift], [pop] when longer than ten, then save. Calling
    [filter] on anything but an array raises [TypeError]. *)
Definition addRecentProject (projectPath : string) : M unit :=
  let! globalConfig := loadGlobalConfig in
  match Js.get globalConfig "recentProjects" with
  | Some (JArr items) =>
      let recentProjects :=
        filter (fun p => negb (Js.strict_eq_string p projectPath)) items in
      let recentProjects := JStr projectPath :: recentProjects in
      let recentProjects :=
        if (10 <? List.length recentProjects)%nat
        then removelast recentProjects else recentProjects in
      saveGlobalConfig (JObj {[ "recentProjects" := JArr recentProjects ]})
  | _ => throw "TypeError: globalConfig.recentProjects.filter is not a function"
  end.

Definition isExpoGenieProject (projectPath : string) : M bool :=
  let configPath := path.join [projectPath; CONFIG_FILE_NAME] in
  fileSystem.fileExists configPath.

(** [if (existing && existing.features[featureName])], then [delete] and
    save. *)
Definition removeFeature (projectPath featureName : string) : M unit :=
  let! existing := loadProjectConfig projectPath in
  if Js.truthy existing then
    let! installed :=
      lift (Js.member_truthy builtin existing "features" featureName) in
    if installed then
      let! existing := lift (Js.delete_member existing "features" featureName) in
      saveProjectConfig projectPath existing
    else ret tt
  else ret tt.

(** [config?.uiLibrary || 'nativewind']: the value found when it is truthy. *)
Definition getUILibrary (projectPath : string) : M json :=
  let! config := loadProjectConfig projectPath in
  ret (match Js.get config "uiLibrary" with
       | Some library => if Js.truthy library then library else JStr "nativewind"
       | None => JStr "nativewind"
       end).

Definition getStateManagement (projectPath : string) : M json :=
  let! config := loadProjectConfig projectPath in
  ret (match Js.get config "stateManagement" with
       | Some library => if Js.truthy library then library else JStr "zustand"
       | None => JStr "zustand"
       end).

Definition LOCK_FILE : string := path.join [GLOBAL_CONFIG_DIR; ".lock"].

(** The lock file holds [Date.now().toString()]; [now] is the clock reading
    in milliseconds and [parse] is [JSON.parse] (see [fileSystem.writeFile]). *)
Definition createLock (parse : string -> option json) (now : N) : M unit :=
  let! _ := fileSystem.createDirectory GLOBAL_CONFIG_DIR in
  fileSystem.writeFile parse LOCK_FILE (pretty now).

Definition releaseLock : M unit :=
  let! found := fileSystem.fileExists LOCK_FILE in
  if found then fileSystem.deleteDirectory LOCK_FILE else ret tt.

Definition isLocked : M bool := fileSystem.fileExists LOCK_FILE.

End Home.
End config.

(** ** [src/commands/clean.ts]

    [projectPath] is [process.cwd()], [all] the [--all] option and [confirm]
    the answer to the confirmation prompt. What the command prints is left
    out; an error escaping the loop ends the process with status 1, which is
    [Throws] here. *)

Module cleanCommand.

Definition dirsToClean (all : bool) : list string :=
  [".expo"; "android/build"; "android/.gradle"; "ios/build"; "ios/Pods";
   ".expo-genie/cache"] ++ (if all then ["node_modules"] else []).

(** The [for ... of] loop over the directories. *)
Fixpoint clean_each (projectPath : string) (dirs : list string) : M unit :=
  match dirs with
  | [] => ret tt
  | dir :: rest =>
      let dirPath := path.join [projectPath; dir] in
      let! found := fileSystem.fileExists dirPath in
      let! _ := (if found then fileSystem.deleteDirectory dirPath else ret tt) in
      clean_each projectPath rest
  end.

Definition cleanCommand (projectPath : string) (all confirm : bool) : M unit :=
  if negb confirm then ret tt
  else clean_each projectPath (dirsToClean all).

End cleanCommand.

(** ** [src/commands/config.ts]

    [key] and [value] are the optional arguments of the command line. What
    the command prints is left out; [process.exit(1)] is [Throws] with the
    message shown before it. *)

Module configCommand.
Section Home.
Variable homedir : string.

Definition reset_values : json :=
  JObj {[ "defaultTemplate" := JStr "blank";
          "defaultPackageManager" := JStr "npm";
          "autoInstall" := JBool true;
          "gitCommit" := JBool false ]}.

(** The body of the [try]. [!key] holds for a key left out and for the empty
    string. *)
Definition dispatch (action : string) (key value : option string) : M unit :=
  let! globalConfig := config.loadGlobalConfig homedir in
  if String.eqb action "set" then
    match key, value with
    | Some key, Some value =>
        if String.eqb key "" then throw "Usage: eg config set <key> <value>"
        else config.saveGlobalConfig homedir (JObj {[ key := JStr value ]})
    | _, _ => throw "Usage: eg config set <key> <value>"
    end
  else if String.eqb action "get" then
    match key with
    | Some key =>
        if String.eqb key "" then throw "Usage: eg config get <key>" else ret tt
    | None => throw "Usage: eg config get <key>"
    end
  else if String.eqb action "list" then ret tt
  else if String.eqb action "reset" then config.saveGlobalConfig homedir reset_values
  else throw "Invalid action. Use: set, get, list, or reset".

(** The [catch] around everything: [error.message || 'An error occurred']. *)
Definition configCommand (action : string) (key value : option string) : M unit :=
  fun fs =>
    match dispatch action key value fs with
    | Throws message =>
        Throws (if String.eqb message "" then "An error occurred" else message)
    | Returns _ fs' => Returns tt fs'
    end.

End Home.
End configCommand.

(** ** [src/utils/packageManager.ts] *)

Inductive PackageManager := npm | yarn | pnpm | bun.

Module packageManager.

(** The object literal [lockFiles]; [Object.entries] lists its keys in the
    order they are written. *)
Definition lockFiles : list (string * PackageManager) :=
  [("package-lock.json", npm);
   ("yarn.lock", yarn);
   ("pnpm-lock.yaml", pnpm);
   ("bun.lockb", bun)].

(** The [for ... of] loop over the entries, with its early [return]. *)
Fixpoint detect_from (entries : list (string * PackageManager))
    (projectPath : string) : M PackageManager :=
  match entries with
  | [] => ret npm
  | (lockFile, pm) :: rest =>
      let! found := fileSystem.fileExists (path.join [projectPath; lockFile]) in
      if found then ret pm else detect_from rest projectPath
  end.

Definition detect (projectPath : string) : M PackageManager :=
  detect_from lockFiles projectPath.

Definition devFlag (pm : PackageManager) : string :=
  match pm with
  | npm => "--save-dev"
  | yarn => "-D"
  | pnpm => "-D"
  | bun => "-d"
  end.

Definition baseCommand (pm : PackageManager) : string :=
  match pm with
  | npm => "npm install"
  | yarn => "yarn add"
  | pnpm => "pnpm add"
  | bun => "bun add"
  end.

(** The command line shown to the user; [isDev] is [false] when left out. *)
Definition getInstallCommand (pm : PackageManager) (packages : list string)
    (isDev : bool) : string :=
  JsString.trim
    (baseCommand pm ++ " " ++ (if isDev then devFlag pm else "") ++ " "
       ++ JsString.join " " packages).

End packageManager.

(** ** [src/commands/add.ts]: the staleness test of an installed feature *)

Module addCommand.

(** [existingFeature.uiLibrary !== currentUILibrary ||
     existingFeature.stateManagement !== currentStateManagement], with the
    current values read from the manifest. *)
Definition needsRegeneration (projectConfig : ExpoGenieConfig.t)
    (existingFeature : FeatureConfig.t) : bool :=
  let currentUILibrary := ExpoGenieConfig.uiLibrary projectConfig in
  let currentStateManagement := ExpoGenieConfig.stateManagement projectConfig in
  negb (String.eqb (FeatureConfig.uiLibrary existingFeature) currentUILibrary)
  || negb (String.eqb (FeatureConfig.stateManagement existingFeature)
             currentStateManagement).

End addCommand.

(** * Vocabulary of the properties *)

(** The path of the manifest of the project at [projectPath]. *)
Definition manifest_path (projectPath : string) : string :=
  path.join [projectPath; config.CONFIG_FILE_NAME].

(** The project at [projectPath] has the manifest [m]. *)
Definition has_manifest (fs : FS) (projectPath : string) (m : ExpoGenieConfig.t)
    : Prop :=
  nodes fs !! manifest_path projectPath = Some (JsonFile (ExpoGenieConfig.toJS m)).

(** The common shape of [addFeature], [addScreen] and [addComponent]: load,
    [existing[member][key] = value], save. *)
Definition addEntry (member : string) (projectPath key : string) (value : json)
    : M unit :=
  let! existing := config.loadProjectConfig projectPath in
  if Js.truthy existing then
    let! existing := lift (Js.assign_member existing member key value) in
    config.saveProjectConfig projectPath existing
  else ret tt.

(** Whether [lockFile] exists in the project directory. *)
Definition has_lockfile (fs : FS) (projectPath lockFile : string) : bool :=
  bool_decide (is_Some (nodes fs !! path.join [projectPath; lockFile])).

(** No '-', '_' or white space in [s]. *)
Fixpoint separator_free (s : string) : bool :=
  match s with
  | EmptyString => true
  | String c rest => negb (BaseGenerator.is_name_separator c) && separator_free rest
  end.

(** The list computed by [addRecentProject] on a list of paths. *)
Definition recent_insert (projectPath : string) (recent : list string) : list string :=
  let inserted :=
    projectPath :: filter (fun p => negb (String.eqb p projectPath)) recent in
  if (10 <? List.length inserted)%nat then removelast inserted else inserted.

(** [recentProjects] as [loadGlobalConfig] answers it, when it is an array. *)
Definition recentProjects_of (homedir : string) (fs : FS) : option (list json) :=
  match config.loadGlobalConfig homedir fs with
  | Returns globalConfig _ =>
      match Js.get globalConfig "recentProjects" with
      | Some (JArr items) => Some items
      | _ => None
      end
  | Throws _ => None
  end.

(** The file systems reached from [start] by successful calls of
    [addRecentProject]. *)
Inductive recent_history (homedir : string) (start : FS) : FS -> Prop :=
  | history_start : recent_history homedir start start
  | history_add fs projectPath fs' :
      recent_history homedir start fs ->
      config.addRecentProject homedir projectPath fs = Returns tt fs' ->
      recent_history homedir start fs'.

(** A sequence of [addRecentProject] calls, as successive [init] runs make. *)
Fixpoint addRecentProjects (homedir : string) (paths : list string) : M unit :=
  match paths with
  | [] => ret tt
  | projectPath :: rest =>
      let! _ := config.addRecentProject homedir projectPath in
      addRecentProjects homedir rest
  end.

(** Whatever exists in [fs] exists in [fs']. *)
Definition keeps_files (fs fs' : FS) : Prop :=
  forall file, is_Some (nodes fs !! file) -> is_Some (nodes fs' !! file).

(** A computation that never removes a file. *)
Definition never_deletes {A : Type} (m : M A) : Prop :=
  forall fs a fs', m fs = Returns a fs' -> keeps_files fs fs'.

(** [s] holds no character of the class [sep]. *)
Fixpoint free_of (sep : ascii -> bool) (s : string) : bool :=
  match s with
  | EmptyString => true
  | String c rest => negb (sep c) && free_of sep rest
  end.

(** [s] with every letter after the first in lower case. *)
Definition lower_tail (s : string) : string :=
  JsString.charAt0 s ++ JsString.toLowerCase (JsString.slice1 s).

(** The directory a generator writes to. *)
Definition target_directory (fallback : string) (options : GeneratorOptions.t)
    : string :=
  match GeneratorOptions.directory options with
  | Some d => if String.eqb d "" then fallback else d
  | None => fallback
  end.

(** The extension of a generated file. *)
Definition target_extension (options : GeneratorOptions.t) : string :=
  if default true (GeneratorOptions.typescript options) then "tsx" else "jsx".

(** Text of ASCII characters only. On such text the case and white-space
    functions of [JsString] are those of JavaScript; the properties that
    depend on them are stated for such text. *)
Fixpoint ascii_text (s : string) : bool :=
  match s with
  | EmptyString => true
  | String c rest => (nat_of_ascii c <? 128)%nat && ascii_text rest
  end.

(** A package name as the registry accepts it: not empty, of ASCII
    characters, without white space. *)
Definition package_name (name : string) : bool :=
  negb (String.eqb name "") && ascii_text name && free_of JsString.is_space name.

(** * Sample data *)

(** Feature records: the camera record of the specification's scenario, one
    generated under "paper", one generated under "redux". *)
Definition camera_record : FeatureConfig.t :=
  {| FeatureConfig.enabled := true;
     FeatureConfig.version := "1.0.0";
     FeatureConfig.installedAt := "2024-01-01T00:00:00.000Z";
     FeatureConfig.uiLibrary := "nativewind";
     FeatureConfig.stateManagement := "zustand";
     FeatureConfig.files :=
       ["src/features/camera/screens/CameraScreen.tsx"; "src/hooks/useCamera.ts"];
     FeatureConfig.dependencies := ["expo-camera"; "expo-media-library"] |}.

Definition paper_record : FeatureConfig.t :=
  {| FeatureConfig.enabled := true;
     FeatureConfig.version := "1.0.0";
     FeatureConfig.installedAt := "2024-01-01T00:00:00.000Z";
     FeatureConfig.uiLibrary := "paper";
     FeatureConfig.stateManagement := "zustand";
     FeatureConfig.files := [];
     FeatureConfig.dependencies := [] |}.

Definition redux_record : FeatureConfig.t :=
  {| FeatureConfig.enabled := true;
     FeatureConfig.version := "1.0.0";
     FeatureConfig.installedAt := "2024-01-01T00:00:00.000Z";
     FeatureConfig.uiLibrary := "nativewind";
     FeatureConfig.stateManagement := "redux";
     FeatureConfig.files := [];
     FeatureConfig.dependencies := [] |}.

Definition home_screen : ScreenConfig.t :=
  {| ScreenConfig.type := "list";
     ScreenConfig.uiLibrary := "nativewind";
     ScreenConfig.stateManagement := "zustand";
     ScreenConfig.createdAt := "2024-01-02T00:00:00.000Z";
     ScreenConfig.filePath := "src/screens/Homescreen.tsx" |}.

Definition button_component : ComponentConfig.t :=
  {| ComponentConfig.type := "button";
     ComponentConfig.uiLibrary := "nativewind";
     ComponentConfig.createdAt := "2024-01-03T00:00:00.000Z";
     ComponentConfig.filePath := "src/components/Button.tsx" |}.

(** The manifest [init] writes for a project on "nativewind" and "zustand",
    and the same manifest with the camera feature installed. *)
Definition demo_manifest : ExpoGenieConfig.t :=
  config.createDefaultConfig "demo" "blank" "nativewind" "zustand" "npm".

Definition camera_manifest : ExpoGenieConfig.t :=
  ExpoGenieConfig.with_features demo_manifest {[ "camera" := camera_record ]}.

(** A project directory without a manifest, writable everywhere. *)
Definition empty_fs : FS :=
  {| nodes := {[ "/work/demo" := Directory ]};
     refuses := fun _ => false;
     journal := [] |}.

(** The project directory holding [demo_manifest]. *)
Definition demo_fs : FS :=
  {| nodes := {[ "/work/demo" := Directory;
                 "/work/demo/expo-genie.json" :=
                   JsonFile (ExpoGenieConfig.toJS demo_manifest) ]};
     refuses := fun _ => false;
     journal := [] |}.

(** The project directory holding [camera_manifest], and what
    [updateUILibrary "paper"] makes of it. *)
Definition camera_fs : FS :=
  {| nodes := {[ "/work/demo" := Directory;
                 "/work/demo/expo-genie.json" :=
                   JsonFile (ExpoGenieConfig.toJS camera_manifest) ]};
     refuses := fun _ => false;
     journal := [] |}.

Definition camera_fs_paper : FS :=
  record_write "/work/demo/expo-genie.json"
    (JsonFile (ExpoGenieConfig.toJS
                 (ExpoGenieConfig.with_uiLibrary camera_manifest "paper")))
    camera_fs.

(** [empty_fs] after [camera_manifest] was saved in it. *)
Definition saved_demo : FS :=
  record_write "/work/demo/expo-genie.json"
    (JsonFile (ExpoGenieConfig.toJS camera_manifest)) empty_fs.

(** A home directory without a configuration file, writable everywhere. *)
Definition fresh_home : FS :=
  {| nodes := {[ "/home/dev" := Directory ]};
     refuses := fun _ => false;
     journal := [] |}.

(** Eleven distinct projects, and the home directory after each was added to
    the recent projects in turn. *)
Definition eleven_projects : list string :=
  ["/work/p01"; "/work/p02"; "/work/p03"; "/work/p04"; "/work/p05"; "/work/p06";
   "/work/p07"; "/work/p08"; "/work/p09"; "/work/p10"; "/work/p11"].

Definition after_eleven : FS :=
  match addRecentProjects "/home/dev" eleven_projects fresh_home with
  | Returns _ fs => fs
  | Throws _ => fresh_home
  end.

(** A configuration file that only says [darkMode: true] and names one recent
    project, in a home directory that accepts no write. *)
Definition partial_config : json :=
  JObj {[ "darkMode" := JBool true;
          "recentProjects" := JArr [JStr "/work/demo"] ]}.

Definition partial_home : FS :=
  {| nodes := {[ "/home/dev/.expo-genie" := Directory;
                 "/home/dev/.expo-genie/config.json" := JsonFile partial_config ]};
     refuses := fun _ => true;
     journal := [] |}.

(** A global configuration that differs from the defaults in every field, and
    [fresh_home] after it was saved. *)
Definition dark_config : GlobalConfig.t :=
  {| GlobalConfig.defaultTemplate := "tabs";
     GlobalConfig.defaultPackageManager := "pnpm";
     GlobalConfig.defaultUILibrary := "paper";
     GlobalConfig.defaultStateManagement := "redux";
     GlobalConfig.autoInstall := false;
     GlobalConfig.gitCommit := true;
     GlobalConfig.darkMode := true;
     GlobalConfig.recentProjects := ["/work/demo"; "/work/other"] |}.

Definition saved_home : FS :=
  record_write "/home/dev/.expo-genie/config.json"
    (JsonFile (GlobalConfig.toJS dark_config))
    (record_write "/home/dev/.expo-genie" Directory fresh_home).

(** A manifest file that lacks the [features] map. *)
Definition bare_document : json := JObj {[ "projectName" := JStr "demo" ]}.

Definition bare_fs : FS :=
  {| nodes := {[ "/work/demo" := Directory;
                 "/work/demo/expo-genie.json" := JsonFile bare_document ]};
     refuses := fun _ => false;
     journal := [] |}.

(** The one-property update [{ darkMode: true }]. *)
Definition dark_update : json := JObj {[ "darkMode" := JBool true ]}.

(** A project directory with caches, a build directory and installed
    packages. *)
Definition cluttered_fs : FS :=
  {| nodes := {[ "/work/demo" := Directory;
                 "/work/demo/.expo" := Directory;
                 "/work/demo/.expo/devices.json" := JsonFile (JObj ∅);
                 "/work/demo/.expo-shared" := Directory;
                 "/work/demo/node_modules" := Directory;
                 "/work/demo/node_modules/react" := Directory;
                 "/work/demo/App.tsx" := OtherFile "export default function App() {}" ]};
     refuses := fun _ => false;
     journal := [] |}.

(** [cluttered_fs] after [eg clean]. *)
Definition cleaned_fs : FS :=
  {| nodes := {[ "/work/demo" := Directory;
                 "/work/demo/.expo-shared" := Directory;
                 "/work/demo/node_modules" := Directory;
                 "/work/demo/node_modules/react" := Directory;
                 "/work/demo/App.tsx" := OtherFile "export default function App() {}" ]};
     refuses := fun _ => false;
     journal := ["/work/demo/.expo"] |}.

(** A [JSON.parse] that knows nothing but [null]. *)
Definition parse_null (text : string) : option json :=
  if String.eqb text "null" then Some JNull else None.

(** [fresh_home] after a lock was taken at clock reading 1700000000000. *)
Definition locked_home : FS :=
  record_write "/home/dev/.expo-genie/.lock" (OtherFile "1700000000000")
    (record_write "/home/dev/.expo-genie" Directory fresh_home).

(** [locked_home] after the lock was released. *)
Definition unlocked_home : FS :=
  {| nodes := {[ "/home/dev" := Directory;
                 "/home/dev/.expo-genie" := Directory ]};
     refuses := fun _ => false;
     journal := ["/home/dev/.expo-genie/.lock"; "/home/dev/.expo-genie/.lock";
                 "/home/dev/.expo-genie"] |}.

(** [demo_fs] with one source file more. *)
Definition demo_fs_with_app : FS :=
  record_write "/work/demo/App.tsx" (OtherFile "export default function App() {}")
    demo_fs.

(** [saved_home] after [eg config reset]: half of [dark_config] is left. *)
Definition reset_home : FS :=
  record_write "/home/dev/.expo-genie/config.json"
    (JsonFile (GlobalConfig.toJS
       {| GlobalConfig.defaultTemplate := "blank";
          GlobalConfig.defaultPackageManager := "npm";
          GlobalConfig.defaultUILibrary := "paper";
          GlobalConfig.defaultStateManagement := "redux";
          GlobalConfig.autoInstall := true;
          GlobalConfig.gitCommit := false;
          GlobalConfig.darkMode := true;
          GlobalConfig.recentProjects := ["/work/demo"; "/work/other"] |}))
    saved_home.

(** A source file with two import lines, and one without any. *)
Definition app_source : string :=
  JsString.join BaseGeneratorFiles.newline
    ["import React from 'react';";
     "import { View } from 'react-native';";
     "";
     "export default function App() {}"].

Definition plain_source : string :=
  JsString.join BaseGeneratorFiles.newline
    ["// constants"; "export const limit = 10;"].

Definition source_fs : FS :=
  {| nodes := {[ "/work/demo/src" := Directory;
                 "/work/demo/src/App.tsx" := OtherFile app_source;
                 "/work/demo/src/limits.ts" := OtherFile plain_source ]};
     refuses := fun _ => false;
     journal := [] |}.

(** [app_source] with one import more, after the two it has. *)
Definition app_source_with_text : string :=
  JsString.join BaseGeneratorFiles.newline
    ["import React from 'react';";
     "import { View } from 'react-native';";
     "import { Text } from 'react-native';";
     "";
     "export default function App() {}"].

(** Built-in prototypes for manifests whose maps are plain objects, where
    none but [Object.prototype] is ever consulted. *)
Definition no_builtin : json -> string -> bool := fun _ _ => false.

(** * Properties *)

(** ** Running monadic code *)

Lemma bind_returns {A B : Type} (m : M A) (k : A -> M B) fs b fs'' :
  bind m k fs = Returns b fs'' ->
  exists a fs', m fs = Returns a fs' /\ k a fs' = Returns b fs''.
Proof.
  unfold bind. destruct (m fs) as [a fs'|message]; [|discriminate].
  intros Hk. by exists a, fs'.
Qed.

Lemma fileExists_run p fs :
  fileSystem.fileExists p fs = Returns (bool_decide (is_Some (nodes fs !! p))) fs.
Proof. reflexivity. Qed.

Lemma loadProjectConfig_absent projectPath fs :
  nodes fs !! path.join [projectPath; config.CONFIG_FILE_NAME] = None ->
  config.loadProjectConfig projectPath fs = Returns JNull fs.
Proof.
  intros Hnone. unfold config.loadProjectConfig, bind.
  rewrite fileExists_run, Hnone.
  rewrite bool_decide_eq_false_2; [reflexivity|].
  intros [? ?]; discriminate.
Qed.

Lemma loadProjectConfig_present projectPath fs document :
  nodes fs !! path.join [projectPath; config.CONFIG_FILE_NAME]
    = Some (JsonFile document) ->
  config.loadProjectConfig projectPath fs = Returns document fs.
Proof.
  intros Hsome. unfold config.loadProjectConfig, bind.
  rewrite fileExists_run, Hsome.
  rewrite bool_decide_eq_true_2 by eauto.
  unfold fileSystem.readJson. by rewrite Hsome.
Qed.

Lemma addEntry_absent member projectPath key value fs :
  nodes fs !! path.join [projectPath; config.CONFIG_FILE_NAME] = None ->
  addEntry member projectPath key value fs = Returns tt fs.
Proof.
  intros Hnone. unfold addEntry, bind.
  by rewrite (loadProjectConfig_absent _ _ Hnone).
Qed.

Lemma isExpoGenieProject_false projectPath fs :
  config.isExpoGenieProject projectPath fs = Returns false fs ->
  nodes fs !! path.join [projectPath; config.CONFIG_FILE_NAME] = None.
Proof.
  unfold config.isExpoGenieProject. rewrite fileExists_run.
  intros [= Hnone%bool_decide_eq_false].
  by apply eq_None_not_Some.
Qed.

(** C3. Absent-manifest no-op: at a project path without a manifest file
    (nothing exists at [<project>/expo-genie.json], which is what
    [isExpoGenieProject] tests), [addFeature], [addScreen] and [addComponent]
    return normally and leave the file system as it was, journal of writes
    included: nothing is written. *)
Theorem add_without_manifest_is_noop (fs : FS)
    (projectPath featureName screenName componentName : string)
    (feature : FeatureConfig.t) (screen : ScreenConfig.t)
    (component : ComponentConfig.t) :
  config.isExpoGenieProject projectPath fs = Returns false fs ->
  config.addFeature projectPath featureName feature fs = Returns tt fs
  /\ config.addScreen projectPath screenName screen fs = Returns tt fs
  /\ config.addComponent projectPath componentName component fs = Returns tt fs.
Proof.
  intros Hnone%isExpoGenieProject_false. repeat split.
  - apply (addEntry_absent "features" _ _ _ _ Hnone).
  - apply (addEntry_absent "screens" _ _ _ _ Hnone).
  - apply (addEntry_absent "components" _ _ _ _ Hnone).
Qed.

Lemma add_without_manifest_is_noop_witness :
  config.addFeature "/work/demo" "camera" camera_record empty_fs
    = Returns tt empty_fs
  /\ config.addScreen "/work/demo" "Home" home_screen empty_fs
    = Returns tt empty_fs
  /\ config.addComponent "/work/demo" "Button" button_component empty_fs
    = Returns tt empty_fs.
Proof.
  apply (add_without_manifest_is_noop empty_fs "/work/demo").
  reflexivity.
Defined.

(** ** Package-manager detection *)

Lemma detect_from_cons lockFile pm rest projectPath fs :
  packageManager.detect_from ((lockFile, pm) :: rest) projectPath fs
  = if has_lockfile fs projectPath lockFile then Returns pm fs
    else packageManager.detect_from rest projectPath fs.
Proof.
  cbn [packageManager.detect_from]. unfold bind, has_lockfile.
  rewrite fileExists_run. by destruct (bool_decide _).
Qed.

(** Detection only reads: whatever it answers, the file system is unchanged. *)
Lemma detect_from_reads_only entries projectPath fs :
  exists pm, packageManager.detect_from entries projectPath fs = Returns pm fs.
Proof.
  induction entries as [|[lockFile pm] rest IH].
  - by exists npm.
  - rewrite detect_from_cons. destruct (has_lockfile _ _ _); eauto.
Qed.

(** C9. Package-manager detection: [detect] answers npm when
    [package-lock.json] exists, else yarn when [yarn.lock] exists, else pnpm
    when [pnpm-lock.yaml] exists, else bun when [bun.lockb] exists, else npm;
    with several lockfiles present the first in that order wins. It never
    throws and changes nothing. *)
Theorem detect_first_lockfile_wins (fs : FS) (projectPath : string) :
  packageManager.detect projectPath fs =
    Returns
      (if has_lockfile fs projectPath "package-lock.json" then npm
       else if has_lockfile fs projectPath "yarn.lock" then yarn
       else if has_lockfile fs projectPath "pnpm-lock.yaml" then pnpm
       else if has_lockfile fs projectPath "bun.lockb" then bun
       else npm)
      fs.
Proof.
  unfold packageManager.detect, packageManager.lockFiles.
  repeat (rewrite detect_from_cons; destruct (has_lockfile _ _ _); [reflexivity|]).
  reflexivity.
Qed.

(** A project with both a yarn and a bun lockfile is a yarn project. *)
Example detect_yarn_before_bun :
  packageManager.detect "/work/demo"
    {| nodes := {[ "/work/demo/bun.lockb" := OtherFile "";
                   "/work/demo/yarn.lock" := OtherFile "# yarn lockfile v1" ]};
       refuses := fun _ => true; journal := [] |}
  = Returns yarn
    {| nodes := {[ "/work/demo/bun.lockb" := OtherFile "";
                   "/work/demo/yarn.lock" := OtherFile "# yarn lockfile v1" ]};
       refuses := fun _ => true; journal := [] |}.
Proof. reflexivity. Qed.

(** ** Staleness of an installed feature *)

(** C6, as the specification states it, fails: this record's [uiLibrary]
    equals the manifest's, yet the test is true, because its
    [stateManagement] differs. *)
Lemma needsRegeneration_equal_uiLibrary_counterexample :
  FeatureConfig.uiLibrary redux_record = ExpoGenieConfig.uiLibrary demo_manifest
  /\ addCommand.needsRegeneration demo_manifest redux_record = true.
Proof. split; reflexivity. Qed.

(** C6, amended. The "needs regeneration" test is true exactly when the
    record's [uiLibrary] differs from the manifest's current [uiLibrary] or
    its [stateManagement] differs from the manifest's current
    [stateManagement]; so it is true whenever the UI libraries differ, and
    false exactly when both settings are equal. *)
Theorem needsRegeneration_iff (projectConfig : ExpoGenieConfig.t)
    (existingFeature : FeatureConfig.t) :
  (addCommand.needsRegeneration projectConfig existingFeature = true <->
     FeatureConfig.uiLibrary existingFeature
       <> ExpoGenieConfig.uiLibrary projectConfig
     \/ FeatureConfig.stateManagement existingFeature
          <> ExpoGenieConfig.stateManagement projectConfig)
  /\ (addCommand.needsRegeneration projectConfig existingFeature = false <->
        FeatureConfig.uiLibrary existingFeature
          = ExpoGenieConfig.uiLibrary projectConfig
        /\ FeatureConfig.stateManagement existingFeature
             = ExpoGenieConfig.stateManagement projectConfig).
Proof.
  unfold addCommand.needsRegeneration.
  destruct (String.eqb_spec (FeatureConfig.uiLibrary existingFeature)
              (ExpoGenieConfig.uiLibrary projectConfig)) as [Hui|Hui];
  destruct (String.eqb_spec (FeatureConfig.stateManagement existingFeature)
              (ExpoGenieConfig.stateManagement projectConfig)) as [Hsm|Hsm];
  cbn; intuition congruence.
Qed.

(** The example of the specification: a record generated with "paper" in a
    project now on "nativewind" is stale; a record in step with the project
    is not. *)
Example needsRegeneration_paper_vs_nativewind :
  addCommand.needsRegeneration demo_manifest paper_record = true
  /\ addCommand.needsRegeneration demo_manifest camera_record = false.
Proof. split; reflexivity. Qed.

(** ** Name normalisation *)

Lemma append_nil_l (s : string) : "" ++ s = s.
Proof. reflexivity. Qed.

Lemma append_cons (c : ascii) (a b : string) : String c a ++ b = String c (a ++ b).
Proof. reflexivity. Qed.

Section Split.
Variable sep : ascii -> bool.

Lemma split_nonempty s : JsString.split sep s <> [].
Proof.
  destruct s as [|c rest]; cbn; [discriminate|].
  destruct (sep c); [discriminate|].
  destruct (JsString.split sep rest); discriminate.
Qed.

(** Splitting at a separator character splits the list of pieces. *)
Lemma split_app_sep a c b :
  sep c = true ->
  JsString.split sep (a ++ String c b)
  = (JsString.split sep a ++ JsString.split sep b)%list.
Proof.
  intros Hc. induction a as [|d a IH].
  - rewrite append_nil_l. cbn. by rewrite Hc.
  - rewrite append_cons. cbn. rewrite IH. destruct (sep d); [reflexivity|].
    pose proof (split_nonempty a) as Hne.
    destruct (JsString.split sep a); [done|reflexivity].
Qed.
End Split.

Lemma split_separator_free s :
  separator_free s = true ->
  JsString.split BaseGenerator.is_name_separator s = [s].
Proof.
  induction s as [|c rest IH]; cbn; [reflexivity|].
  intros [Hc Hrest]%andb_prop. rewrite IH by done.
  by destruct (BaseGenerator.is_name_separator c).
Qed.

Lemma split_pieces_separator_free s :
  Forall (fun w => separator_free w = true)
    (JsString.split BaseGenerator.is_name_separator s).
Proof.
  induction s as [|c rest IH]; cbn; [by constructor|].
  destruct (BaseGenerator.is_name_separator c) eqn:Hc; [by constructor|].
  destruct IH as [|w ws Hw Hws]; constructor; try done; cbn; by rewrite ?Hc.
Qed.

Lemma join_empty_cons w ws : JsString.join "" (w :: ws) = w ++ JsString.join "" ws.
Proof.
  destruct ws; cbn; [|reflexivity].
  induction w as [|c w IH]; [reflexivity|]. by rewrite append_cons, <- IH.
Qed.

Lemma string_app_assoc (a b c : string) : (a ++ b) ++ c = a ++ (b ++ c).
Proof.
  induction a as [|x a IH]; [reflexivity|]. by rewrite !append_cons, IH.
Qed.

Lemma join_empty_app ws1 ws2 :
  JsString.join "" (ws1 ++ ws2)%list
  = JsString.join "" ws1 ++ JsString.join "" ws2.
Proof.
  induction ws1 as [|w ws1 IH]; [reflexivity|].
  change ((w :: ws1) ++ ws2)%list with (w :: (ws1 ++ ws2))%list.
  by rewrite !join_empty_cons, IH, string_app_assoc.
Qed.

Lemma toLowerCase_cons c s :
  JsString.toLowerCase (String c s)
  = String (JsString.lower_char c) (JsString.toLowerCase s).
Proof. reflexivity. Qed.

Lemma capitalize_cons c w :
  BaseGenerator.capitalize (String c w)
  = String (JsString.upper_char c) (JsString.toLowerCase w).
Proof. reflexivity. Qed.

(** The case functions, character by character: the letters [a] to [z] and
    [A] to [Z] are mapped onto each other and every other ASCII character is
    left as it is. *)
Lemma upper_char_letters :
  map JsString.upper_char (list_ascii_of_string "abcdefghijklmnopqrstuvwxyz")
  = list_ascii_of_string "ABCDEFGHIJKLMNOPQRSTUVWXYZ"
  /\ forall c, (nat_of_ascii c < 128)%nat ->
       c ∉ list_ascii_of_string "abcdefghijklmnopqrstuvwxyz" ->
       JsString.upper_char c = c.
Proof.
  split; [reflexivity|]. intros c _ Hc.
  destruct c as [[] [] [] [] [] [] [] []]; try reflexivity;
    exfalso; apply Hc; cbn; repeat constructor.
Qed.

Lemma lower_char_letters :
  map JsString.lower_char (list_ascii_of_string "ABCDEFGHIJKLMNOPQRSTUVWXYZ")
  = list_ascii_of_string "abcdefghijklmnopqrstuvwxyz"
  /\ forall c, (nat_of_ascii c < 128)%nat ->
       c ∉ list_ascii_of_string "ABCDEFGHIJKLMNOPQRSTUVWXYZ" ->
       JsString.lower_char c = c.
Proof.
  split; [reflexivity|]. intros c _ Hc.
  destruct c as [[] [] [] [] [] [] [] []]; try reflexivity;
    exfalso; apply Hc; cbn; repeat constructor.
Qed.

(** The ASCII characters of the class [\s]: tab, line feed, vertical tab,
    form feed, carriage return and space. *)
Lemma is_space_codes c :
  JsString.is_space c = true <-> nat_of_ascii c ∈ [9; 10; 11; 12; 13; 32].
Proof.
  unfold JsString.is_space. cbn zeta.
  rewrite orb_true_iff, andb_true_iff, !Nat.leb_le, Nat.eqb_eq.
  rewrite !elem_of_cons, elem_of_nil. lia.
Qed.

(** C8. Name normalisation: [formatComponentName] splits its input at every
    '-', '_' and white-space character, capitalises each piece (first
    character to upper case, the rest to lower case) and concatenates the
    pieces; the three inputs of the specification all give
    "MyAwesomeComponent", and "HTTP_server" gives "HttpServer". The general
    statements are for ASCII text, with upper and lower case as the
    alphabets spell them out. *)
Theorem formatComponentName_pascal_case :
  (BaseGenerator.formatComponentName "my-awesome_component" = "MyAwesomeComponent"
   /\ BaseGenerator.formatComponentName "My Awesome Component" = "MyAwesomeComponent"
   /\ BaseGenerator.formatComponentName "my_awesome-component" = "MyAwesomeComponent"
   /\ BaseGenerator.formatComponentName "HTTP_server" = "HttpServer")
  /\ (forall c, (nat_of_ascii c < 128)%nat ->
         (BaseGenerator.is_name_separator c = true <->
          c = "-"%char \/ c = "_"%char
          \/ nat_of_ascii c ∈ [9; 10; 11; 12; 13; 32]))
  /\ (forall a c b,
         ascii_text a = true -> ascii_text b = true ->
         BaseGenerator.is_name_separator c = true ->
         BaseGenerator.formatComponentName (a ++ String c b)
         = BaseGenerator.formatComponentName a ++ BaseGenerator.formatComponentName b)
  /\ (forall w, ascii_text w = true -> separator_free w = true ->
         BaseGenerator.formatComponentName w = BaseGenerator.capitalize w)
  /\ BaseGenerator.capitalize "" = ""
  /\ (forall c w, ascii_text (String c w) = true ->
         BaseGenerator.capitalize (String c w)
         = String (JsString.upper_char c) (JsString.toLowerCase w))
  /\ JsString.toLowerCase "" = ""
  /\ (forall c w, ascii_text (String c w) = true ->
         JsString.toLowerCase (String c w)
         = String (JsString.lower_char c) (JsString.toLowerCase w))
  /\ (map JsString.upper_char (list_ascii_of_string "abcdefghijklmnopqrstuvwxyz")
      = list_ascii_of_string "ABCDEFGHIJKLMNOPQRSTUVWXYZ"
      /\ forall c, (nat_of_ascii c < 128)%nat ->
           c ∉ list_ascii_of_string "abcdefghijklmnopqrstuvwxyz" ->
           JsString.upper_char c = c)
  /\ (map JsString.lower_char (list_ascii_of_string "ABCDEFGHIJKLMNOPQRSTUVWXYZ")
      = list_ascii_of_string "abcdefghijklmnopqrstuvwxyz"
      /\ forall c, (nat_of_ascii c < 128)%nat ->
           c ∉ list_ascii_of_string "ABCDEFGHIJKLMNOPQRSTUVWXYZ" ->
           JsString.lower_char c = c).
Proof.
  split; [repeat split; reflexivity|].
  split.
  { intros c _. rewrite <- is_space_codes. unfold BaseGenerator.is_name_separator.
    rewrite !orb_true_iff, !Ascii.eqb_eq. tauto. }
  split.
  { intros a c b _ _ Hc. unfold BaseGenerator.formatComponentName.
    by rewrite split_app_sep, map_app, join_empty_app. }
  split.
  { intros w _ Hw. unfold BaseGenerator.formatComponentName.
    by rewrite split_separator_free. }
  split; [reflexivity|].
  split; [intros c w _; apply capitalize_cons|].
  split; [reflexivity|].
  split; [intros c w _; apply toLowerCase_cons|].
  split; [apply upper_char_letters|apply lower_char_letters].
Qed.

Lemma formatComponentName_pascal_case_witness :
  BaseGenerator.formatComponentName "user-profile"
  = BaseGenerator.formatComponentName "user"
    ++ BaseGenerator.formatComponentName "profile"
  /\ BaseGenerator.formatComponentName "profile" = BaseGenerator.capitalize "profile"
  /\ BaseGenerator.capitalize "pROFILE" = "Profile".
Proof.
  destruct formatComponentName_pascal_case
    as (_ & _ & Hsplit & Hword & _ & Hcapitalize & _).
  split; [|split].
  - apply (Hsplit "user" "-"%char "profile"); reflexivity.
  - apply Hword; reflexivity.
  - rewrite (Hcapitalize "p"%char "ROFILE") by reflexivity. reflexivity.
Defined.

(** ** Generated file paths *)

Ltac ascii_cases c :=
  destruct c as [[] [] [] [] [] [] [] []]; vm_compute; try reflexivity; try discriminate.

Lemma upper_char_not_separator c :
  BaseGenerator.is_name_separator c = false ->
  BaseGenerator.is_name_separator (JsString.upper_char c) = false.
Proof. ascii_cases c. Qed.

Lemma lower_char_not_separator c :
  BaseGenerator.is_name_separator c = false ->
  BaseGenerator.is_name_separator (JsString.lower_char c) = false.
Proof. ascii_cases c. Qed.

Lemma lower_upper_char c :
  JsString.lower_char (JsString.upper_char c) = JsString.lower_char c.
Proof. ascii_cases c. Qed.

Lemma lower_lower_char c :
  JsString.lower_char (JsString.lower_char c) = JsString.lower_char c.
Proof. ascii_cases c. Qed.

Lemma toLowerCase_idempotent s :
  JsString.toLowerCase (JsString.toLowerCase s) = JsString.toLowerCase s.
Proof.
  induction s as [|c s IH]; [reflexivity|].
  by rewrite !toLowerCase_cons, lower_lower_char, IH.
Qed.

Lemma toLowerCase_app a b :
  JsString.toLowerCase (a ++ b) = JsString.toLowerCase a ++ JsString.toLowerCase b.
Proof.
  induction a as [|c a IH]; [reflexivity|].
  by rewrite append_cons, !toLowerCase_cons, append_cons, IH.
Qed.

Lemma toLowerCase_capitalize w :
  JsString.toLowerCase (BaseGenerator.capitalize w) = JsString.toLowerCase w.
Proof.
  destruct w as [|c w]; [reflexivity|].
  by rewrite capitalize_cons, !toLowerCase_cons, lower_upper_char,
    toLowerCase_idempotent.
Qed.

Lemma separator_free_app a b :
  separator_free (a ++ b) = separator_free a && separator_free b.
Proof.
  induction a as [|c a IH]; [reflexivity|].
  rewrite append_cons. cbn. by rewrite IH, andb_assoc.
Qed.

Lemma separator_free_toLowerCase s :
  separator_free s = true -> separator_free (JsString.toLowerCase s) = true.
Proof.
  induction s as [|c s IH]; [done|].
  rewrite toLowerCase_cons. cbn. intros [Hc Hs]%andb_prop.
  apply negb_true_iff in Hc.
  by rewrite (lower_char_not_separator _ Hc), IH.
Qed.

Lemma separator_free_capitalize w :
  separator_free w = true -> separator_free (BaseGenerator.capitalize w) = true.
Proof.
  destruct w as [|c w]; [done|].
  rewrite capitalize_cons. cbn. intros [Hc Hw]%andb_prop.
  apply negb_true_iff in Hc.
  by rewrite (upper_char_not_separator _ Hc), separator_free_toLowerCase.
Qed.

(** A normalised name holds no separator any more. *)
Lemma formatComponentName_separator_free s :
  separator_free (BaseGenerator.formatComponentName s) = true.
Proof.
  unfold BaseGenerator.formatComponentName.
  induction (split_pieces_separator_free s) as [|w ws Hw _ IH]; [reflexivity|].
  rewrite map_cons, join_empty_cons, separator_free_app, IH.
  by rewrite separator_free_capitalize.
Qed.

(** Normalising a name without separators only changes the case of letters. *)
Lemma formatComponentName_same_letters s :
  separator_free s = true ->
  JsString.toLowerCase (BaseGenerator.formatComponentName s)
  = JsString.toLowerCase s.
Proof.
  intros Hs. unfold BaseGenerator.formatComponentName.
  rewrite split_separator_free by done. cbn [map JsString.join].
  apply toLowerCase_capitalize.
Qed.

Lemma screenName_separator_free this :
  separator_free (ScreenGenerator.screenName this) = true.
Proof.
  unfold ScreenGenerator.screenName.
  destruct (JsString.endsWith _ _).
  - apply formatComponentName_separator_free.
  - by rewrite separator_free_app, formatComponentName_separator_free.
Qed.

(** C7, as the specification states it, fails: the file generated for the
    screen "profile" is not [Profile.tsx] (nor [Profile.jsx] without
    TypeScript). *)
Lemma generate_profile_counterexample :
  ScreenGenerator.generate
    {| GeneratorOptions.projectPath := "/work/demo";
       GeneratorOptions.name := "profile";
       GeneratorOptions.directory := None;
       GeneratorOptions.typescript := Some true |}
    <> "/work/demo/src/screens/Profile.tsx"
  /\ ScreenGenerator.generate
       {| GeneratorOptions.projectPath := "/work/demo";
          GeneratorOptions.name := "profile";
          GeneratorOptions.directory := None;
          GeneratorOptions.typescript := Some false |}
       <> "/work/demo/src/screens/Profile.jsx".
Proof. split; vm_compute; discriminate. Qed.

(** What the code answers there. *)
Example generate_profile_paths :
  ScreenGenerator.generate
    {| GeneratorOptions.projectPath := "/work/demo";
       GeneratorOptions.name := "profile";
       GeneratorOptions.directory := None;
       GeneratorOptions.typescript := Some true |}
    = "/work/demo/src/screens/Profilescreen.tsx"
  /\ ScreenGenerator.generate
       {| GeneratorOptions.projectPath := "/work/demo";
          GeneratorOptions.name := "profile";
          GeneratorOptions.directory := None;
          GeneratorOptions.typescript := Some false |}
       = "/work/demo/src/screens/Profilescreen.jsx".
Proof. split; reflexivity. Qed.

(** C7, amended. For a screen name of ASCII characters, the path a screen
    is generated at is [path.join(project, directory, base.ext)] where
    [directory] is the one given, or [src/screens] when none (or an empty
    one) is given, [ext] is [tsx] when the TypeScript flag is [true] (as the
    constructor sets it when the options have no such key) and [jsx] when it
    is [false], and [base] is the screen name up to the case of its letters;
    the screen name is the PascalCase name with the suffix [Screen] appended
    unless it already ends with it. *)
Theorem generate_path_shape (options : GeneratorOptions.t) :
  ascii_text (GeneratorOptions.name options) = true ->
  let pascal := BaseGenerator.formatComponentName (GeneratorOptions.name options) in
  let screen :=
    if JsString.endsWith pascal "Screen" then pascal else pascal ++ "Screen" in
  let ext :=
    if default true (GeneratorOptions.typescript options) then "tsx" else "jsx" in
  let dir :=
    match GeneratorOptions.directory options with
    | Some d => if String.eqb d "" then "src/screens" else d
    | None => "src/screens"
    end in
  exists base,
    ScreenGenerator.generate options
      = path.join [GeneratorOptions.projectPath options; dir; base ++ "." ++ ext]
    /\ JsString.toLowerCase base = JsString.toLowerCase screen.
Proof.
  intros _. cbn zeta.
  exists (BaseGenerator.formatComponentName
            (ScreenGenerator.screenName (BaseGenerator.new options))).
  split.
  - unfold ScreenGenerator.generate, BaseGenerator.getFilePath,
      BaseGenerator.formatFileName, BaseGenerator.getFileExtension.
    cbn [BaseGenerator.new GeneratorOptions.typescript GeneratorOptions.directory
         GeneratorOptions.projectPath default].
    reflexivity.
  - rewrite formatComponentName_same_letters
      by apply screenName_separator_free.
    reflexivity.
Qed.

Lemma generate_path_shape_witness :
  exists base,
    ScreenGenerator.generate
      {| GeneratorOptions.projectPath := "/work/demo";
         GeneratorOptions.name := "profile";
         GeneratorOptions.directory := None;
         GeneratorOptions.typescript := Some true |}
    = path.join ["/work/demo"; "src/screens"; base ++ ".tsx"]
    /\ JsString.toLowerCase base = "profilescreen".
Proof.
  exact (generate_path_shape
           {| GeneratorOptions.projectPath := "/work/demo";
              GeneratorOptions.name := "profile";
              GeneratorOptions.directory := None;
              GeneratorOptions.typescript := Some true |} eq_refl).
Defined.

(** ** The typed documents and their JSON form *)

#[local] Instance JStr_inj : Inj (=) (=) JStr.
Proof. by intros ?? [= ->]. Qed.

Ltac unfold_props :=
  unfold FeatureConfig.toJS, ScreenConfig.toJS, ComponentConfig.toJS,
    Preferences.toJS, ExpoGenieConfig.toJS, ExpoGenieConfig.required_props,
    GlobalConfig.toJS, GlobalConfig.props;
  cbn [list_to_map foldr fst snd].

(** From [H : JObj o1 = JObj o2] with [o1], [o2] written as insertions, the
    equation between the properties [key]. *)
Ltac same_field H key :=
  let E := fresh "E" in
  pose proof (f_equal (fun v => Js.get v key) H) as E;
  cbv beta iota delta [Js.get] in E;
  repeat first
    [ rewrite lookup_insert_eq in E
    | rewrite lookup_insert_ne in E by discriminate
    | rewrite lookup_empty in E ].

#[local] Instance FeatureConfig_toJS_inj : Inj (=) (=) FeatureConfig.toJS.
Proof.
  intros [] []. unfold_props. intros H.
  same_field H "enabled". same_field H "version". same_field H "installedAt".
  same_field H "uiLibrary". same_field H "stateManagement".
  same_field H "files". same_field H "dependencies".
  clear H. cbn in *. simplify_eq. f_equal; by apply (inj (fmap JStr)).
Qed.

#[local] Instance ScreenConfig_toJS_inj : Inj (=) (=) ScreenConfig.toJS.
Proof.
  intros [] []. unfold_props. intros H.
  same_field H "type". same_field H "uiLibrary". same_field H "stateManagement".
  same_field H "createdAt". same_field H "filePath".
  clear H. cbn in *. by simplify_eq.
Qed.

#[local] Instance ComponentConfig_toJS_inj : Inj (=) (=) ComponentConfig.toJS.
Proof.
  intros [] []. unfold_props. intros H.
  same_field H "type". same_field H "uiLibrary".
  same_field H "createdAt". same_field H "filePath".
  clear H. cbn in *. by simplify_eq.
Qed.

#[local] Instance Preferences_toJS_inj : Inj (=) (=) Preferences.toJS.
Proof.
  intros [] []. unfold_props. intros H.
  same_field H "packageManager". same_field H "autoInstall".
  same_field H "gitCommit". same_field H "typescript". same_field H "darkMode".
  clear H. cbn in *. by simplify_eq.
Qed.

(** Two manifests with the same JSON form are equal field for field. *)
#[local] Instance ExpoGenieConfig_toJS_inj : Inj (=) (=) ExpoGenieConfig.toJS.
Proof.
  intros [v1 n1 t1 u1 s1 f1 p1 sc1 c1] [v2 n2 t2 u2 s2 f2 p2 sc2 c2].
  unfold_props. cbn [ExpoGenieConfig.template]. intros H.
  assert (t1 = t2) as ->.
  { destruct t1, t2; same_field H "template"; congruence. }
  destruct t2.
  all: same_field H "version"; same_field H "projectName";
    same_field H "uiLibrary"; same_field H "stateManagement";
    same_field H "features"; same_field H "preferences";
    same_field H "screens"; same_field H "components";
    clear H; cbn in *; simplify_eq;
    f_equal; (by apply (inj (fmap _))) || by apply (inj _).
Qed.

Lemma truthy_manifest m : Js.truthy (ExpoGenieConfig.toJS m) = true.
Proof. reflexivity. Qed.

Ltac manifest_cases m :=
  destruct m as [? ? [?|] ? ? ? ? ? ?]; unfold_props;
  cbn [ExpoGenieConfig.with_features ExpoGenieConfig.with_screens
       ExpoGenieConfig.with_components ExpoGenieConfig.with_uiLibrary
       ExpoGenieConfig.with_stateManagement
       ExpoGenieConfig.version ExpoGenieConfig.projectName
       ExpoGenieConfig.template ExpoGenieConfig.uiLibrary
       ExpoGenieConfig.stateManagement ExpoGenieConfig.features
       ExpoGenieConfig.preferences ExpoGenieConfig.screens
       ExpoGenieConfig.components].

Ltac lookup_field :=
  repeat first
    [ rewrite lookup_insert_eq
    | rewrite lookup_insert_ne by discriminate
    | rewrite lookup_empty ].

Lemma assign_property_other {V : Type} (entries : gmap string V) key value :
  key <> "__proto__" ->
  Js.assign_property entries key value = <[key := value]> entries.
Proof.
  intros Hkey%String.eqb_neq. unfold Js.assign_property. by rewrite Hkey.
Qed.

Lemma assign_property_fmap {V W : Type} (f : V -> W) (entries : gmap string V)
    key value :
  f <$> Js.assign_property entries key value
  = Js.assign_property (f <$> entries) key (f value).
Proof.
  unfold Js.assign_property. rewrite lookup_fmap.
  destruct (entries !! key) as [present|]; cbn;
    destruct (String.eqb key "__proto__"); cbn;
    rewrite ?bool_decide_eq_true_2, ?bool_decide_eq_false_2
      by (try (by eauto); by intros [? ?]);
    cbn; rewrite ?fmap_insert; reflexivity.
Qed.

(** [existing.features[name] = record] on a manifest changes that entry of
    [features] and nothing else; likewise for [screens] and [components]. *)
Lemma assign_feature m featureName featureConfig :
  Js.assign_member (ExpoGenieConfig.toJS m) "features" featureName
    (FeatureConfig.toJS featureConfig)
  = inr (ExpoGenieConfig.toJS
           (ExpoGenieConfig.with_features m
              (Js.assign_property (ExpoGenieConfig.features m) featureName featureConfig))).
Proof.
  manifest_cases m; unfold Js.assign_member; lookup_field;
    rewrite assign_property_fmap; reflexivity.
Qed.

Lemma assign_screen m screenName screenConfig :
  Js.assign_member (ExpoGenieConfig.toJS m) "screens" screenName
    (ScreenConfig.toJS screenConfig)
  = inr (ExpoGenieConfig.toJS
           (ExpoGenieConfig.with_screens m
              (Js.assign_property (ExpoGenieConfig.screens m) screenName screenConfig))).
Proof.
  manifest_cases m; unfold Js.assign_member; lookup_field;
    rewrite assign_property_fmap; reflexivity.
Qed.

Lemma assign_component m componentName componentConfig :
  Js.assign_member (ExpoGenieConfig.toJS m) "components" componentName
    (ComponentConfig.toJS componentConfig)
  = inr (ExpoGenieConfig.toJS
           (ExpoGenieConfig.with_components m
              (Js.assign_property (ExpoGenieConfig.components m) componentName componentConfig))).
Proof.
  manifest_cases m; unfold Js.assign_member; lookup_field;
    rewrite assign_property_fmap; reflexivity.
Qed.

(** [{ ...existing, uiLibrary }] on a manifest replaces that one field. *)
Lemma spread_uiLibrary m library :
  Js.spread (ExpoGenieConfig.toJS m) (JObj {[ "uiLibrary" := JStr library ]})
  = ExpoGenieConfig.toJS (ExpoGenieConfig.with_uiLibrary m library).
Proof.
  unfold Js.spread. cbn [Js.own_props].
  rewrite <- insert_union_singleton_l.
  manifest_cases m; reflexivity.
Qed.

Lemma spread_stateManagement m library :
  Js.spread (ExpoGenieConfig.toJS m) (JObj {[ "stateManagement" := JStr library ]})
  = ExpoGenieConfig.toJS (ExpoGenieConfig.with_stateManagement m library).
Proof.
  unfold Js.spread. cbn [Js.own_props].
  rewrite <- insert_union_singleton_l.
  manifest_cases m; reflexivity.
Qed.

(** ** Saving and loading the project manifest *)

Lemma writeJson_returns filePath data fs fs' :
  fileSystem.writeJson filePath data fs = Returns tt fs' ->
  fs' = record_write filePath (JsonFile data) fs.
Proof.
  unfold fileSystem.writeJson.
  destruct (nodes fs !! filePath) as [[]|]; try discriminate;
    destruct (refuses fs filePath); try discriminate; by intros [= <-].
Qed.

(** A write the operating system accepts, on a path that is no directory,
    succeeds. *)
Lemma writeJson_accepted filePath data fs :
  refuses fs filePath = false ->
  nodes fs !! filePath <> Some Directory ->
  fileSystem.writeJson filePath data fs
  = Returns tt (record_write filePath (JsonFile data) fs).
Proof.
  intros Haccepts Hnodir. unfold fileSystem.writeJson. rewrite Haccepts.
  by destruct (nodes fs !! filePath) as [[]|].
Qed.

Lemma saveProjectConfig_returns projectPath document fs fs' :
  config.saveProjectConfig projectPath document fs = Returns tt fs' ->
  fs' = record_write (manifest_path projectPath) (JsonFile document) fs.
Proof. apply writeJson_returns. Qed.

Lemma loadProjectConfig_written projectPath document fs :
  config.loadProjectConfig projectPath
    (record_write (manifest_path projectPath) (JsonFile document) fs)
  = Returns document
      (record_write (manifest_path projectPath) (JsonFile document) fs).
Proof. apply loadProjectConfig_present. cbn. apply lookup_insert_eq. Qed.

Lemma addEntry_returns member projectPath key value existing fs fs' :
  nodes fs !! manifest_path projectPath = Some (JsonFile existing) ->
  Js.truthy existing = true ->
  addEntry member projectPath key value fs = Returns tt fs' ->
  exists existing',
    Js.assign_member existing member key value = inr existing'
    /\ fs' = record_write (manifest_path projectPath) (JsonFile existing') fs.
Proof.
  intros Hfile Htruthy. unfold addEntry, bind.
  rewrite (loadProjectConfig_present _ _ _ Hfile), Htruthy.
  destruct (Js.assign_member existing member key value) as [message|existing'];
    cbn; [discriminate|].
  intros Hsave%saveProjectConfig_returns. by exists existing'.
Qed.

Lemma has_manifest_written fs projectPath m :
  has_manifest
    (record_write (manifest_path projectPath) (JsonFile (ExpoGenieConfig.toJS m)) fs)
    projectPath m.
Proof. unfold has_manifest. cbn. apply lookup_insert_eq. Qed.

Lemma addFeature_returns projectPath featureName featureConfig m fs fs' :
  has_manifest fs projectPath m ->
  config.addFeature projectPath featureName featureConfig fs = Returns tt fs' ->
  fs' = record_write (manifest_path projectPath)
          (JsonFile (ExpoGenieConfig.toJS
             (ExpoGenieConfig.with_features m
                (Js.assign_property (ExpoGenieConfig.features m)
                   featureName featureConfig))))
          fs.
Proof.
  intros Hm Hadd.
  destruct (addEntry_returns "features" _ _ _ _ _ _ Hm (truthy_manifest m) Hadd)
    as (existing' & Hassign & ->).
  rewrite assign_feature in Hassign. by simplify_eq.
Qed.

Lemma addScreen_returns projectPath screenName screenConfig m fs fs' :
  has_manifest fs projectPath m ->
  config.addScreen projectPath screenName screenConfig fs = Returns tt fs' ->
  fs' = record_write (manifest_path projectPath)
          (JsonFile (ExpoGenieConfig.toJS
             (ExpoGenieConfig.with_screens m
                (Js.assign_property (ExpoGenieConfig.screens m)
                   screenName screenConfig))))
          fs.
Proof.
  intros Hm Hadd.
  destruct (addEntry_returns "screens" _ _ _ _ _ _ Hm (truthy_manifest m) Hadd)
    as (existing' & Hassign & ->).
  rewrite assign_screen in Hassign. by simplify_eq.
Qed.

Lemma addComponent_returns projectPath componentName componentConfig m fs fs' :
  has_manifest fs projectPath m ->
  config.addComponent projectPath componentName componentConfig fs = Returns tt fs' ->
  fs' = record_write (manifest_path projectPath)
          (JsonFile (ExpoGenieConfig.toJS
             (ExpoGenieConfig.with_components m
                (Js.assign_property (ExpoGenieConfig.components m)
                   componentName componentConfig))))
          fs.
Proof.
  intros Hm Hadd.
  destruct (addEntry_returns "components" _ _ _ _ _ _ Hm (truthy_manifest m) Hadd)
    as (existing' & Hassign & ->).
  rewrite assign_component in Hassign. by simplify_eq.
Qed.

(** C4, as the specification states it for every name, fails at the name
    [__proto__]: in the demo project, whose manifest holds no feature of
    that name, both calls return normally and the manifest is left as it
    was, without an entry [__proto__]. *)
Lemma add_twice_proto_counterexample :
  let fs1 :=
    record_write "/work/demo/expo-genie.json"
      (JsonFile (ExpoGenieConfig.toJS demo_manifest)) demo_fs in
  let fs2 :=
    record_write "/work/demo/expo-genie.json"
      (JsonFile (ExpoGenieConfig.toJS demo_manifest)) fs1 in
  config.addFeature "/work/demo" "__proto__" paper_record demo_fs = Returns tt fs1
  /\ config.addFeature "/work/demo" "__proto__" camera_record fs1 = Returns tt fs2
  /\ config.loadProjectConfig "/work/demo" fs2
     = Returns (ExpoGenieConfig.toJS demo_manifest) fs2
  /\ ExpoGenieConfig.features demo_manifest !! "__proto__" <> Some camera_record.
Proof.
  cbn zeta. split; [vm_compute; reflexivity|]. split; [vm_compute; reflexivity|].
  split; [apply loadProjectConfig_written|].
  vm_compute. discriminate.
Qed.

(** C4, amended. Replace semantics for every name but [__proto__]: in a
    project whose manifest is [m], adding the feature [featureName] with
    [recordA] and then again with [recordB] leaves a manifest that differs
    from [m] only in [features], where [featureName] holds exactly [recordB]
    and every other entry is as in [m]; nothing of [recordA] remains. The
    same holds for [addScreen] on [screens] and for [addComponent] on
    [components]. *)
Theorem add_twice_keeps_last (fs : FS) (projectPath : string)
    (m : ExpoGenieConfig.t) :
  has_manifest fs projectPath m ->
  (forall featureName recordA recordB fs1 fs2,
     featureName <> "__proto__" ->
     config.addFeature projectPath featureName recordA fs = Returns tt fs1 ->
     config.addFeature projectPath featureName recordB fs1 = Returns tt fs2 ->
     let entries := <[featureName := recordB]> (ExpoGenieConfig.features m) in
     config.loadProjectConfig projectPath fs2
       = Returns (ExpoGenieConfig.toJS (ExpoGenieConfig.with_features m entries)) fs2
     /\ entries !! featureName = Some recordB)
  /\ (forall screenName recordA recordB fs1 fs2,
        screenName <> "__proto__" ->
        config.addScreen projectPath screenName recordA fs = Returns tt fs1 ->
        config.addScreen projectPath screenName recordB fs1 = Returns tt fs2 ->
        let entries := <[screenName := recordB]> (ExpoGenieConfig.screens m) in
        config.loadProjectConfig projectPath fs2
          = Returns (ExpoGenieConfig.toJS (ExpoGenieConfig.with_screens m entries)) fs2
        /\ entries !! screenName = Some recordB)
  /\ (forall componentName recordA recordB fs1 fs2,
        componentName <> "__proto__" ->
        config.addComponent projectPath componentName recordA fs = Returns tt fs1 ->
        config.addComponent projectPath componentName recordB fs1 = Returns tt fs2 ->
        let entries := <[componentName := recordB]> (ExpoGenieConfig.components m) in
        config.loadProjectConfig projectPath fs2
          = Returns (ExpoGenieConfig.toJS (ExpoGenieConfig.with_components m entries)) fs2
        /\ entries !! componentName = Some recordB).
Proof.
  intros Hm. split; [|split].
  - intros featureName recordA recordB fs1 fs2 Hname HaddA HaddB.
    split; [|apply lookup_insert_eq].
    rewrite (addFeature_returns _ _ _ _ _ _ Hm HaddA) in HaddB.
    rewrite (addFeature_returns _ _ _ _ _ _ (has_manifest_written _ _ _) HaddB).
    cbn [ExpoGenieConfig.features ExpoGenieConfig.with_features].
    rewrite !assign_property_other, insert_insert_eq by done.
    apply loadProjectConfig_written.
  - intros screenName recordA recordB fs1 fs2 Hname HaddA HaddB.
    split; [|apply lookup_insert_eq].
    rewrite (addScreen_returns _ _ _ _ _ _ Hm HaddA) in HaddB.
    rewrite (addScreen_returns _ _ _ _ _ _ (has_manifest_written _ _ _) HaddB).
    cbn [ExpoGenieConfig.screens ExpoGenieConfig.with_screens].
    rewrite !assign_property_other, insert_insert_eq by done.
    apply loadProjectConfig_written.
  - intros componentName recordA recordB fs1 fs2 Hname HaddA HaddB.
    split; [|apply lookup_insert_eq].
    rewrite (addComponent_returns _ _ _ _ _ _ Hm HaddA) in HaddB.
    rewrite (addComponent_returns _ _ _ _ _ _ (has_manifest_written _ _ _) HaddB).
    cbn [ExpoGenieConfig.components ExpoGenieConfig.with_components].
    rewrite !assign_property_other, insert_insert_eq by done.
    apply loadProjectConfig_written.
Qed.

(** The scenario of the specification: "auth" added with one record, then
    with another, in the demo project. *)
Lemma add_twice_keeps_last_witness :
  let fs1 :=
    record_write "/work/demo/expo-genie.json"
      (JsonFile (ExpoGenieConfig.toJS
         (ExpoGenieConfig.with_features demo_manifest {[ "auth" := paper_record ]})))
      demo_fs in
  let fs2 :=
    record_write "/work/demo/expo-genie.json"
      (JsonFile (ExpoGenieConfig.toJS
         (ExpoGenieConfig.with_features demo_manifest {[ "auth" := camera_record ]})))
      fs1 in
  config.addFeature "/work/demo" "auth" paper_record demo_fs = Returns tt fs1
  /\ config.addFeature "/work/demo" "auth" camera_record fs1 = Returns tt fs2
  /\ config.loadProjectConfig "/work/demo" fs2
      = Returns
          (ExpoGenieConfig.toJS
             (ExpoGenieConfig.with_features demo_manifest
                {[ "auth" := camera_record ]}))
          fs2.
Proof.
  intros fs1 fs2.
  assert (Hm : has_manifest demo_fs "/work/demo" demo_manifest)
    by (vm_compute; reflexivity).
  assert (HaddA : config.addFeature "/work/demo" "auth" paper_record demo_fs
                  = Returns tt fs1) by (vm_compute; reflexivity).
  assert (HaddB : config.addFeature "/work/demo" "auth" camera_record fs1
                  = Returns tt fs2) by (vm_compute; reflexivity).
  assert (Hname : "auth" <> "__proto__") by discriminate.
  split; [exact HaddA|]. split; [exact HaddB|].
  exact (proj1 (proj1 (add_twice_keeps_last demo_fs "/work/demo" demo_manifest Hm)
                  "auth" paper_record camera_record fs1 fs2 Hname HaddA HaddB)).
Defined.

(** The scenario of the specification: the manifest of [createDefaultConfig]
    is on "nativewind" with no feature; after [addFeature] of the camera
    record, the reloaded manifest lists the two files of the camera feature. *)
Example init_then_add_camera :
  ExpoGenieConfig.uiLibrary demo_manifest = "nativewind"
  /\ ExpoGenieConfig.features demo_manifest = ∅
  /\ exists fs',
       config.addFeature "/work/demo" "camera" camera_record demo_fs = Returns tt fs'
       /\ config.loadProjectConfig "/work/demo" fs'
          = Returns (ExpoGenieConfig.toJS camera_manifest) fs'
       /\ (FeatureConfig.files <$> ExpoGenieConfig.features camera_manifest !! "camera")
          = Some ["src/features/camera/screens/CameraScreen.tsx";
                  "src/hooks/useCamera.ts"].
Proof.
  split; [reflexivity|]. split; [reflexivity|].
  eexists. split; [vm_compute; reflexivity|]. split; vm_compute; reflexivity.
Qed.

Lemma updateProjectConfig_returns projectPath updates existing fs fs' :
  nodes fs !! manifest_path projectPath = Some (JsonFile existing) ->
  Js.truthy existing = true ->
  config.updateProjectConfig projectPath updates fs = Returns tt fs' ->
  fs' = record_write (manifest_path projectPath)
          (JsonFile (Js.spread existing updates)) fs.
Proof.
  intros Hfile Htruthy. unfold config.updateProjectConfig, bind.
  rewrite (loadProjectConfig_present _ _ _ Hfile), Htruthy.
  apply saveProjectConfig_returns.
Qed.

Lemma record_write_other p n fs q :
  q <> p -> nodes (record_write p n fs) !! q = nodes fs !! q.
Proof. intros Hq. cbn. by apply lookup_insert_ne. Qed.

(** C5. Frame of a library update: in a project whose manifest is [m],
    [updateUILibrary] leaves the manifest [m] with its [uiLibrary] replaced
    and [updateStateManagement] leaves [m] with its [stateManagement]
    replaced; [features], [screens], [components] and every other field are
    those of [m], and no other file changes. *)
Theorem update_library_frame (fs : FS) (projectPath library : string)
    (m : ExpoGenieConfig.t) (fs' : FS) :
  has_manifest fs projectPath m ->
  (config.updateUILibrary projectPath library fs = Returns tt fs' ->
   exists m',
     config.loadProjectConfig projectPath fs' = Returns (ExpoGenieConfig.toJS m') fs'
     /\ ExpoGenieConfig.uiLibrary m' = library
     /\ ExpoGenieConfig.features m' = ExpoGenieConfig.features m
     /\ ExpoGenieConfig.screens m' = ExpoGenieConfig.screens m
     /\ ExpoGenieConfig.components m' = ExpoGenieConfig.components m
     /\ ExpoGenieConfig.version m' = ExpoGenieConfig.version m
     /\ ExpoGenieConfig.projectName m' = ExpoGenieConfig.projectName m
     /\ ExpoGenieConfig.template m' = ExpoGenieConfig.template m
     /\ ExpoGenieConfig.stateManagement m' = ExpoGenieConfig.stateManagement m
     /\ ExpoGenieConfig.preferences m' = ExpoGenieConfig.preferences m
     /\ forall other, other <> manifest_path projectPath ->
          nodes fs' !! other = nodes fs !! other)
  /\ (config.updateStateManagement projectPath library fs = Returns tt fs' ->
      exists m',
        config.loadProjectConfig projectPath fs' = Returns (ExpoGenieConfig.toJS m') fs'
        /\ ExpoGenieConfig.stateManagement m' = library
        /\ ExpoGenieConfig.features m' = ExpoGenieConfig.features m
        /\ ExpoGenieConfig.screens m' = ExpoGenieConfig.screens m
        /\ ExpoGenieConfig.components m' = ExpoGenieConfig.components m
        /\ ExpoGenieConfig.version m' = ExpoGenieConfig.version m
        /\ ExpoGenieConfig.projectName m' = ExpoGenieConfig.projectName m
        /\ ExpoGenieConfig.template m' = ExpoGenieConfig.template m
        /\ ExpoGenieConfig.uiLibrary m' = ExpoGenieConfig.uiLibrary m
        /\ ExpoGenieConfig.preferences m' = ExpoGenieConfig.preferences m
        /\ forall other, other <> manifest_path projectPath ->
             nodes fs' !! other = nodes fs !! other).
Proof.
  intros Hm. split; intros Hupdate.
  - exists (ExpoGenieConfig.with_uiLibrary m library).
    apply (updateProjectConfig_returns _ _ _ _ _ Hm (truthy_manifest m)) in Hupdate.
    rewrite spread_uiLibrary in Hupdate. subst fs'.
    split; [apply loadProjectConfig_written|].
    repeat (split; [reflexivity|]). intros other. apply record_write_other.
  - exists (ExpoGenieConfig.with_stateManagement m library).
    apply (updateProjectConfig_returns _ _ _ _ _ Hm (truthy_manifest m)) in Hupdate.
    rewrite spread_stateManagement in Hupdate. subst fs'.
    split; [apply loadProjectConfig_written|].
    repeat (split; [reflexivity|]). intros other. apply record_write_other.
Qed.

Lemma update_library_frame_witness :
  config.updateUILibrary "/work/demo" "paper" camera_fs = Returns tt camera_fs_paper
  /\ exists m',
       config.loadProjectConfig "/work/demo" camera_fs_paper
         = Returns (ExpoGenieConfig.toJS m') camera_fs_paper
       /\ ExpoGenieConfig.uiLibrary m' = "paper"
       /\ ExpoGenieConfig.features m' !! "camera" = Some camera_record.
Proof.
  assert (Hm : has_manifest camera_fs "/work/demo" camera_manifest)
    by (vm_compute; reflexivity).
  assert (Hupdate : config.updateUILibrary "/work/demo" "paper" camera_fs
                    = Returns tt camera_fs_paper) by (vm_compute; reflexivity).
  split; [exact Hupdate|].
  destruct (proj1 (update_library_frame camera_fs "/work/demo" "paper"
                     camera_manifest camera_fs_paper Hm) Hupdate)
    as (m' & Hload & Hui & Hfeatures & _).
  exists m'. split; [exact Hload|]. split; [exact Hui|].
  rewrite Hfeatures. reflexivity.
Defined.

(** ** The global configuration *)

Section GlobalConfigFile.
Variable homedir : string.

Abbreviation DIR := (config.GLOBAL_CONFIG_DIR homedir).
Abbreviation FILE := (config.GLOBAL_CONFIG_FILE homedir).

Lemma loadGlobalConfig_absent fs :
  nodes fs !! FILE = None ->
  config.loadGlobalConfig homedir fs
  = Returns (GlobalConfig.toJS config.defaults) fs.
Proof.
  intros Hnone. unfold config.loadGlobalConfig, bind.
  rewrite fileExists_run, Hnone.
  rewrite bool_decide_eq_false_2; [reflexivity|].
  intros [? ?]; discriminate.
Qed.

Lemma loadGlobalConfig_present fs saved :
  nodes fs !! FILE = Some (JsonFile saved) ->
  config.loadGlobalConfig homedir fs
  = Returns (Js.spread (GlobalConfig.toJS config.defaults) saved) fs.
Proof.
  intros Hsome. unfold config.loadGlobalConfig, bind.
  rewrite fileExists_run, Hsome.
  rewrite bool_decide_eq_true_2 by eauto.
  unfold fileSystem.readJson. by rewrite Hsome.
Qed.

(** A configuration path that holds no JSON document makes loading throw. *)
Lemma loadGlobalConfig_unreadable fs n :
  nodes fs !! FILE = Some n ->
  (forall saved, n <> JsonFile saved) ->
  config.loadGlobalConfig homedir fs
  = Throws ("Failed to read JSON file: " ++ FILE).
Proof.
  intros Hsome Hn. unfold config.loadGlobalConfig, bind.
  rewrite fileExists_run, Hsome.
  rewrite bool_decide_eq_true_2 by eauto.
  unfold fileSystem.readJson. rewrite Hsome.
  destruct n as [|saved|text]; try reflexivity. by destruct (Hn saved).
Qed.

(** Loading depends on the configuration file alone and writes nothing:
    the answer is an object that has every default property. *)
Lemma loadGlobalConfig_returns fs v fs' :
  config.loadGlobalConfig homedir fs = Returns v fs' ->
  fs' = fs
  /\ exists loaded,
       v = JObj loaded
       /\ loaded ∪ GlobalConfig.props config.defaults = loaded
       /\ (nodes fs !! FILE = None /\ loaded = GlobalConfig.props config.defaults
           \/ exists saved,
                nodes fs !! FILE = Some (JsonFile saved)
                /\ loaded = Js.own_props saved ∪ GlobalConfig.props config.defaults).
Proof.
  destruct (nodes fs !! FILE) as [[| saved | text]|] eqn:Hfile.
  - by rewrite (loadGlobalConfig_unreadable _ _ Hfile).
  - rewrite (loadGlobalConfig_present _ _ Hfile). intros [= <- <-].
    split; [reflexivity|]. eexists. split; [reflexivity|]. split.
    + by rewrite <- (assoc_L (∪)), (idemp_L (∪)).
    + right. by exists saved.
  - by rewrite (loadGlobalConfig_unreadable _ _ Hfile).
  - rewrite (loadGlobalConfig_absent _ Hfile). intros [= <- <-].
    split; [reflexivity|]. eexists. split; [reflexivity|]. split.
    + apply (idemp_L (∪)).
    + by left.
Qed.

Lemma loadGlobalConfig_same_file fs1 fs2 :
  nodes fs1 !! FILE = nodes fs2 !! FILE ->
  forall v, config.loadGlobalConfig homedir fs1 = Returns v fs1 ->
            config.loadGlobalConfig homedir fs2 = Returns v fs2.
Proof.
  intros Hsame v Hload.
  destruct (loadGlobalConfig_returns _ _ _ Hload)
    as (_ & loaded & -> & _ & [[Hnone ->]|(saved & Hsome & ->)]).
  - rewrite Hsame in Hnone. by rewrite (loadGlobalConfig_absent _ Hnone).
  - rewrite Hsame in Hsome. by rewrite (loadGlobalConfig_present _ _ Hsome).
Qed.

Lemma createDirectory_returns dirPath fs fs' :
  fileSystem.createDirectory dirPath fs = Returns tt fs' ->
  nodes fs' !! dirPath = Some Directory
  /\ forall other, other <> dirPath -> nodes fs' !! other = nodes fs !! other.
Proof.
  unfold fileSystem.createDirectory.
  destruct (nodes fs !! dirPath) as [[]|] eqn:Hdir; try discriminate.
  - by intros [= <-].
  - destruct (refuses fs dirPath); [discriminate|]. intros [= <-]. split.
    + cbn. apply lookup_insert_eq.
    + intros other. apply record_write_other.
Qed.

(** A successful [saveGlobalConfig] wrote the given properties over what
    [loadGlobalConfig] answered before, and that is what it answers after. *)
Lemma saveGlobalConfig_returns (updates : json) fs fs' :
  config.saveGlobalConfig homedir updates fs = Returns tt fs' ->
  exists existing,
    config.loadGlobalConfig homedir fs = Returns (JObj existing) fs
    /\ nodes fs' !! FILE
       = Some (JsonFile (JObj (Js.own_props updates ∪ existing)))
    /\ config.loadGlobalConfig homedir fs'
       = Returns (JObj (Js.own_props updates ∪ existing)) fs'.
Proof.
  unfold config.saveGlobalConfig.
  intros ([] & fs1 & Hdir & Hrest)%bind_returns.
  apply bind_returns in Hrest as (existing & fs1' & Hload & Hwrite).
  destruct (loadGlobalConfig_returns _ _ _ Hload)
    as (-> & loaded & -> & Hdefaults & Hfile).
  apply writeJson_returns in Hwrite. cbn [Js.spread Js.own_props] in Hwrite.
  destruct (createDirectory_returns _ _ _ Hdir) as [Hmade Hothers].
  assert (Hne : FILE <> DIR).
  { intros Heq. rewrite Heq, Hmade in Hfile.
    destruct Hfile as [[? _]|(? & ? & _)]; discriminate. }
  exists loaded. split; [|split].
  - apply (loadGlobalConfig_same_file fs1); [by apply Hothers|done].
  - subst fs'. cbn. apply lookup_insert_eq.
  - subst fs'.
    rewrite (loadGlobalConfig_present _ (JObj (Js.own_props updates ∪ loaded)))
      by (cbn; apply lookup_insert_eq).
    unfold Js.spread. cbn [Js.own_props GlobalConfig.toJS].
    by rewrite <- (assoc_L (∪)), Hdefaults.
Qed.

End GlobalConfigFile.

(** ** The list of recent projects *)

Section RecentLists.
Implicit Types (p q : string) (l : list string).

Lemma filter_other_paths p l :
  filter (fun v => negb (Js.strict_eq_string v p)) (JStr <$> l)
  = JStr <$> filter (fun q => negb (String.eqb q p)) l.
Proof.
  induction l as [|q l IH]; [reflexivity|].
  rewrite fmap_cons, !filter_cons, IH. cbn [Js.strict_eq_string].
  by destruct (String.eqb q p).
Qed.

Lemma removelast_fmap {A B} (f : A -> B) (xs : list A) :
  removelast (f <$> xs) = f <$> removelast xs.
Proof.
  induction xs as [|x [|y xs] IH]; try reflexivity.
  change (f x :: removelast (f <$> y :: xs) = f x :: (f <$> removelast (y :: xs))).
  by rewrite IH.
Qed.

Lemma removelast_snoc {A} (xs : list A) (x : A) : removelast (xs ++ [x]) = xs.
Proof. apply removelast_last. Qed.

Lemma length_removelast {A} (xs : list A) :
  List.length (removelast xs) = pred (List.length xs).
Proof.
  induction xs as [|x [|y xs] IH]; try reflexivity.
  change (S (List.length (removelast (y :: xs))) = S (List.length xs)).
  by rewrite IH.
Qed.

Lemma removelast_sublist {A} (xs : list A) : removelast xs `sublist_of` xs.
Proof.
  induction xs as [|x [|y xs] IH]; try constructor.
  - constructor.
  - exact IH.
Qed.

Lemma filter_absent p l :
  p ∉ l -> filter (fun q => negb (String.eqb q p)) l = l.
Proof.
  induction l as [|q l IH]; [reflexivity|].
  intros [Hq Hl]%not_elem_of_cons.
  apply not_eq_sym, String.eqb_neq in Hq.
  rewrite filter_cons_True by (by rewrite Hq). by rewrite IH.
Qed.

Lemma length_filter_present p l :
  NoDup l -> p ∈ l ->
  S (List.length (filter (fun q => negb (String.eqb q p)) l)) = List.length l.
Proof.
  induction 1 as [|q l Hq Hl IH]; [by intros ?%elem_of_nil|].
  destruct (String.eqb_spec q p) as [->|Hne].
  - intros _. rewrite filter_cons_False by (rewrite String.eqb_refl; intros []).
    by rewrite filter_absent.
  - intros [?|Hp]%elem_of_cons; [congruence|].
    rewrite filter_cons_True by (apply String.eqb_neq in Hne; by rewrite Hne).
    cbn [List.length]. by rewrite IH.
Qed.

Lemma not_in_filter_other p l :
  p ∉ filter (fun q => negb (String.eqb q p)) l.
Proof.
  rewrite list_elem_of_filter. intros [Hp _].
  by rewrite String.eqb_refl in Hp.
Qed.

Lemma recent_insert_head p l : recent_insert p l !! 0 = Some p.
Proof.
  unfold recent_insert. cbn zeta. case_match; [|reflexivity].
  destruct (filter _ l); [done|reflexivity].
Qed.

Lemma recent_insert_NoDup p l : NoDup l -> NoDup (recent_insert p l).
Proof.
  intros Hl.
  assert (NoDup (p :: filter (fun q => negb (String.eqb q p)) l)) as Hins.
  { apply NoDup_cons. split; [apply not_in_filter_other|by apply NoDup_filter]. }
  unfold recent_insert. cbn zeta. case_match; [|done].
  eapply sublist_NoDup; [exact Hins|]. apply removelast_sublist.
Qed.

Lemma recent_insert_length p l :
  List.length l <= 10 -> List.length (recent_insert p l) <= 10.
Proof.
  intros Hl. unfold recent_insert. cbn zeta.
  pose proof (length_filter (fun q => negb (String.eqb q p)) l) as Hf.
  case_match eqn:Hlong.
  - rewrite length_removelast. cbn. lia.
  - apply Nat.ltb_ge in Hlong. done.
Qed.

Lemma recent_insert_present p l :
  NoDup l -> List.length l <= 10 -> p ∈ l ->
  List.length (recent_insert p l) = List.length l.
Proof.
  intros Hnodup Hl Hp. unfold recent_insert. cbn zeta.
  pose proof (length_filter_present p l Hnodup Hp) as Hf.
  case_match eqn:Hlong.
  - apply Nat.ltb_lt in Hlong. cbn in Hlong. lia.
  - cbn. lia.
Qed.

Lemma recent_insert_full p l :
  List.length l = 10 -> p ∉ l -> recent_insert p l = p :: removelast l.
Proof.
  intros Hl Hp. unfold recent_insert. cbn zeta.
  rewrite filter_absent by done.
  replace (10 <? List.length (p :: l))%nat with true
    by (symmetry; apply Nat.ltb_lt; cbn; lia).
  destruct l; [discriminate|reflexivity].
Qed.

Lemma last_not_in_removelast l oldest :
  NoDup l -> last l = Some oldest -> oldest ∉ removelast l.
Proof.
  intros Hnodup (front & ->)%last_Some. rewrite removelast_snoc.
  apply NoDup_app in Hnodup as (_ & Hdisjoint & _).
  intros Hin. apply (Hdisjoint _ Hin). by apply list_elem_of_singleton.
Qed.

(** What [addRecentProject] computes, said without its steps: the path in
    front of the other paths, in the order they had, cut after ten. *)
Lemma recent_insert_take p l :
  List.length l <= 10 ->
  recent_insert p l = take 10 (p :: filter (fun q => q <> p) l).
Proof.
  intros Hl. unfold recent_insert. cbn zeta.
  rewrite (list_filter_iff (fun q => negb (String.eqb q p)) (fun q => q <> p)).
  2:{ intros q. rewrite negb_True, Is_true_true, String.eqb_eq. tauto. }
  pose proof (length_filter (fun q => q <> p) l) as Hf.
  destruct (10 <? List.length (p :: filter (fun q => q <> p) l))%nat eqn:Hlong.
  - apply Nat.ltb_lt in Hlong. rewrite removelast_firstn_len.
    f_equal. cbn in Hlong |- *. lia.
  - apply Nat.ltb_ge in Hlong. by rewrite take_ge.
Qed.

Lemma recent_insert_same_paths p l other :
  List.length l <= 10 -> NoDup l -> p ∈ l ->
  other ∈ recent_insert p l <-> other ∈ l.
Proof.
  intros Hl Hnodup Hp.
  pose proof (length_filter_present p l Hnodup Hp) as Hf.
  unfold recent_insert. cbn zeta.
  replace (10 <? List.length (p :: filter (fun q => negb (String.eqb q p)) l))%nat
    with false by (symmetry; apply Nat.ltb_ge; cbn; lia).
  rewrite elem_of_cons, list_elem_of_filter, negb_True, Is_true_true, String.eqb_eq.
  destruct (decide (other = p)) as [->|Hother]; tauto.
Qed.

Lemma recent_insert_short p l :
  List.length l < 10 -> p ∉ l -> recent_insert p l = p :: l.
Proof.
  intros Hl Hp. unfold recent_insert. cbn zeta.
  rewrite filter_absent by done.
  by replace (10 <? List.length (p :: l))%nat with false
    by (symmetry; apply Nat.ltb_ge; cbn; lia).
Qed.

End RecentLists.

Section RecentProjects.
Variable homedir : string.

(** One successful [addRecentProject] turns a list of paths into
    [recent_insert] of it. *)
Lemma addRecentProject_returns projectPath fs fs' (recent : list string) :
  recentProjects_of homedir fs = Some (JStr <$> recent) ->
  config.addRecentProject homedir projectPath fs = Returns tt fs' ->
  recentProjects_of homedir fs'
  = Some (JStr <$> recent_insert projectPath recent).
Proof.
  unfold recentProjects_of, config.addRecentProject.
  intros Hrecent (globalConfig & fs1 & Hload & Hsave)%bind_returns.
  rewrite Hload in Hrecent.
  destruct (loadGlobalConfig_returns _ _ _ _ Hload) as (-> & existing & -> & _).
  destruct (Js.get (JObj existing) "recentProjects") as [[]|];
    try discriminate Hrecent.
  injection Hrecent as ->.
  apply saveGlobalConfig_returns in Hsave as (existing' & Hload' & _ & ->).
  cbn [Js.own_props Js.get].
  rewrite (lookup_union_Some_l _ _ _ _ (lookup_singleton_eq _ _)).
  f_equal. unfold recent_insert. cbn zeta.
  rewrite filter_other_paths, <- fmap_cons, length_fmap.
  case_match; [|reflexivity]. apply removelast_fmap.
Qed.

(** C2. Recent-projects invariant: after any sequence of successful
    [addRecentProject] calls that starts where [recentProjects] is empty,
    [recentProjects] is a list of at most ten paths without duplicates; and
    one more call with [projectPath] leaves [projectPath] in front of the
    other paths, which keep their order, cut after ten. So [projectPath] is
    at index 0; when it was already listed, the same paths are listed and
    the length is kept; when it was not, it is added in front, and a list
    that held ten paths drops its last (oldest) path and keeps the length at
    ten. *)
Theorem recentProjects_invariant (start fs : FS) :
  recentProjects_of homedir start = Some [] ->
  recent_history homedir start fs ->
  exists recent : list string,
    recentProjects_of homedir fs = Some (JStr <$> recent)
    /\ List.length recent <= 10
    /\ NoDup recent
    /\ forall projectPath fs',
         config.addRecentProject homedir projectPath fs = Returns tt fs' ->
         exists recent' : list string,
           recentProjects_of homedir fs' = Some (JStr <$> recent')
           /\ recent'
              = take 10 (projectPath :: filter (fun p => p <> projectPath) recent)
           /\ recent' !! 0 = Some projectPath
           /\ (projectPath ∈ recent ->
               List.length recent' = List.length recent
               /\ forall other, other ∈ recent' <-> other ∈ recent)
           /\ (projectPath ∉ recent -> List.length recent < 10 ->
               recent' = projectPath :: recent)
           /\ (projectPath ∉ recent -> List.length recent = 10 ->
               recent' = projectPath :: removelast recent
               /\ List.length recent' = 10
               /\ forall oldest, last recent = Some oldest -> oldest ∉ recent').
Proof.
  intros Hstart Hhistory.
  assert (exists recent : list string,
            recentProjects_of homedir fs = Some (JStr <$> recent)
            /\ List.length recent <= 10 /\ NoDup recent)
    as (recent & Hrecent & Hlength & Hnodup).
  { induction Hhistory as [|fs projectPath fs' _ IH Hadd].
    - exists []. repeat split; [done|cbn; lia|constructor].
    - destruct IH as (recent & Hrecent & Hlength & Hnodup).
      exists (recent_insert projectPath recent). split; [|split].
      + by apply (addRecentProject_returns _ fs).
      + by apply recent_insert_length.
      + by apply recent_insert_NoDup. }
  exists recent. repeat (split; [done|]).
  intros projectPath fs' Hadd.
  exists (recent_insert projectPath recent).
  split; [by apply (addRecentProject_returns _ fs)|].
  split; [by apply recent_insert_take|].
  split; [apply recent_insert_head|].
  split; [|split].
  - intros Hin. split; [by apply recent_insert_present|].
    intros other. by apply recent_insert_same_paths.
  - intros Hnotin Hshort. by apply recent_insert_short.
  - intros Hnotin Hfull. rewrite (recent_insert_full _ _ Hfull Hnotin).
    split; [reflexivity|]. split.
    + cbn. rewrite length_removelast. lia.
    + intros oldest Hlast [Heq|Hin]%elem_of_cons.
      * subst oldest. apply Hnotin. by apply last_Some_elem_of.
      * by apply (last_not_in_removelast recent oldest).
Qed.

End RecentProjects.

Lemma addRecentProjects_history homedir paths start fs fs' :
  recent_history homedir start fs ->
  addRecentProjects homedir paths fs = Returns tt fs' ->
  recent_history homedir start fs'.
Proof.
  revert fs. induction paths as [|projectPath rest IH]; intros fs Hhistory.
  - by intros [= <-].
  - cbn [addRecentProjects]. intros ([] & fs1 & Hadd & Hrest)%bind_returns.
    apply (IH fs1); [|done]. by apply (history_add _ _ fs projectPath).
Qed.

(** Eleven distinct projects: the first one added is gone, the last one added
    is in front. *)
Example recentProjects_after_eleven :
  addRecentProjects "/home/dev" eleven_projects fresh_home = Returns tt after_eleven
  /\ recentProjects_of "/home/dev" after_eleven
     = Some (JStr <$> ["/work/p11"; "/work/p10"; "/work/p09"; "/work/p08";
                       "/work/p07"; "/work/p06"; "/work/p05"; "/work/p04";
                       "/work/p03"; "/work/p02"]).
Proof. split; vm_compute; reflexivity. Qed.

Lemma recentProjects_invariant_witness :
  exists recent : list string,
    recentProjects_of "/home/dev" after_eleven = Some (JStr <$> recent)
    /\ List.length recent <= 10
    /\ NoDup recent
    /\ exists fs' recent',
         config.addRecentProject "/home/dev" "/work/p05" after_eleven
         = Returns tt fs'
         /\ recentProjects_of "/home/dev" fs' = Some (JStr <$> recent')
         /\ recent' = take 10 ("/work/p05" :: filter (fun p => p <> "/work/p05") recent).
Proof.
  assert (Hstart : recentProjects_of "/home/dev" fresh_home = Some [])
    by (vm_compute; reflexivity).
  assert (Hrun : addRecentProjects "/home/dev" eleven_projects fresh_home
                 = Returns tt after_eleven) by (vm_compute; reflexivity).
  pose (fs' := match config.addRecentProject "/home/dev" "/work/p05" after_eleven with
               | Returns _ fs' => fs'
               | Throws _ => after_eleven
               end).
  assert (Hadd : config.addRecentProject "/home/dev" "/work/p05" after_eleven
                 = Returns tt fs') by (vm_compute; reflexivity).
  destruct (recentProjects_invariant "/home/dev" fresh_home after_eleven Hstart
              (addRecentProjects_history _ _ _ _ _
                 (history_start "/home/dev" fresh_home) Hrun))
    as (recent & Hrecent & Hlength & Hnodup & Hcall).
  destruct (Hcall "/work/p05" fs' Hadd) as (recent' & Hrecent' & Hexact & _).
  exists recent. split; [exact Hrecent|]. split; [exact Hlength|].
  split; [exact Hnodup|].
  exists fs', recent'. split; [exact Hadd|]. split; [exact Hrecent'|exact Hexact].
Defined.

(** ** Loading the global configuration *)

Lemma elem_of_fields field :
  field ∈ GlobalConfig.fields ->
  is_Some (GlobalConfig.props config.defaults !! field).
Proof.
  unfold GlobalConfig.fields. rewrite !elem_of_cons, elem_of_nil.
  intros H; repeat (destruct H as [->|H]); try (by vm_compute; eauto).
Qed.

(** C10. [loadGlobalConfig] without a configuration file answers the built-in
    defaults; with a configuration file it answers the saved properties over
    those defaults, so that each of the eight fields is present, with the
    saved value when there is one and the default otherwise; in both cases it
    writes nothing. *)
Theorem loadGlobalConfig_defaults_merge (homedir : string) (fs : FS) :
  (nodes fs !! config.GLOBAL_CONFIG_FILE homedir = None ->
   config.loadGlobalConfig homedir fs
   = Returns
       (GlobalConfig.toJS
          {| GlobalConfig.defaultTemplate := "blank";
             GlobalConfig.defaultPackageManager := "npm";
             GlobalConfig.defaultUILibrary := "nativewind";
             GlobalConfig.defaultStateManagement := "zustand";
             GlobalConfig.autoInstall := true;
             GlobalConfig.gitCommit := false;
             GlobalConfig.darkMode := false;
             GlobalConfig.recentProjects := [] |})
       fs)
  /\ (forall saved,
        nodes fs !! config.GLOBAL_CONFIG_FILE homedir = Some (JsonFile saved) ->
        exists loaded,
          config.loadGlobalConfig homedir fs = Returns (JObj loaded) fs
          /\ forall field, field ∈ GlobalConfig.fields ->
               is_Some (loaded !! field)
               /\ loaded !! field
                  = match Js.own_props saved !! field with
                    | Some value => Some value
                    | None => GlobalConfig.props config.defaults !! field
                    end)
  /\ (forall v fs',
        config.loadGlobalConfig homedir fs = Returns v fs' ->
        fs' = fs
        /\ exists loaded,
             v = JObj loaded
             /\ forall field, field ∈ GlobalConfig.fields -> is_Some (loaded !! field)).
Proof.
  split; [apply loadGlobalConfig_absent|]. split.
  - intros saved Hfile.
    exists (Js.own_props saved ∪ GlobalConfig.props config.defaults).
    split; [by apply loadGlobalConfig_present|].
    intros field [value Hfield]%elem_of_fields. rewrite lookup_union, Hfield.
    destruct (Js.own_props saved !! field); cbn; eauto.
  - intros v fs' Hload.
    destruct (loadGlobalConfig_returns _ _ _ _ Hload)
      as (-> & loaded & -> & Hdefaults & _).
    split; [reflexivity|]. exists loaded. split; [reflexivity|].
    intros field [value Hfield]%elem_of_fields. rewrite <- Hdefaults.
    rewrite lookup_union, Hfield. destruct (loaded !! field); cbn; eauto.
Qed.

Lemma loadGlobalConfig_defaults_merge_witness :
  exists loaded,
    config.loadGlobalConfig "/home/dev" partial_home = Returns loaded partial_home
    /\ GlobalConfig.fromJS loaded
       = Some {| GlobalConfig.defaultTemplate := "blank";
                 GlobalConfig.defaultPackageManager := "npm";
                 GlobalConfig.defaultUILibrary := "nativewind";
                 GlobalConfig.defaultStateManagement := "zustand";
                 GlobalConfig.autoInstall := true;
                 GlobalConfig.gitCommit := false;
                 GlobalConfig.darkMode := true;
                 GlobalConfig.recentProjects := ["/work/demo"] |}.
Proof.
  assert (Hfile : nodes partial_home !! config.GLOBAL_CONFIG_FILE "/home/dev"
                  = Some (JsonFile partial_config)) by (vm_compute; reflexivity).
  destruct (proj1 (proj2 (loadGlobalConfig_defaults_merge "/home/dev" partial_home))
              partial_config Hfile) as (loaded & Hload & _).
  exists (JObj loaded). split; [exact Hload|].
  assert (Hrun : config.loadGlobalConfig "/home/dev" partial_home
                 = Returns
                     (Js.spread (GlobalConfig.toJS config.defaults) partial_config)
                     partial_home) by (vm_compute; reflexivity).
  rewrite Hrun in Hload. injection Hload as <-. vm_compute. reflexivity.
Defined.

(** ** Round trips *)

Lemma as_strings_fmap (l : list string) : GlobalConfig.as_strings (JStr <$> l) = Some l.
Proof.
  induction l as [|s l IH]; [reflexivity|].
  rewrite fmap_cons. cbn [GlobalConfig.as_strings]. by rewrite IH.
Qed.

(** Read at type [GlobalConfig], an object that has the properties of [g],
    and possibly others beside, is [g]. *)
Lemma fromJS_props_union (g : GlobalConfig.t) (others : gmap string json) :
  GlobalConfig.fromJS (JObj (GlobalConfig.props g ∪ others)) = Some g.
Proof.
  assert (forall field value,
            GlobalConfig.props g !! field = Some value ->
            (GlobalConfig.props g ∪ others) !! field = Some value) as Hfield.
  { intros field value. apply lookup_union_Some_l. }
  destruct g as [template manager library state install commit dark recent].
  unfold GlobalConfig.fromJS.
  rewrite (Hfield "defaultTemplate" (JStr template)) by reflexivity.
  rewrite (Hfield "defaultPackageManager" (JStr manager)) by reflexivity.
  rewrite (Hfield "defaultUILibrary" (JStr library)) by reflexivity.
  rewrite (Hfield "defaultStateManagement" (JStr state)) by reflexivity.
  rewrite (Hfield "autoInstall" (JBool install)) by reflexivity.
  rewrite (Hfield "gitCommit" (JBool commit)) by reflexivity.
  rewrite (Hfield "darkMode" (JBool dark)) by reflexivity.
  rewrite (Hfield "recentProjects" (JArr (JStr <$> recent))) by reflexivity.
  cbn [GlobalConfig.as_string GlobalConfig.as_bool GlobalConfig.as_string_list
       mbind option_bind].
  by rewrite as_strings_fmap.
Qed.

Lemma fromJS_toJS (g : GlobalConfig.t) :
  GlobalConfig.fromJS (GlobalConfig.toJS g) = Some g.
Proof.
  unfold GlobalConfig.toJS.
  rewrite <- (right_id_L ∅ (∪) (GlobalConfig.props g)).
  apply fromJS_props_union.
Qed.

(** C1. Round trip: a manifest saved at a project path is what loading from
    that path returns, and equal JSON forms mean manifests equal field for
    field; a full global configuration saved and loaded again reads, at type
    [GlobalConfig], as the value saved, and is exactly the value saved when
    there was no configuration file before. *)
Theorem save_load_roundtrip (homedir : string) :
  (forall (m : ExpoGenieConfig.t) (projectPath : string) (fs fs' : FS),
     config.saveProjectConfig projectPath (ExpoGenieConfig.toJS m) fs
       = Returns tt fs' ->
     config.loadProjectConfig projectPath fs'
       = Returns (ExpoGenieConfig.toJS m) fs')
  /\ (forall m1 m2 : ExpoGenieConfig.t,
        ExpoGenieConfig.toJS m1 = ExpoGenieConfig.toJS m2 -> m1 = m2)
  /\ (forall (g : GlobalConfig.t) (fs fs' : FS),
        config.saveGlobalConfig homedir (GlobalConfig.toJS g) fs = Returns tt fs' ->
        exists loaded,
          config.loadGlobalConfig homedir fs' = Returns loaded fs'
          /\ GlobalConfig.fromJS loaded = Some g
          /\ (nodes fs !! config.GLOBAL_CONFIG_FILE homedir = None ->
              loaded = GlobalConfig.toJS g)).
Proof.
  split; [|split].
  - intros m projectPath fs fs' ->%saveProjectConfig_returns.
    apply loadProjectConfig_written.
  - intros m1 m2. apply (inj ExpoGenieConfig.toJS).
  - intros g fs fs' (existing & Hbefore & _ & Hafter)%saveGlobalConfig_returns.
    eexists. split; [exact Hafter|]. cbn [Js.own_props GlobalConfig.toJS].
    split; [apply fromJS_props_union|].
    intros Hnone. rewrite (loadGlobalConfig_absent _ _ Hnone) in Hbefore.
    injection Hbefore as <-. by destruct g.
Qed.

Lemma save_load_roundtrip_witness :
  (config.saveProjectConfig "/work/demo" (ExpoGenieConfig.toJS camera_manifest)
     empty_fs = Returns tt saved_demo
   /\ config.loadProjectConfig "/work/demo" saved_demo
      = Returns (ExpoGenieConfig.toJS camera_manifest) saved_demo)
  /\ (config.saveGlobalConfig "/home/dev" (GlobalConfig.toJS dark_config)
        fresh_home = Returns tt saved_home
      /\ exists loaded,
           config.loadGlobalConfig "/home/dev" saved_home = Returns loaded saved_home
           /\ GlobalConfig.fromJS loaded = Some dark_config).
Proof.
  assert (Hsave : config.saveProjectConfig "/work/demo"
                    (ExpoGenieConfig.toJS camera_manifest) empty_fs
                  = Returns tt saved_demo) by (vm_compute; reflexivity).
  assert (Hglobal : config.saveGlobalConfig "/home/dev"
                      (GlobalConfig.toJS dark_config) fresh_home
                    = Returns tt saved_home) by (vm_compute; reflexivity).
  split; (split; [done|]).
  - exact (proj1 (save_load_roundtrip "/home/dev") camera_manifest "/work/demo"
             empty_fs saved_demo Hsave).
  - destruct (proj2 (proj2 (save_load_roundtrip "/home/dev")) dark_config
                fresh_home saved_home Hglobal) as (loaded & Hload & Hread & _).
    exists loaded. by split.
Defined.

(** ** Removing a feature *)

Lemma assign_property_proto {V : Type} (entries : gmap string V) value :
  entries !! "__proto__" = None ->
  Js.assign_property entries "__proto__" value = entries.
Proof.
  intros Hnone. unfold Js.assign_property. rewrite Hnone.
  case_bool_decide as Hsome; [by destruct Hsome|reflexivity].
Qed.

(** On a manifest, [existing.features[name]] is truthy for a listed feature
    and for the names every object inherits. *)
Lemma member_truthy_feature builtin m featureName :
  Js.member_truthy builtin (ExpoGenieConfig.toJS m) "features" featureName
  = inr (match ExpoGenieConfig.features m !! featureName with
         | Some _ => true
         | None => bool_decide (featureName ∈ Js.object_prototype)
         end).
Proof.
  manifest_cases m; unfold Js.member_truthy; lookup_field;
    cbn [Js.own_property]; rewrite lookup_fmap;
    (destruct (features !! featureName); cbn [fmap option_fmap option_map];
     [reflexivity|unfold Js.inherits; by rewrite orb_false_r]).
Qed.

Lemma delete_feature m featureName :
  Js.delete_member (ExpoGenieConfig.toJS m) "features" featureName
  = inr (ExpoGenieConfig.toJS
           (ExpoGenieConfig.with_features m
              (delete featureName (ExpoGenieConfig.features m)))).
Proof.
  manifest_cases m; unfold Js.delete_member; lookup_field;
    rewrite fmap_delete; reflexivity.
Qed.

Lemma with_features_same m :
  ExpoGenieConfig.with_features m (ExpoGenieConfig.features m) = m.
Proof. by destruct m. Qed.

Lemma with_features_twice m entries entries' :
  ExpoGenieConfig.with_features (ExpoGenieConfig.with_features m entries) entries'
  = ExpoGenieConfig.with_features m entries'.
Proof. by destruct m. Qed.

Lemma removeFeature_installed builtin projectPath featureName m record fs :
  has_manifest fs projectPath m ->
  ExpoGenieConfig.features m !! featureName = Some record ->
  config.removeFeature builtin projectPath featureName fs
  = config.saveProjectConfig projectPath
      (ExpoGenieConfig.toJS
         (ExpoGenieConfig.with_features m
            (delete featureName (ExpoGenieConfig.features m)))) fs.
Proof.
  intros Hm Hinstalled. unfold config.removeFeature, bind.
  rewrite (loadProjectConfig_present _ _ _ Hm), truthy_manifest.
  rewrite member_truthy_feature, Hinstalled. cbn [lift ret].
  by rewrite delete_feature.
Qed.

Lemma removeFeature_not_installed builtin projectPath featureName m fs :
  has_manifest fs projectPath m ->
  ExpoGenieConfig.features m !! featureName = None ->
  featureName ∉ Js.object_prototype ->
  config.removeFeature builtin projectPath featureName fs = Returns tt fs.
Proof.
  intros Hm Hnone Hplain. unfold config.removeFeature, bind.
  rewrite (loadProjectConfig_present _ _ _ Hm), truthy_manifest.
  rewrite member_truthy_feature, Hnone. cbn [lift ret].
  by rewrite bool_decide_eq_false_2.
Qed.

(** A name that every object inherits reads as an installed feature: nothing
    is deleted, and the manifest is written again as it is. *)
Lemma removeFeature_inherited builtin projectPath featureName m fs :
  has_manifest fs projectPath m ->
  ExpoGenieConfig.features m !! featureName = None ->
  featureName ∈ Js.object_prototype ->
  config.removeFeature builtin projectPath featureName fs
  = config.saveProjectConfig projectPath (ExpoGenieConfig.toJS m) fs.
Proof.
  intros Hm Hnone Hinherited. unfold config.removeFeature, bind.
  rewrite (loadProjectConfig_present _ _ _ Hm), truthy_manifest.
  rewrite member_truthy_feature, Hnone. cbn [lift ret].
  rewrite bool_decide_eq_true_2 by done.
  by rewrite delete_feature, delete_id, with_features_same.
Qed.

(** X1. Removing an installed feature: in a project whose manifest is [m] and
    lists [featureName], a successful [removeFeature] leaves the manifest [m]
    without that entry of [features], every other entry and field as in [m],
    and touches no other file. *)
Theorem removeFeature_removes_entry (builtin : json -> string -> bool)
    (fs fs' : FS) (projectPath featureName : string)
    (m : ExpoGenieConfig.t) (record : FeatureConfig.t) :
  has_manifest fs projectPath m ->
  ExpoGenieConfig.features m !! featureName = Some record ->
  config.removeFeature builtin projectPath featureName fs = Returns tt fs' ->
  let entries := delete featureName (ExpoGenieConfig.features m) in
  config.loadProjectConfig projectPath fs'
    = Returns (ExpoGenieConfig.toJS (ExpoGenieConfig.with_features m entries)) fs'
  /\ entries !! featureName = None
  /\ (forall other, other <> featureName ->
        entries !! other = ExpoGenieConfig.features m !! other)
  /\ (forall file, file <> manifest_path projectPath ->
        nodes fs' !! file = nodes fs !! file).
Proof.
  intros Hm Hinstalled Hremove. cbn zeta.
  rewrite (removeFeature_installed _ _ _ _ _ _ Hm Hinstalled) in Hremove.
  apply saveProjectConfig_returns in Hremove as ->.
  split; [apply loadProjectConfig_written|].
  split; [apply lookup_delete_eq|].
  split; [intros other Hother; by apply lookup_delete_ne|].
  intros file. apply record_write_other.
Qed.

Lemma removeFeature_removes_entry_witness :
  let fs' :=
    record_write "/work/demo/expo-genie.json"
      (JsonFile (ExpoGenieConfig.toJS demo_manifest)) camera_fs in
  config.removeFeature no_builtin "/work/demo" "camera" camera_fs = Returns tt fs'
  /\ config.loadProjectConfig "/work/demo" fs'
     = Returns (ExpoGenieConfig.toJS demo_manifest) fs'.
Proof.
  intros fs'.
  assert (Hm : has_manifest camera_fs "/work/demo" camera_manifest)
    by (vm_compute; reflexivity).
  assert (Hremove : config.removeFeature no_builtin "/work/demo" "camera" camera_fs
                    = Returns tt fs') by (vm_compute; reflexivity).
  split; [exact Hremove|].
  exact (proj1 (removeFeature_removes_entry no_builtin camera_fs fs' "/work/demo"
                  "camera" camera_manifest camera_record Hm eq_refl Hremove)).
Defined.

(** X2. Removing what is not there: when the project has no manifest,
    [removeFeature] returns normally and writes nothing; so it does when the
    manifest does not list [featureName], unless [featureName] is one of the
    names every object inherits ([constructor], [toString], [__proto__],
    ...): such a name reads as an installed feature, nothing is deleted and
    the manifest is written again as it is. *)
Theorem removeFeature_absent_is_noop (builtin : json -> string -> bool) (fs : FS)
    (projectPath featureName : string) :
  (config.isExpoGenieProject projectPath fs = Returns false fs ->
   config.removeFeature builtin projectPath featureName fs = Returns tt fs)
  /\ forall m,
       has_manifest fs projectPath m ->
       ExpoGenieConfig.features m !! featureName = None ->
       (featureName ∉ Js.object_prototype ->
        config.removeFeature builtin projectPath featureName fs = Returns tt fs)
       /\ (featureName ∈ Js.object_prototype ->
           config.removeFeature builtin projectPath featureName fs
           = config.saveProjectConfig projectPath (ExpoGenieConfig.toJS m) fs).
Proof.
  split.
  - intros Hnone%isExpoGenieProject_false. unfold config.removeFeature, bind.
    by rewrite (loadProjectConfig_absent _ _ Hnone).
  - intros m Hm Hnone. split; intros Hname.
    + by apply (removeFeature_not_installed _ _ _ m).
    + by apply removeFeature_inherited.
Qed.

Lemma removeFeature_absent_is_noop_witness :
  config.removeFeature no_builtin "/work/demo" "camera" empty_fs = Returns tt empty_fs
  /\ config.removeFeature no_builtin "/work/demo" "auth" camera_fs
     = Returns tt camera_fs
  /\ config.removeFeature no_builtin "/work/demo" "constructor" camera_fs
     = Returns tt
         (record_write "/work/demo/expo-genie.json"
            (JsonFile (ExpoGenieConfig.toJS camera_manifest)) camera_fs).
Proof.
  assert (Hm : has_manifest camera_fs "/work/demo" camera_manifest)
    by (vm_compute; reflexivity).
  assert (Hauth : ExpoGenieConfig.features camera_manifest !! "auth" = None)
    by (vm_compute; reflexivity).
  assert (Hconstructor :
            ExpoGenieConfig.features camera_manifest !! "constructor" = None)
    by (vm_compute; reflexivity).
  split; [|split].
  - apply (proj1 (removeFeature_absent_is_noop no_builtin empty_fs "/work/demo"
                    "camera")).
    reflexivity.
  - apply (proj1 (proj2 (removeFeature_absent_is_noop no_builtin camera_fs
                           "/work/demo" "auth") camera_manifest Hm Hauth)).
    unfold Js.object_prototype. rewrite !not_elem_of_cons.
    repeat split; try discriminate. apply not_elem_of_nil.
  - rewrite (proj2 (proj2 (removeFeature_absent_is_noop no_builtin camera_fs
                             "/work/demo" "constructor") camera_manifest Hm
                      Hconstructor)).
    + vm_compute. reflexivity.
    + unfold Js.object_prototype. left.
Defined.

(** X3. Add then remove: in a project whose manifest [m] does not list
    [featureName], adding the feature and then removing it leaves the
    manifest file holding [m] again. *)
Theorem addFeature_removeFeature_roundtrip (builtin : json -> string -> bool)
    (fs fs1 fs2 : FS) (projectPath featureName : string) (m : ExpoGenieConfig.t)
    (record : FeatureConfig.t) :
  has_manifest fs projectPath m ->
  ExpoGenieConfig.features m !! featureName = None ->
  config.addFeature projectPath featureName record fs = Returns tt fs1 ->
  config.removeFeature builtin projectPath featureName fs1 = Returns tt fs2 ->
  nodes fs2 = nodes fs
  /\ config.loadProjectConfig projectPath fs2 = Returns (ExpoGenieConfig.toJS m) fs2.
Proof.
  intros Hm Hnone Hadd Hremove.
  rewrite (addFeature_returns _ _ _ _ _ _ Hm Hadd) in Hremove.
  assert (fs2 = record_write (manifest_path projectPath)
                  (JsonFile (ExpoGenieConfig.toJS m))
                  (record_write (manifest_path projectPath)
                     (JsonFile (ExpoGenieConfig.toJS
                        (ExpoGenieConfig.with_features m
                           (Js.assign_property (ExpoGenieConfig.features m)
                              featureName record)))) fs)) as ->.
  { destruct (decide (featureName = "__proto__")) as [->|Hname].
    - rewrite assign_property_proto, with_features_same in Hremove |- * by done.
      rewrite (removeFeature_inherited _ _ _ m) in Hremove.
      + by apply saveProjectConfig_returns in Hremove.
      + apply has_manifest_written.
      + done.
      + unfold Js.object_prototype. rewrite !elem_of_cons. tauto.
    - rewrite assign_property_other in Hremove |- * by done.
      rewrite (removeFeature_installed _ _ _ _ record _ (has_manifest_written _ _ _))
        in Hremove by (cbn; apply lookup_insert_eq).
      apply saveProjectConfig_returns in Hremove.
      cbn [ExpoGenieConfig.features ExpoGenieConfig.with_features] in Hremove.
      rewrite delete_insert_id in Hremove by done.
      change (ExpoGenieConfig.toJS _) with
        (ExpoGenieConfig.toJS
           (ExpoGenieConfig.with_features
              (ExpoGenieConfig.with_features m
                 (<[featureName := record]> (ExpoGenieConfig.features m)))
              (ExpoGenieConfig.features m))) in Hremove at 1.
      by rewrite with_features_twice, with_features_same in Hremove. }
  split.
  - cbn. rewrite insert_insert_eq. by apply insert_id.
  - apply loadProjectConfig_written.
Qed.

Lemma addFeature_removeFeature_roundtrip_witness :
  exists fs1 fs2,
    config.addFeature "/work/demo" "camera" camera_record demo_fs = Returns tt fs1
    /\ config.removeFeature no_builtin "/work/demo" "camera" fs1 = Returns tt fs2
    /\ nodes fs2 = nodes demo_fs.
Proof.
  assert (Hm : has_manifest demo_fs "/work/demo" demo_manifest)
    by (vm_compute; reflexivity).
  pose (fs1 := record_write "/work/demo/expo-genie.json"
                 (JsonFile (ExpoGenieConfig.toJS camera_manifest)) demo_fs).
  pose (fs2 := record_write "/work/demo/expo-genie.json"
                 (JsonFile (ExpoGenieConfig.toJS demo_manifest)) fs1).
  assert (Hadd : config.addFeature "/work/demo" "camera" camera_record demo_fs
                 = Returns tt fs1) by (vm_compute; reflexivity).
  assert (Hremove : config.removeFeature no_builtin "/work/demo" "camera" fs1
                    = Returns tt fs2)
    by (vm_compute; reflexivity).
  exists fs1, fs2. split; [exact Hadd|]. split; [exact Hremove|].
  exact (proj1 (addFeature_removeFeature_roundtrip no_builtin demo_fs fs1 fs2
                  "/work/demo" "camera" demo_manifest camera_record Hm eq_refl
                  Hadd Hremove)).
Defined.

(** ** Reading the project-wide libraries *)

Lemma get_uiLibrary m :
  Js.get (ExpoGenieConfig.toJS m) "uiLibrary" = Some (JStr (ExpoGenieConfig.uiLibrary m)).
Proof. manifest_cases m; unfold Js.get; by lookup_field. Qed.

Lemma get_stateManagement m :
  Js.get (ExpoGenieConfig.toJS m) "stateManagement"
  = Some (JStr (ExpoGenieConfig.stateManagement m)).
Proof. manifest_cases m; unfold Js.get; by lookup_field. Qed.

Lemma getters_present fs projectPath m :
  has_manifest fs projectPath m ->
  config.getUILibrary projectPath fs
  = Returns (JStr (if String.eqb (ExpoGenieConfig.uiLibrary m) ""
                   then "nativewind" else ExpoGenieConfig.uiLibrary m)) fs
  /\ config.getStateManagement projectPath fs
     = Returns (JStr (if String.eqb (ExpoGenieConfig.stateManagement m) ""
                      then "zustand" else ExpoGenieConfig.stateManagement m)) fs.
Proof.
  intros Hm. unfold config.getUILibrary, config.getStateManagement, bind.
  rewrite (loadProjectConfig_present _ _ _ Hm), get_uiLibrary, get_stateManagement.
  cbn [Js.truthy ret].
  split; by destruct (String.eqb _ "").
Qed.

(** X4. The project-wide libraries with their fallbacks: [getUILibrary]
    answers "nativewind" and [getStateManagement] "zustand" when the project
    has no manifest, and also when the manifest holds the empty string;
    otherwise they answer what the manifest holds. Neither writes. *)
Theorem getUILibrary_fallback (fs : FS) (projectPath : string) :
  (config.isExpoGenieProject projectPath fs = Returns false fs ->
   config.getUILibrary projectPath fs = Returns (JStr "nativewind") fs
   /\ config.getStateManagement projectPath fs = Returns (JStr "zustand") fs)
  /\ (forall m, has_manifest fs projectPath m ->
        config.getUILibrary projectPath fs
        = Returns (JStr (if String.eqb (ExpoGenieConfig.uiLibrary m) ""
                         then "nativewind" else ExpoGenieConfig.uiLibrary m)) fs
        /\ config.getStateManagement projectPath fs
           = Returns (JStr (if String.eqb (ExpoGenieConfig.stateManagement m) ""
                            then "zustand"
                            else ExpoGenieConfig.stateManagement m)) fs).
Proof.
  split.
  - intros Hnone%isExpoGenieProject_false.
    unfold config.getUILibrary, config.getStateManagement, bind.
    by rewrite (loadProjectConfig_absent _ _ Hnone).
  - intros m Hm. by apply getters_present.
Qed.

Lemma getUILibrary_fallback_witness :
  config.getUILibrary "/work/demo" empty_fs = Returns (JStr "nativewind") empty_fs
  /\ config.getStateManagement "/work/demo" camera_fs_paper
     = Returns (JStr "zustand") camera_fs_paper
  /\ config.getUILibrary "/work/demo" camera_fs_paper
     = Returns (JStr "paper") camera_fs_paper.
Proof.
  split.
  - apply (proj1 (getUILibrary_fallback empty_fs "/work/demo")). reflexivity.
  - assert (Hm : has_manifest camera_fs_paper "/work/demo"
                   (ExpoGenieConfig.with_uiLibrary camera_manifest "paper"))
      by (vm_compute; reflexivity).
    destruct (proj2 (getUILibrary_fallback camera_fs_paper "/work/demo") _ Hm)
      as [Hui Hstate].
    split; [exact Hstate|exact Hui].
Defined.

(** X5. Update then read: after a successful [updateUILibrary] with a
    non-empty library in a project that has a manifest, [getUILibrary]
    answers that library and [getStateManagement] answers as before; and
    symmetrically for [updateStateManagement]. *)
Theorem update_then_get (fs fs' : FS) (projectPath library : string)
    (m : ExpoGenieConfig.t) :
  has_manifest fs projectPath m ->
  library <> "" ->
  (config.updateUILibrary projectPath library fs = Returns tt fs' ->
   config.getUILibrary projectPath fs' = Returns (JStr library) fs'
   /\ forall state, config.getStateManagement projectPath fs = Returns state fs ->
        config.getStateManagement projectPath fs' = Returns state fs')
  /\ (config.updateStateManagement projectPath library fs = Returns tt fs' ->
      config.getStateManagement projectPath fs' = Returns (JStr library) fs'
      /\ forall ui, config.getUILibrary projectPath fs = Returns ui fs ->
           config.getUILibrary projectPath fs' = Returns ui fs').
Proof.
  intros Hm Hlibrary%String.eqb_neq.
  destruct (getters_present fs projectPath m Hm) as [Hui Hstate].
  split; intros Hupdate.
  - apply (updateProjectConfig_returns _ _ _ _ _ Hm (truthy_manifest m)) in Hupdate.
    rewrite spread_uiLibrary in Hupdate. subst fs'.
    destruct (getters_present _ projectPath _
                (has_manifest_written fs projectPath
                   (ExpoGenieConfig.with_uiLibrary m library))) as [Hui' Hstate'].
    cbn [ExpoGenieConfig.with_uiLibrary ExpoGenieConfig.uiLibrary
         ExpoGenieConfig.stateManagement] in Hui', Hstate'.
    rewrite Hlibrary in Hui'. split; [exact Hui'|].
    intros state Hbefore. rewrite Hstate in Hbefore. injection Hbefore as <-.
    exact Hstate'.
  - apply (updateProjectConfig_returns _ _ _ _ _ Hm (truthy_manifest m)) in Hupdate.
    rewrite spread_stateManagement in Hupdate. subst fs'.
    destruct (getters_present _ projectPath _
                (has_manifest_written fs projectPath
                   (ExpoGenieConfig.with_stateManagement m library)))
      as [Hui' Hstate'].
    cbn [ExpoGenieConfig.with_stateManagement ExpoGenieConfig.uiLibrary
         ExpoGenieConfig.stateManagement] in Hui', Hstate'.
    rewrite Hlibrary in Hstate'. split; [exact Hstate'|].
    intros ui Hbefore. rewrite Hui in Hbefore. injection Hbefore as <-.
    exact Hui'.
Qed.

Lemma update_then_get_witness :
  config.updateUILibrary "/work/demo" "paper" camera_fs = Returns tt camera_fs_paper
  /\ config.getUILibrary "/work/demo" camera_fs_paper
     = Returns (JStr "paper") camera_fs_paper.
Proof.
  assert (Hm : has_manifest camera_fs "/work/demo" camera_manifest)
    by (vm_compute; reflexivity).
  assert (Hupdate : config.updateUILibrary "/work/demo" "paper" camera_fs
                    = Returns tt camera_fs_paper) by (vm_compute; reflexivity).
  split; [exact Hupdate|].
  apply (proj1 (update_then_get camera_fs camera_fs_paper "/work/demo" "paper"
                  camera_manifest Hm ltac:(discriminate))).
  exact Hupdate.
Defined.

(** X6. Updates need a manifest: without one, [updateProjectConfig] (and so
    [updateUILibrary] and [updateStateManagement]) returns normally, creates
    no manifest and writes nothing. *)
Theorem update_without_manifest_is_noop (fs : FS) (projectPath library : string)
    (updates : json) :
  config.isExpoGenieProject projectPath fs = Returns false fs ->
  config.updateProjectConfig projectPath updates fs = Returns tt fs
  /\ config.updateUILibrary projectPath library fs = Returns tt fs
  /\ config.updateStateManagement projectPath library fs = Returns tt fs.
Proof.
  intros Hnone%isExpoGenieProject_false.
  assert (forall u, config.updateProjectConfig projectPath u fs = Returns tt fs)
    as Hupdate.
  { intros u. unfold config.updateProjectConfig, bind.
    by rewrite (loadProjectConfig_absent _ _ Hnone). }
  repeat split; apply Hupdate.
Qed.

Lemma update_without_manifest_is_noop_witness :
  config.updateUILibrary "/work/demo" "paper" empty_fs = Returns tt empty_fs.
Proof.
  apply (update_without_manifest_is_noop empty_fs "/work/demo" "paper" JNull).
  reflexivity.
Defined.

(** ** Ill-shaped manifests *)

(** X7. No repair of an ill-shaped manifest: when the manifest file holds a
    truthy document without a [features] property (an object that lacks it,
    an array, a string, a number), [addFeature] and [removeFeature] throw a
    [TypeError] instead of creating the map. *)
Theorem features_missing_throws (builtin : json -> string -> bool) (fs : FS)
    (projectPath featureName : string) (existing : json)
    (record : FeatureConfig.t) :
  nodes fs !! manifest_path projectPath = Some (JsonFile existing) ->
  Js.truthy existing = true ->
  Js.get existing "features" = None ->
  (exists message,
     config.addFeature projectPath featureName record fs = Throws message)
  /\ (exists message,
        config.removeFeature builtin projectPath featureName fs = Throws message).
Proof.
  intros Hfile Htruthy Hmissing. split.
  - unfold config.addFeature, bind.
    rewrite (loadProjectConfig_present _ _ _ Hfile), Htruthy.
    unfold Js.assign_member.
    destruct existing as [| | | | |props]; cbn; eauto.
    cbn in Hmissing. rewrite Hmissing. cbn. eauto.
  - unfold config.removeFeature, bind.
    rewrite (loadProjectConfig_present _ _ _ Hfile), Htruthy.
    unfold Js.member_truthy.
    destruct existing as [| | | | |props]; cbn; eauto.
    cbn in Hmissing. rewrite Hmissing. cbn. eauto.
Qed.

Lemma features_missing_throws_witness :
  exists message,
    config.addFeature "/work/demo" "camera" camera_record bare_fs = Throws message.
Proof.
  assert (Hfile : nodes bare_fs !! manifest_path "/work/demo"
                  = Some (JsonFile bare_document)) by (vm_compute; reflexivity).
  assert (Hmissing : Js.get bare_document "features" = None)
    by (vm_compute; reflexivity).
  exact (proj1 (features_missing_throws no_builtin bare_fs "/work/demo" "camera"
                  bare_document camera_record Hfile eq_refl Hmissing)).
Defined.

(** ** Partial updates of the global configuration *)

(** X8. Partial save: a successful [saveGlobalConfig] changes what
    [loadGlobalConfig] answers in the properties it was given, and in no
    other: each given property reads as given, every other property reads as
    before. *)
Theorem saveGlobalConfig_merges (homedir : string) (updates : json) (fs fs' : FS) :
  config.saveGlobalConfig homedir updates fs = Returns tt fs' ->
  exists before after,
    config.loadGlobalConfig homedir fs = Returns (JObj before) fs
    /\ config.loadGlobalConfig homedir fs' = Returns (JObj after) fs'
    /\ forall key,
         after !! key = match Js.own_props updates !! key with
                        | Some value => Some value
                        | None => before !! key
                        end.
Proof.
  intros (before & Hbefore & _ & Hafter)%saveGlobalConfig_returns.
  exists before, (Js.own_props updates ∪ before).
  split; [exact Hbefore|]. split; [exact Hafter|].
  intros key. rewrite lookup_union.
  destruct (Js.own_props updates !! key), (before !! key); reflexivity.
Qed.

Lemma saveGlobalConfig_merges_witness :
  exists fs' after,
    config.saveGlobalConfig "/home/dev" dark_update fresh_home = Returns tt fs'
    /\ config.loadGlobalConfig "/home/dev" fs' = Returns (JObj after) fs'
    /\ after !! "darkMode" = Some (JBool true)
    /\ after !! "defaultTemplate" = Some (JStr "blank").
Proof.
  pose (fs' := record_write "/home/dev/.expo-genie/config.json"
                 (JsonFile (Js.spread (GlobalConfig.toJS config.defaults) dark_update))
                 (record_write "/home/dev/.expo-genie" Directory fresh_home)).
  assert (Hsave : config.saveGlobalConfig "/home/dev" dark_update fresh_home
                  = Returns tt fs') by (vm_compute; reflexivity).
  destruct (saveGlobalConfig_merges "/home/dev" dark_update fresh_home fs' Hsave)
    as (before & after & Hbefore & Hafter & Hkeys).
  exists fs', after. split; [exact Hsave|]. split; [exact Hafter|].
  assert (Hload : config.loadGlobalConfig "/home/dev" fresh_home
                  = Returns (GlobalConfig.toJS config.defaults) fresh_home)
    by (vm_compute; reflexivity).
  rewrite Hload in Hbefore. injection Hbefore as <-.
  split; rewrite Hkeys; reflexivity.
Defined.

(** X9. Frame of [addRecentProject]: a successful call changes
    [recentProjects] only; every other property of the global configuration
    reads as before. *)
Theorem addRecentProject_frame (homedir projectPath : string) (fs fs' : FS) :
  config.addRecentProject homedir projectPath fs = Returns tt fs' ->
  exists before after,
    config.loadGlobalConfig homedir fs = Returns (JObj before) fs
    /\ config.loadGlobalConfig homedir fs' = Returns (JObj after) fs'
    /\ forall key, key <> "recentProjects" -> after !! key = before !! key.
Proof.
  unfold config.addRecentProject.
  intros (globalConfig & fs1 & Hload & Hsave)%bind_returns.
  destruct (loadGlobalConfig_returns _ _ _ _ Hload) as (-> & existing & -> & _).
  destruct (Js.get (JObj existing) "recentProjects") as [[]|];
    try discriminate Hsave.
  destruct (saveGlobalConfig_returns _ _ _ _ Hsave)
    as (before & Hbefore & _ & Hafter).
  eexists before, _. split; [exact Hbefore|]. split; [exact Hafter|].
  intros key Hkey. cbn [Js.own_props].
  rewrite lookup_union, lookup_singleton_ne by done.
  by destruct (before !! key).
Qed.

Lemma addRecentProject_frame_witness :
  exists fs' after,
    config.addRecentProject "/home/dev" "/work/demo" saved_home = Returns tt fs'
    /\ config.loadGlobalConfig "/home/dev" fs' = Returns (JObj after) fs'
    /\ after !! "defaultTemplate" = Some (JStr "tabs").
Proof.
  pose (fs' := match config.addRecentProject "/home/dev" "/work/demo" saved_home with
               | Returns _ fs' => fs'
               | Throws _ => saved_home
               end).
  assert (Hadd : config.addRecentProject "/home/dev" "/work/demo" saved_home
                 = Returns tt fs') by (vm_compute; reflexivity).
  destruct (addRecentProject_frame "/home/dev" "/work/demo" saved_home fs' Hadd)
    as (before & after & Hbefore & Hafter & Hkeys).
  exists fs', after. split; [exact Hadd|]. split; [exact Hafter|].
  assert (Hload : config.loadGlobalConfig "/home/dev" saved_home
                  = Returns (GlobalConfig.toJS dark_config) saved_home)
    by (vm_compute; reflexivity).
  rewrite Hload in Hbefore. injection Hbefore as <-.
  rewrite Hkeys by discriminate. reflexivity.
Defined.

(** X10. Adding the same project twice in a row is adding it once: when
    [recentProjects] is a list of at most ten paths, a second successful
    [addRecentProject] with the same path leaves [recentProjects] as the
    first one left it. *)
Theorem addRecentProject_idempotent (homedir projectPath : string)
    (fs fs1 fs2 : FS) (recent : list string) :
  recentProjects_of homedir fs = Some (JStr <$> recent) ->
  List.length recent <= 10 ->
  config.addRecentProject homedir projectPath fs = Returns tt fs1 ->
  config.addRecentProject homedir projectPath fs1 = Returns tt fs2 ->
  recentProjects_of homedir fs2 = recentProjects_of homedir fs1.
Proof.
  intros Hrecent Hlength Hadd1 Hadd2.
  pose proof (addRecentProject_returns _ _ _ _ _ Hrecent Hadd1) as Hrecent1.
  rewrite (addRecentProject_returns _ _ _ _ _ Hrecent1 Hadd2), Hrecent1.
  do 2 f_equal.
  pose proof (recent_insert_length projectPath recent Hlength) as Hshort.
  unfold recent_insert at 1. cbn zeta.
  assert (filter (fun p => negb (String.eqb p projectPath))
            (recent_insert projectPath recent)
          = tail (recent_insert projectPath recent)) as ->.
  { unfold recent_insert. cbn zeta.
    pose proof (not_in_filter_other projectPath recent) as Hnotin.
    set (others := filter (fun q => negb (String.eqb q projectPath)) recent) in *.
    assert (forall l, projectPath ∉ l ->
              filter (fun p => negb (String.eqb p projectPath)) l = l) as Hid
      by (intros l; apply filter_absent).
    case_match.
    - destruct others as [|q others]; [reflexivity|].
      change (removelast (projectPath :: q :: others))
        with (projectPath :: removelast (q :: others)).
      rewrite filter_cons_False by (rewrite String.eqb_refl; intros []).
      apply Hid. intros Hin. apply Hnotin.
      eapply elem_of_sublist; [exact Hin|apply removelast_sublist].
    - rewrite filter_cons_False by (rewrite String.eqb_refl; intros []).
      by apply Hid. }
  assert (projectPath :: tail (recent_insert projectPath recent)
          = recent_insert projectPath recent) as ->.
  { pose proof (recent_insert_head projectPath recent) as Hhead.
    destruct (recent_insert projectPath recent); [discriminate|].
    by injection Hhead as ->. }
  case_match eqn:Hlong; [|reflexivity].
  apply Nat.ltb_lt in Hlong. lia.
Qed.

Lemma addRecentProject_idempotent_witness :
  exists fs1 fs2,
    config.addRecentProject "/home/dev" "/work/p05" after_eleven = Returns tt fs1
    /\ config.addRecentProject "/home/dev" "/work/p05" fs1 = Returns tt fs2
    /\ recentProjects_of "/home/dev" fs2 = recentProjects_of "/home/dev" fs1.
Proof.
  pose (fs1 := match config.addRecentProject "/home/dev" "/work/p05" after_eleven with
               | Returns _ fs' => fs' | Throws _ => after_eleven end).
  pose (fs2 := match config.addRecentProject "/home/dev" "/work/p05" fs1 with
               | Returns _ fs' => fs' | Throws _ => fs1 end).
  assert (Hadd1 : config.addRecentProject "/home/dev" "/work/p05" after_eleven
                  = Returns tt fs1) by (vm_compute; reflexivity).
  assert (Hadd2 : config.addRecentProject "/home/dev" "/work/p05" fs1
                  = Returns tt fs2) by (vm_compute; reflexivity).
  exists fs1, fs2. split; [exact Hadd1|]. split; [exact Hadd2|].
  apply (addRecentProject_idempotent "/home/dev" "/work/p05" after_eleven fs1 fs2
           ["/work/p11"; "/work/p10"; "/work/p09"; "/work/p08"; "/work/p07";
            "/work/p06"; "/work/p05"; "/work/p04"; "/work/p03"; "/work/p02"]).
  - vm_compute; reflexivity.
  - cbn. lia.
  - exact Hadd1.
  - exact Hadd2.
Defined.

(** ** The manifest store never deletes *)

Lemma keeps_files_refl fs : keeps_files fs fs.
Proof. by intros file. Qed.

Lemma keeps_files_trans fs1 fs2 fs3 :
  keeps_files fs1 fs2 -> keeps_files fs2 fs3 -> keeps_files fs1 fs3.
Proof. intros H12 H23 file Hfile. by apply H23, H12. Qed.

Lemma keeps_files_record_write p n fs : keeps_files fs (record_write p n fs).
Proof.
  intros file Hfile. cbn. destruct (decide (p = file)) as [->|Hne].
  - rewrite lookup_insert_eq. eauto.
  - by rewrite lookup_insert_ne.
Qed.

Section NeverDeletes.
Context {A B : Type}.

Lemma never_deletes_ret (a : A) : never_deletes (ret a).
Proof. intros fs a' fs' [= _ <-]. apply keeps_files_refl. Qed.

Lemma never_deletes_throw message : never_deletes (@throw A message).
Proof. intros fs a fs' [=]. Qed.

Lemma never_deletes_lift (r : string + A) : never_deletes (lift r).
Proof. destruct r; [apply never_deletes_throw|apply never_deletes_ret]. Qed.

Lemma never_deletes_bind (m : M A) (k : A -> M B) :
  never_deletes m -> (forall a, never_deletes (k a)) -> never_deletes (bind m k).
Proof.
  intros Hm Hk fs b fs'' (a & fs' & Hrun & Hrest)%bind_returns.
  eapply keeps_files_trans; [by eapply Hm|by eapply Hk].
Qed.

Lemma never_deletes_if (c : bool) (m1 m2 : M A) :
  never_deletes m1 -> never_deletes m2 -> never_deletes (if c then m1 else m2).
Proof. by destruct c. Qed.
End NeverDeletes.

Lemma never_deletes_fileExists p : never_deletes (fileSystem.fileExists p).
Proof. intros fs a fs' [= _ <-]. apply keeps_files_refl. Qed.

Lemma never_deletes_readJson p : never_deletes (fileSystem.readJson p).
Proof.
  intros fs a fs'. unfold fileSystem.readJson.
  destruct (nodes fs !! p) as [[]|]; intros [= _ <-]. apply keeps_files_refl.
Qed.

Lemma never_deletes_writeJson p data : never_deletes (fileSystem.writeJson p data).
Proof.
  intros fs [] fs' ->%writeJson_returns. apply keeps_files_record_write.
Qed.

Lemma never_deletes_createDirectory p : never_deletes (fileSystem.createDirectory p).
Proof.
  intros fs [] fs'. unfold fileSystem.createDirectory.
  destruct (nodes fs !! p) as [[]|]; try discriminate.
  - intros [= <-]. apply keeps_files_refl.
  - destruct (refuses fs p); [discriminate|]. intros [= <-].
    apply keeps_files_record_write.
Qed.

Ltac never_deletes_steps :=
  repeat first
    [ apply never_deletes_bind; [|intros ?]
    | apply never_deletes_if
    | apply never_deletes_ret
    | apply never_deletes_throw
    | apply never_deletes_lift
    | apply never_deletes_fileExists
    | apply never_deletes_readJson
    | apply never_deletes_writeJson
    | apply never_deletes_createDirectory ].

Lemma never_deletes_loadProjectConfig p : never_deletes (config.loadProjectConfig p).
Proof. unfold config.loadProjectConfig. never_deletes_steps. Qed.

Lemma never_deletes_loadGlobalConfig homedir :
  never_deletes (config.loadGlobalConfig homedir).
Proof. unfold config.loadGlobalConfig. never_deletes_steps. Qed.

Lemma never_deletes_saveGlobalConfig homedir updates :
  never_deletes (config.saveGlobalConfig homedir updates).
Proof.
  unfold config.saveGlobalConfig. never_deletes_steps.
Qed.

(** X11. Nothing is ever deleted by the manifest store: whatever exists
    before a successful [saveProjectConfig], [updateProjectConfig],
    [addFeature], [addScreen], [addComponent], [removeFeature],
    [saveGlobalConfig] or [addRecentProject] exists after it; in particular a
    managed project stays one. *)
Theorem config_never_deletes (builtin : json -> string -> bool)
    (homedir projectPath key : string) (document : json)
    (feature : FeatureConfig.t) (screen : ScreenConfig.t)
    (component : ComponentConfig.t) :
  never_deletes (config.saveProjectConfig projectPath document)
  /\ never_deletes (config.updateProjectConfig projectPath document)
  /\ never_deletes (config.addFeature projectPath key feature)
  /\ never_deletes (config.addScreen projectPath key screen)
  /\ never_deletes (config.addComponent projectPath key component)
  /\ never_deletes (config.removeFeature builtin projectPath key)
  /\ never_deletes (config.saveGlobalConfig homedir document)
  /\ never_deletes (config.addRecentProject homedir key).
Proof.
  repeat split.
  - apply never_deletes_writeJson.
  - unfold config.updateProjectConfig, config.saveProjectConfig.
    never_deletes_steps.
  - unfold config.addFeature, config.saveProjectConfig.
    never_deletes_steps.
  - unfold config.addScreen, config.saveProjectConfig.
    never_deletes_steps.
  - unfold config.addComponent, config.saveProjectConfig.
    never_deletes_steps.
  - unfold config.removeFeature, config.saveProjectConfig.
    never_deletes_steps.
  - apply never_deletes_saveGlobalConfig.
  - unfold config.addRecentProject.
    apply never_deletes_bind; [apply never_deletes_loadGlobalConfig|].
    intros globalConfig.
    destruct (Js.get globalConfig "recentProjects") as [[]|];
      try apply never_deletes_throw.
    apply never_deletes_saveGlobalConfig.
Qed.

Lemma config_never_deletes_witness :
  let fs' :=
    record_write "/work/demo/expo-genie.json"
      (JsonFile (ExpoGenieConfig.toJS demo_manifest)) camera_fs in
  config.removeFeature no_builtin "/work/demo" "camera" camera_fs = Returns tt fs'
  /\ is_Some (nodes fs' !! "/work/demo").
Proof.
  intros fs'.
  assert (Hremove : config.removeFeature no_builtin "/work/demo" "camera" camera_fs
                    = Returns tt fs') by (vm_compute; reflexivity).
  split; [exact Hremove|].
  destruct (config_never_deletes no_builtin "/home/dev" "/work/demo" "camera" JNull
              camera_record home_screen button_component)
    as (_ & _ & _ & _ & _ & Hkeeps & _).
  apply (Hkeeps _ _ _ Hremove). vm_compute. eauto.
Defined.

(** ** Deleting *)

Lemma inside_self dirPath : fileSystem.inside dirPath dirPath = true.
Proof. unfold fileSystem.inside. by rewrite String.eqb_refl. Qed.

Lemma deleteDirectory_returns dirPath fs fs' :
  fileSystem.deleteDirectory dirPath fs = Returns tt fs' ->
  forall file,
    nodes fs' !! file
    = if fileSystem.inside dirPath file then None else nodes fs !! file.
Proof.
  unfold fileSystem.deleteDirectory.
  destruct (fileSystem.not_a_directory dirPath fs); [discriminate|].
  case_bool_decide as Hnone.
  - intros [= <-] file. destruct (fileSystem.inside dirPath file) eqn:Hin; [|done].
    destruct (nodes fs !! file) as [n|] eqn:Hfile; [|done].
    specialize (Hnone file n Hfile). cbn in Hnone. congruence.
  - destruct (refuses fs dirPath); [discriminate|]. intros [= <-] file. cbn.
    destruct (fileSystem.inside dirPath file) eqn:Hin.
    + apply map_lookup_filter_None. right. intros n _. cbn. congruence.
    + destruct (nodes fs !! file) as [n|] eqn:Hfile.
      * by apply map_lookup_filter_Some.
      * apply map_lookup_filter_None. by left.
Qed.

(** ** [eg clean] *)

Lemma clean_each_returns projectPath dirs fs fs' :
  cleanCommand.clean_each projectPath dirs fs = Returns tt fs' ->
  (forall dir, dir ∈ dirs -> nodes fs' !! path.join [projectPath; dir] = None)
  /\ forall file,
       nodes fs' !! file = nodes fs !! file
       \/ nodes fs' !! file = None
          /\ exists dir, dir ∈ dirs
               /\ fileSystem.inside (path.join [projectPath; dir]) file = true.
Proof.
  revert fs. induction dirs as [|dir rest IH]; intros fs.
  - intros [= <-]. split; [by intros dir ?%elem_of_nil|]. by left.
  - cbn [cleanCommand.clean_each].
    intros (found & fs0 & Hfound & Hrest)%bind_returns.
    rewrite fileExists_run in Hfound. injection Hfound as <- <-.
    apply bind_returns in Hrest as ([] & fs1 & Hdelete & Hrest).
    destruct (IH _ Hrest) as [Hgone Hframe].
    set (dirPath := path.join [projectPath; dir]) in *.
    assert (nodes fs1 !! dirPath = None
            /\ forall file,
                 nodes fs1 !! file = nodes fs !! file
                 \/ nodes fs1 !! file = None
                    /\ fileSystem.inside dirPath file = true) as [Hdir Hstep].
    { case_bool_decide as Hexists.
      - pose proof (deleteDirectory_returns _ _ _ Hdelete) as Hfiles. split.
        + by rewrite Hfiles, inside_self.
        + intros file. rewrite Hfiles.
          destruct (fileSystem.inside dirPath file); [by right|by left].
      - injection Hdelete as <-. split; [|by left].
        by apply eq_None_not_Some. }
    split.
    + intros dir' [->|Hin]%elem_of_cons; [|by apply Hgone].
      change (nodes fs' !! dirPath = None).
      destruct (Hframe dirPath) as [Hsame|[Hnone _]]; [by rewrite Hsame|done].
    + intros file. destruct (Hframe file) as [->|[Hnone (dir' & Hin & Hinside)]].
      * destruct (Hstep file) as [->|[-> Hinside]]; [by left|].
        right. split; [done|]. exists dir. split; [by left|done].
      * right. split; [done|]. exists dir'. split; [by right|done].
Qed.

(** X13. What [eg clean] removes: a declined confirmation changes nothing;
    a confirmed run that succeeds leaves none of the listed directories
    ([node_modules] among them only with [--all]), and every other path is
    either kept as it was or was removed for lying under a listed
    directory. *)
Theorem cleanCommand_effect (projectPath : string) (all : bool) (fs : FS) :
  cleanCommand.cleanCommand projectPath all false fs = Returns tt fs
  /\ forall fs', cleanCommand.cleanCommand projectPath all true fs = Returns tt fs' ->
       (forall dir, dir ∈ cleanCommand.dirsToClean all ->
          nodes fs' !! path.join [projectPath; dir] = None)
       /\ (forall file,
             nodes fs' !! file = nodes fs !! file
             \/ nodes fs' !! file = None
                /\ exists dir, dir ∈ cleanCommand.dirsToClean all
                     /\ fileSystem.inside (path.join [projectPath; dir]) file = true)
       /\ ("node_modules" ∈ cleanCommand.dirsToClean all <-> all = true).
Proof.
  split; [reflexivity|]. intros fs' Hclean.
  destruct (clean_each_returns _ _ _ _ Hclean) as [Hgone Hframe].
  split; [exact Hgone|]. split; [exact Hframe|].
  destruct all; cbn; split; try done.
  - intros _. cbn. rewrite !elem_of_cons. tauto.
  - rewrite !elem_of_cons, elem_of_nil. intros H.
    repeat (destruct H as [H|H]; [discriminate H|]). done.
Qed.

Lemma cleanCommand_effect_witness :
  cleanCommand.cleanCommand "/work/demo" false true cluttered_fs
  = Returns tt cleaned_fs
  /\ nodes cleaned_fs !! path.join ["/work/demo"; ".expo"] = None.
Proof.
  assert (Hclean : cleanCommand.cleanCommand "/work/demo" false true cluttered_fs
                   = Returns tt cleaned_fs) by (vm_compute; reflexivity).
  split; [exact Hclean|].
  apply (proj1 (proj2 (cleanCommand_effect "/work/demo" false cluttered_fs)
                  cleaned_fs Hclean)).
  cbn. rewrite !elem_of_cons. tauto.
Defined.

(** ** Writing a text file *)

Lemma writeFile_returns parse filePath content fs fs' :
  fileSystem.writeFile parse filePath content fs = Returns tt fs' ->
  exists fs1,
    fileSystem.createDirectory (path.dirname filePath) fs = Returns tt fs1
    /\ nodes fs1 !! filePath <> Some Directory
    /\ fs' = record_write filePath (fileSystem.file_of_text parse content) fs1.
Proof.
  unfold fileSystem.writeFile.
  destruct (fileSystem.createDirectory _ fs) as [[] fs1|]; [|discriminate].
  intros Hwrite. exists fs1. split; [reflexivity|].
  destruct (nodes fs1 !! filePath) as [[]|] eqn:Hfile; try discriminate;
    destruct (refuses fs1 filePath); try discriminate;
    injection Hwrite as <-; by rewrite ?Hfile.
Qed.

(** X14. [writeFile] makes the file and, where needed, its parent
    directory: after a successful call the path holds the written text and
    its parent is a directory; when the parent was a directory already,
    every other path holds what it held. *)
Theorem writeFile_creates_parent (parse : string -> option json)
    (filePath content : string) (fs fs' : FS) :
  fileSystem.writeFile parse filePath content fs = Returns tt fs' ->
  nodes fs' !! filePath = Some (fileSystem.file_of_text parse content)
  /\ fileSystem.fileExists filePath fs' = Returns true fs'
  /\ fileSystem.isDirectory (path.dirname filePath) fs' = Returns true fs'
  /\ (fileSystem.isDirectory (path.dirname filePath) fs = Returns true fs ->
      forall other, other <> filePath -> nodes fs' !! other = nodes fs !! other).
Proof.
  intros (fs1 & Hdir & Hnodir & ->)%writeFile_returns.
  destruct (createDirectory_returns _ _ _ Hdir) as [Hmade Hothers].
  assert (Hne : path.dirname filePath <> filePath).
  { intros Heq. rewrite Heq in Hmade. by rewrite Hmade in Hnodir. }
  split; [|split; [|split]].
  - cbn. apply lookup_insert_eq.
  - rewrite fileExists_run. cbn. rewrite lookup_insert_eq.
    by rewrite bool_decide_eq_true_2 by eauto.
  - unfold fileSystem.isDirectory. cbn.
    by rewrite lookup_insert_ne, Hmade by done.
  - unfold fileSystem.isDirectory. intros [= Hparent] other Hother. cbn.
    rewrite lookup_insert_ne by done.
    destruct (decide (other = path.dirname filePath)) as [->|Hnotparent].
    + rewrite Hmade. by destruct (nodes fs !! path.dirname filePath) as [[]|].
    + by apply Hothers.
Qed.

Lemma writeFile_creates_parent_witness :
  fileSystem.writeFile parse_null "/work/demo/App.tsx"
    "export default function App() {}" demo_fs = Returns tt demo_fs_with_app
  /\ fileSystem.isDirectory "/work/demo" demo_fs_with_app
     = Returns true demo_fs_with_app
  /\ nodes demo_fs_with_app !! manifest_path "/work/demo"
     = nodes demo_fs !! manifest_path "/work/demo".
Proof.
  assert (Hwrite : fileSystem.writeFile parse_null "/work/demo/App.tsx"
                     "export default function App() {}" demo_fs
                   = Returns tt demo_fs_with_app) by (vm_compute; reflexivity).
  destruct (writeFile_creates_parent _ _ _ _ _ Hwrite)
    as (_ & _ & Hparent & Hframe).
  split; [exact Hwrite|]. split; [exact Hparent|].
  apply Hframe; [vm_compute; reflexivity|discriminate].
Defined.

(** ** The advisory lock *)

(** X15. The lock file: after a successful [createLock], [isLocked] answers
    true; after a successful [releaseLock] it answers false; and
    [releaseLock] without a lock returns normally and changes nothing. *)
Theorem lock_roundtrip (homedir : string) (parse : string -> option json)
    (now : N) (fs : FS) :
  (forall fs', config.createLock homedir parse now fs = Returns tt fs' ->
     config.isLocked homedir fs' = Returns true fs')
  /\ (forall fs', config.releaseLock homedir fs = Returns tt fs' ->
        config.isLocked homedir fs' = Returns false fs')
  /\ (config.isLocked homedir fs = Returns false fs ->
      config.releaseLock homedir fs = Returns tt fs).
Proof.
  split; [|split].
  - unfold config.createLock.
    intros fs' ([] & fs1 & _ & Hwrite)%bind_returns.
    apply writeFile_returns in Hwrite as (fs2 & _ & _ & ->).
    unfold config.isLocked. rewrite fileExists_run. cbn.
    rewrite lookup_insert_eq. by rewrite bool_decide_eq_true_2 by eauto.
  - unfold config.releaseLock, config.isLocked.
    intros fs' (found & fs0 & Hfound & Hdelete)%bind_returns.
    rewrite fileExists_run in Hfound. injection Hfound as <- <-.
    rewrite fileExists_run. case_bool_decide as Hexists.
    + rewrite (deleteDirectory_returns _ _ _ Hdelete), inside_self.
      rewrite bool_decide_eq_false_2; [reflexivity|]. by intros [? ?].
    + injection Hdelete as <-. by rewrite bool_decide_eq_false_2.
  - unfold config.releaseLock, config.isLocked, bind.
    rewrite fileExists_run. by intros [= ->].
Qed.

Lemma lock_roundtrip_witness :
  config.createLock "/home/dev" parse_null 1700000000000%N fresh_home
  = Returns tt locked_home
  /\ config.isLocked "/home/dev" locked_home = Returns true locked_home
  /\ config.releaseLock "/home/dev" locked_home = Returns tt unlocked_home
  /\ config.isLocked "/home/dev" unlocked_home = Returns false unlocked_home.
Proof.
  assert (Hlock : config.createLock "/home/dev" parse_null 1700000000000%N fresh_home
                  = Returns tt locked_home) by (vm_compute; reflexivity).
  assert (Hrelease : config.releaseLock "/home/dev" locked_home
                     = Returns tt unlocked_home) by (vm_compute; reflexivity).
  split; [exact Hlock|]. split; [|split; [exact Hrelease|]].
  - exact (proj1 (lock_roundtrip "/home/dev" parse_null 1700000000000%N fresh_home)
             locked_home Hlock).
  - exact (proj1 (proj2 (lock_roundtrip "/home/dev" parse_null 0%N locked_home))
             unlocked_home Hrelease).
Defined.

(** ** File names of the generators *)

Lemma upper_upper_char c :
  JsString.upper_char (JsString.upper_char c) = JsString.upper_char c.
Proof. ascii_cases c. Qed.

Lemma lower_tail_capitalize w :
  lower_tail (BaseGenerator.capitalize w) = BaseGenerator.capitalize w.
Proof.
  destruct w as [|c w]; [reflexivity|].
  rewrite capitalize_cons. unfold lower_tail. cbn [JsString.charAt0 JsString.slice1].
  by rewrite toLowerCase_idempotent.
Qed.

(** A normalised name starts with a character that is its own upper case,
    when it starts at all. *)
Lemma formatComponentName_first s :
  JsString.toUpperCase (JsString.charAt0 (BaseGenerator.formatComponentName s))
  = JsString.charAt0 (BaseGenerator.formatComponentName s).
Proof.
  unfold BaseGenerator.formatComponentName.
  induction (JsString.split BaseGenerator.is_name_separator s) as [|w ws IH];
    [reflexivity|].
  rewrite map_cons, join_empty_cons. destruct w as [|c w].
  - exact IH.
  - rewrite capitalize_cons, append_cons. cbn [JsString.charAt0].
    unfold JsString.toUpperCase. cbn. by rewrite upper_upper_char.
Qed.

Lemma capitalize_lower_tail s :
  JsString.toUpperCase (JsString.charAt0 s) = JsString.charAt0 s ->
  BaseGenerator.capitalize s = lower_tail s.
Proof. unfold BaseGenerator.capitalize, lower_tail. by intros ->. Qed.

Lemma screenName_first this :
  JsString.toUpperCase (JsString.charAt0 (ScreenGenerator.screenName this))
  = JsString.charAt0 (ScreenGenerator.screenName this).
Proof.
  unfold ScreenGenerator.screenName.
  pose proof (formatComponentName_first (GeneratorOptions.name this)) as Hfirst.
  destruct (JsString.endsWith _ _); [exact Hfirst|].
  destruct (BaseGenerator.formatComponentName _) as [|c pascal]; [reflexivity|].
  exact Hfirst.
Qed.

(** X16. As the code stands, the file a generator writes is named after the
    component with every letter after the first in lower case, because
    [formatFileName] normalises the already normalised name once more: for
    the name "user-profile" the component is [UserProfile] and the file
    [Userprofile.tsx], for the screen "profile" the component is
    [ProfileScreen] and the file [Profilescreen.tsx]; and so for every name
    of ASCII characters. *)
Theorem generated_file_names (options : GeneratorOptions.t) :
  ascii_text (GeneratorOptions.name options) = true ->
  (ComponentGenerator.generate options
   = path.join [GeneratorOptions.projectPath options;
                target_directory "src/components" options;
                lower_tail (BaseGenerator.formatComponentName
                              (GeneratorOptions.name options))
                ++ "." ++ target_extension options]
   /\ ScreenGenerator.generate options
      = path.join [GeneratorOptions.projectPath options;
                   target_directory "src/screens" options;
                   lower_tail (ScreenGenerator.screenName options)
                   ++ "." ++ target_extension options])
  /\ (BaseGenerator.formatComponentName "user-profile" = "UserProfile"
      /\ lower_tail "UserProfile" = "Userprofile"
      /\ ComponentGenerator.generate
           {| GeneratorOptions.projectPath := "/work/demo";
              GeneratorOptions.name := "user-profile";
              GeneratorOptions.directory := None;
              GeneratorOptions.typescript := Some true |}
         = "/work/demo/src/components/Userprofile.tsx"
      /\ ScreenGenerator.generate
           {| GeneratorOptions.projectPath := "/work/demo";
              GeneratorOptions.name := "profile";
              GeneratorOptions.directory := None;
              GeneratorOptions.typescript := Some true |}
         = "/work/demo/src/screens/Profilescreen.tsx").
Proof.
  intros _. split; [|repeat split; reflexivity].
  split.
  - unfold ComponentGenerator.generate, BaseGenerator.getFilePath,
      BaseGenerator.formatFileName, BaseGenerator.getFileExtension.
    cbn [BaseGenerator.new GeneratorOptions.typescript GeneratorOptions.directory
         GeneratorOptions.projectPath GeneratorOptions.name default].
    rewrite <- capitalize_lower_tail by apply formatComponentName_first.
    unfold BaseGenerator.formatComponentName at 1.
    by rewrite split_separator_free by apply formatComponentName_separator_free.
  - unfold ScreenGenerator.generate, BaseGenerator.getFilePath,
      BaseGenerator.formatFileName, BaseGenerator.getFileExtension.
    cbn [BaseGenerator.new GeneratorOptions.typescript GeneratorOptions.directory
         GeneratorOptions.projectPath default].
    change (ScreenGenerator.screenName (BaseGenerator.new options))
      with (ScreenGenerator.screenName options).
    rewrite <- capitalize_lower_tail by apply screenName_first.
    unfold BaseGenerator.formatComponentName.
    by rewrite split_separator_free by apply screenName_separator_free.
Qed.

Lemma generated_file_names_witness :
  ComponentGenerator.generate
    {| GeneratorOptions.projectPath := "/work/demo";
       GeneratorOptions.name := "sign_in form";
       GeneratorOptions.directory := Some "src/forms";
       GeneratorOptions.typescript := Some false |}
  = "/work/demo/src/forms/Signinform.jsx".
Proof.
  rewrite (proj1 (proj1 (generated_file_names
                           {| GeneratorOptions.projectPath := "/work/demo";
                              GeneratorOptions.name := "sign_in form";
                              GeneratorOptions.directory := Some "src/forms";
                              GeneratorOptions.typescript := Some false |}
                           eq_refl))).
  reflexivity.
Defined.

(** ** [eg config] *)

Lemma configCommand_returns homedir action key value fs fs' :
  configCommand.configCommand homedir action key value fs = Returns tt fs' ->
  configCommand.dispatch homedir action key value fs = Returns tt fs'.
Proof.
  unfold configCommand.configCommand.
  by destruct (configCommand.dispatch _ _ _ _ fs) as [[] ?|]; intros [= <-].
Qed.

Lemma dispatch_loads homedir action key value fs fs' :
  configCommand.dispatch homedir action key value fs = Returns tt fs' ->
  exists globalConfig,
    config.loadGlobalConfig homedir fs = Returns globalConfig fs.
Proof.
  unfold configCommand.dispatch.
  intros (globalConfig & fs1 & Hload & _)%bind_returns.
  destruct (loadGlobalConfig_returns _ _ _ _ Hload) as (-> & _).
  eauto.
Qed.

(** X17. [eg config set]: without a key, with an empty key or without a
    value it stops with the usage message, once the global configuration is
    loaded; when it succeeds, the key reads as the given text, a string
    whatever the setting is, and every other property of the global
    configuration reads as before. *)
Theorem configCommand_set (homedir : string) (key value : option string)
    (fs : FS) :
  (key = None \/ key = Some "" \/ value = None ->
   forall globalConfig fs1,
     config.loadGlobalConfig homedir fs = Returns globalConfig fs1 ->
     configCommand.configCommand homedir "set" key value fs
     = Throws "Usage: eg config set <key> <value>")
  /\ forall fs',
       configCommand.configCommand homedir "set" key value fs = Returns tt fs' ->
       exists name text before after,
         key = Some name /\ value = Some text
         /\ config.loadGlobalConfig homedir fs = Returns (JObj before) fs
         /\ config.loadGlobalConfig homedir fs' = Returns (JObj after) fs'
         /\ after !! name = Some (JStr text)
         /\ forall other, other <> name -> after !! other = before !! other.
Proof.
  split.
  - intros Hmissing globalConfig fs1 Hload.
    unfold configCommand.configCommand, configCommand.dispatch, bind.
    rewrite Hload. cbn [String.eqb Ascii.eqb Bool.eqb].
    destruct Hmissing as [->|[->| ->]]; [reflexivity| |by destruct key].
    by destruct value.
  - intros fs' Hset%configCommand_returns.
    unfold configCommand.dispatch in Hset.
    apply bind_returns in Hset as (globalConfig & fs1 & Hload & Hset).
    destruct (loadGlobalConfig_returns _ _ _ _ Hload) as (-> & _).
    cbn [String.eqb Ascii.eqb Bool.eqb] in Hset.
    destruct key as [name|]; [|discriminate].
    destruct value as [text|]; [|discriminate].
    destruct (String.eqb name ""); [discriminate|].
    destruct (saveGlobalConfig_returns _ _ _ _ Hset)
      as (before & Hbefore & _ & Hafter).
    eexists name, text, before, _.
    do 3 (split; [done|]). split; [exact Hafter|].
    cbn [Js.own_props]. split.
    + rewrite lookup_union, lookup_singleton_eq.
      by destruct (before !! name).
    + intros other Hother.
      rewrite lookup_union, lookup_singleton_ne by done.
      by destruct (before !! other).
Qed.

Lemma configCommand_set_witness :
  configCommand.configCommand "/home/dev" "set" (Some "darkMode") None fresh_home
  = Throws "Usage: eg config set <key> <value>"
  /\ exists fs' after,
       configCommand.configCommand "/home/dev" "set" (Some "autoInstall")
         (Some "false") fresh_home = Returns tt fs'
       /\ config.loadGlobalConfig "/home/dev" fs' = Returns (JObj after) fs'
       /\ after !! "autoInstall" = Some (JStr "false")
       /\ after !! "gitCommit" = Some (JBool false).
Proof.
  split.
  { apply (proj1 (configCommand_set "/home/dev" (Some "darkMode") None fresh_home)
             (or_intror (or_intror eq_refl))
             (GlobalConfig.toJS config.defaults) fresh_home).
    vm_compute. reflexivity. }
  pose (fs' := match configCommand.configCommand "/home/dev" "set"
                       (Some "autoInstall") (Some "false") fresh_home with
               | Returns _ fs' => fs' | Throws _ => fresh_home end).
  assert (Hset : configCommand.configCommand "/home/dev" "set"
                   (Some "autoInstall") (Some "false") fresh_home
                 = Returns tt fs') by (vm_compute; reflexivity).
  destruct (proj2 (configCommand_set "/home/dev" (Some "autoInstall") (Some "false")
                     fresh_home) fs' Hset)
    as (name & text & before & after & [= <-] & [= <-] & Hbefore & Hafter
        & Hkey & Hothers).
  exists fs', after. split; [exact Hset|]. split; [exact Hafter|].
  split; [exact Hkey|].
  assert (Hload : config.loadGlobalConfig "/home/dev" fresh_home
                  = Returns (GlobalConfig.toJS config.defaults) fresh_home)
    by (vm_compute; reflexivity).
  rewrite Hload in Hbefore. injection Hbefore as <-.
  rewrite Hothers by discriminate. reflexivity.
Defined.

(** X18. [eg config reset] resets four settings only: after it
    [defaultTemplate], [defaultPackageManager], [autoInstall] and
    [gitCommit] read as the built-in defaults, and every other property --
    the default libraries, [darkMode] and the recent projects among them --
    reads as before. *)
Theorem configCommand_reset (homedir : string) (key value : option string)
    (fs fs' : FS) :
  configCommand.configCommand homedir "reset" key value fs = Returns tt fs' ->
  exists before after,
    config.loadGlobalConfig homedir fs = Returns (JObj before) fs
    /\ config.loadGlobalConfig homedir fs' = Returns (JObj after) fs'
    /\ after !! "defaultTemplate" = Some (JStr "blank")
    /\ after !! "defaultPackageManager" = Some (JStr "npm")
    /\ after !! "autoInstall" = Some (JBool true)
    /\ after !! "gitCommit" = Some (JBool false)
    /\ forall other,
         other ∉ ["defaultTemplate"; "defaultPackageManager"; "autoInstall";
                  "gitCommit"] ->
         after !! other = before !! other.
Proof.
  intros Hreset%configCommand_returns. unfold configCommand.dispatch in Hreset.
  apply bind_returns in Hreset as (globalConfig & fs1 & Hload & Hreset).
  destruct (loadGlobalConfig_returns _ _ _ _ Hload) as (-> & _).
  cbn [String.eqb Ascii.eqb Bool.eqb] in Hreset.
  destruct (saveGlobalConfig_returns _ _ _ _ Hreset)
    as (before & Hbefore & _ & Hafter).
  eexists before, _. split; [exact Hbefore|]. split; [exact Hafter|].
  cbn [Js.own_props configCommand.reset_values].
  do 4 (split;
    [rewrite lookup_union;
     repeat first [ rewrite lookup_insert_eq
                  | rewrite lookup_insert_ne by discriminate
                  | rewrite lookup_singleton_eq ];
     by destruct (before !! _)|]).
  intros other Hother. rewrite !not_elem_of_cons in Hother.
  destruct Hother as (? & ? & ? & ? & _).
  rewrite lookup_union. repeat rewrite lookup_insert_ne by done.
  rewrite lookup_singleton_ne by done. by destruct (before !! other).
Qed.

Lemma configCommand_reset_witness :
  configCommand.configCommand "/home/dev" "reset" None None saved_home
  = Returns tt reset_home
  /\ exists after,
       config.loadGlobalConfig "/home/dev" reset_home = Returns (JObj after) reset_home
       /\ after !! "defaultTemplate" = Some (JStr "blank")
       /\ after !! "darkMode" = Some (JBool true).
Proof.
  assert (Hreset : configCommand.configCommand "/home/dev" "reset" None None saved_home
                   = Returns tt reset_home) by (vm_compute; reflexivity).
  split; [exact Hreset|].
  destruct (configCommand_reset "/home/dev" None None saved_home reset_home Hreset)
    as (before & after & Hbefore & Hafter & Htemplate & _ & _ & _ & Hothers).
  exists after. split; [exact Hafter|]. split; [exact Htemplate|].
  assert (Hload : config.loadGlobalConfig "/home/dev" saved_home
                  = Returns (GlobalConfig.toJS dark_config) saved_home)
    by (vm_compute; reflexivity).
  rewrite Hload in Hbefore. injection Hbefore as <-.
  rewrite Hothers; [reflexivity|].
  rewrite !not_elem_of_cons. repeat split; try discriminate. apply not_elem_of_nil.
Defined.

(** ** Adding an import to a source file *)

Section SplitJoin.
Variable sep : ascii -> bool.

Lemma split_free s : free_of sep s = true -> JsString.split sep s = [s].
Proof.
  induction s as [|c rest IH]; cbn; [reflexivity|].
  intros [Hc Hrest]%andb_prop. rewrite IH by done.
  by destruct (sep c).
Qed.

Lemma split_pieces_free s :
  Forall (fun piece => free_of sep piece = true) (JsString.split sep s).
Proof.
  induction s as [|c rest IH]; cbn; [by constructor|].
  destruct (sep c) eqn:Hc; [by constructor|].
  destruct IH as [|w ws Hw Hws]; constructor; try done; cbn; by rewrite ?Hc.
Qed.

(** Joining pieces that hold no separator and splitting again gives the
    pieces back. *)
Lemma split_join c pieces :
  sep c = true ->
  pieces <> [] ->
  Forall (fun piece => free_of sep piece = true) pieces ->
  JsString.split sep (JsString.join (String c "") pieces) = pieces.
Proof.
  intros Hc Hne Hfree. induction Hfree as [|w ws Hw Hws IH]; [done|].
  destruct ws as [|w' ws]; [by apply split_free|].
  change (JsString.join (String c "") (w :: w' :: ws))
    with (w ++ String c "" ++ JsString.join (String c "") (w' :: ws)).
  change (String c "" ++ ?rest) with (String c rest).
  rewrite (split_app_sep sep _ _ _ Hc), split_free, IH by done.
  reflexivity.
Qed.
End SplitJoin.

Lemma last_import_from_spec lines : forall i found,
  let k := BaseGeneratorFiles.last_import_from i lines found in
  (k = found /\ Forall (fun line => String.prefix "import " line = false) lines)
  \/ exists j line,
       k = i + j /\ lines !! j = Some line /\ String.prefix "import " line = true
       /\ forall j' line', j < j' -> lines !! j' = Some line' ->
            String.prefix "import " line' = false.
Proof.
  induction lines as [|line rest IH]; intros i found; cbn zeta.
  - left. by split.
  - cbn [BaseGeneratorFiles.last_import_from].
    destruct (IH (S i) (if String.prefix "import " line then i else found))
      as [[Hk Hnone]|(j & line' & Hk & Hline & Himport & Hlast)].
    + destruct (String.prefix "import " line) eqn:Hhead.
      * right. exists 0, line. split; [lia|]. split; [done|]. split; [done|].
        intros [|j'] line' Hlt Hj'; [lia|].
        by eapply (proj1 (Forall_lookup _ _) Hnone).
      * left. split; [done|]. by constructor.
    + right. exists (S j), line'. split; [lia|]. split; [done|]. split; [done|].
      intros [|j'] line'' Hlt Hj'; [lia|]. eapply (Hlast j'); [lia|done].
Qed.

Lemma lastImportIndex_spec lines :
  lines <> [] ->
  let k := BaseGeneratorFiles.lastImportIndex lines in
  k < List.length lines
  /\ (forall j line, k < j -> lines !! j = Some line ->
        String.prefix "import " line = false)
  /\ ((exists line, lines !! k = Some line /\ String.prefix "import " line = true)
      \/ k = 0 /\ Forall (fun line => String.prefix "import " line = false) lines).
Proof.
  intros Hne. cbn zeta. unfold BaseGeneratorFiles.lastImportIndex.
  destruct (last_import_from_spec lines 0 0)
    as [[-> Hnone]|(j & line & -> & Hline & Himport & Hlast)].
  - split; [destruct lines; [done|cbn; lia]|]. split; [|by right].
    intros j line _ Hj. by eapply (proj1 (Forall_lookup _ _) Hnone).
  - cbn [Nat.add]. split; [by eapply lookup_lt_Some|]. split; [exact Hlast|].
    left. eauto.
Qed.

(** X19. [addImportToFile] on a text file: the new text is the old one with
    the statement inserted as a line of its own directly after the last line
    that starts with [import ]; every line of the old text is kept, in
    order. When no line starts with [import ], the statement goes after the
    first line, not before it. *)
Theorem addImportToFile_inserts (parse : string -> option json)
    (print : json -> string) (filePath importStatement content : string)
    (fs fs' : FS) :
  nodes fs !! filePath = Some (OtherFile content) ->
  BaseGeneratorFiles.addImportToFile parse print filePath importStatement fs
  = Returns tt fs' ->
  let lines := JsString.split BaseGeneratorFiles.is_newline content in
  exists k,
    let inserted := (take (S k) lines ++ importStatement :: drop (S k) lines)%list in
    nodes fs' !! filePath
    = Some (fileSystem.file_of_text parse
              (JsString.join BaseGeneratorFiles.newline inserted))
    /\ (free_of BaseGeneratorFiles.is_newline importStatement = true ->
        JsString.split BaseGeneratorFiles.is_newline
          (JsString.join BaseGeneratorFiles.newline inserted) = inserted)
    /\ k < List.length lines
    /\ (forall j line, k < j -> lines !! j = Some line ->
          String.prefix "import " line = false)
    /\ ((exists line, lines !! k = Some line /\ String.prefix "import " line = true)
        \/ k = 0 /\ Forall (fun line => String.prefix "import " line = false) lines).
Proof.
  intros Hfile Hadd. cbn zeta.
  set (lines := JsString.split BaseGeneratorFiles.is_newline content).
  exists (BaseGeneratorFiles.lastImportIndex lines).
  unfold BaseGeneratorFiles.addImportToFile in Hadd.
  apply bind_returns in Hadd as (text & fs0 & Hread & Hwrite).
  unfold fileSystem.readFile in Hread. rewrite Hfile in Hread.
  injection Hread as <- <-.
  apply writeFile_returns in Hwrite as (fs1 & _ & _ & ->).
  split.
  { cbn [nodes record_write]. rewrite lookup_insert_eq.
    unfold BaseGeneratorFiles.with_import, BaseGeneratorFiles.splice_in.
    fold lines. by rewrite Nat.add_1_r. }
  split.
  { intros Hstatement. apply split_join; [reflexivity| |].
    - by destruct (take _ lines).
    - apply Forall_app. split; [apply Forall_take, split_pieces_free|].
      constructor; [done|apply Forall_drop, split_pieces_free]. }
  apply lastImportIndex_spec, split_nonempty.
Qed.

Lemma addImportToFile_inserts_witness :
  exists fs',
    BaseGeneratorFiles.addImportToFile parse_null (fun _ => "")
      "/work/demo/src/App.tsx" "import { Text } from 'react-native';" source_fs
    = Returns tt fs'
    /\ nodes fs' !! "/work/demo/src/App.tsx" = Some (OtherFile app_source_with_text).
Proof.
  pose (fs' := match BaseGeneratorFiles.addImportToFile parse_null (fun _ => "")
                       "/work/demo/src/App.tsx"
                       "import { Text } from 'react-native';" source_fs with
               | Returns _ fs' => fs' | Throws _ => source_fs end).
  assert (Hfile : nodes source_fs !! "/work/demo/src/App.tsx"
                  = Some (OtherFile app_source)) by (vm_compute; reflexivity).
  assert (Hadd : BaseGeneratorFiles.addImportToFile parse_null (fun _ => "")
                   "/work/demo/src/App.tsx"
                   "import { Text } from 'react-native';" source_fs
                 = Returns tt fs') by (vm_compute; reflexivity).
  exists fs'. split; [exact Hadd|].
  destruct (addImportToFile_inserts _ _ _ _ _ _ _ Hfile Hadd)
    as (k & Hnode & _ & Hbound & Hafter & Hat).
  rewrite Hnode. clear Hnode.
  assert (k = 1) as ->.
  { destruct k as [|[|k]]; [|reflexivity|].
    - specialize (Hafter 1 "import { View } from 'react-native';").
      discriminate Hafter; [lia|vm_compute; reflexivity].
    - destruct Hat as [(line & Hline & Himport)|[[=] _]].
      destruct k as [|[|k]]; vm_compute in Hline; [| |discriminate];
        injection Hline as <-; discriminate. }
  vm_compute. reflexivity.
Defined.

(** A file without imports: the statement lands on the second line. *)
Example addImportToFile_without_imports :
  BaseGeneratorFiles.with_import plain_source "import { x } from './x';"
  = JsString.join BaseGeneratorFiles.newline
      ["// constants"; "import { x } from './x';"; "export const limit = 10;"].
Proof. reflexivity. Qed.

(** ** The install command shown to the user *)

Lemma list_ascii_app a b :
  list_ascii_of_string (a ++ b)
  = (list_ascii_of_string a ++ list_ascii_of_string b)%list.
Proof.
  induction a as [|c a IH]; [reflexivity|].
  rewrite append_cons. cbn. by rewrite IH.
Qed.

(** A text that starts and ends with something else than white space is its
    own [trim]. *)
Lemma trim_fixed c head body d :
  JsString.is_space c = false ->
  JsString.is_space d = false ->
  JsString.trim (String c head ++ body ++ String d "")
  = String c head ++ body ++ String d "".
Proof.
  intros Hc Hd. unfold JsString.trim.
  assert (Hstart :
    JsString.skip_spaces (list_ascii_of_string (String c head ++ body ++ String d ""))
    = list_ascii_of_string (String c head ++ body ++ String d "")).
  { rewrite append_cons. cbn. by rewrite Hc. }
  rewrite Hstart, <- (string_app_assoc (String c head) body (String d "")).
  generalize (String c head ++ body). intros text.
  rewrite list_ascii_app, rev_app_distr.
  cbn [list_ascii_of_string rev app JsString.skip_spaces]. rewrite Hd.
  cbn [rev]. rewrite rev_involutive.
  change [d] with (list_ascii_of_string (String d "")).
  by rewrite <- list_ascii_app, string_of_list_ascii_of_string.
Qed.

Lemma package_name_last name :
  package_name name = true ->
  exists body d, name = body ++ String d "" /\ JsString.is_space d = false.
Proof.
  unfold package_name. intros [Hne Hfree]%andb_prop.
  destruct name as [|c name]; [done|]. clear Hne.
  revert c Hfree. induction name as [|c' name IH]; intros c Hfree.
  - exists "", c. split; [reflexivity|].
    cbn in Hfree. by destruct (JsString.is_space c).
  - cbn [free_of] in Hfree. apply andb_prop in Hfree as [Hc Hfree].
    destruct (IH c' Hfree) as (body & d & -> & Hd).
    exists (String c body), d. by rewrite append_cons.
Qed.

Lemma join_packages_last name names :
  forallb package_name (name :: names) = true ->
  exists body d,
    JsString.join " " (name :: names) = body ++ String d ""
    /\ JsString.is_space d = false.
Proof.
  revert name. induction names as [|name' names IH]; intros name Hnames.
  - cbn in Hnames. rewrite andb_true_r in Hnames. by apply package_name_last.
  - cbn [forallb] in Hnames. apply andb_prop in Hnames as [_ Hnames].
    destruct (IH name' Hnames) as (body & d & Hjoin & Hd).
    exists (name ++ " " ++ body), d. split; [|done].
    change (JsString.join " " (name :: name' :: names))
      with (name ++ " " ++ JsString.join " " (name' :: names)).
    by rewrite Hjoin, !string_app_assoc.
Qed.

(** X20. The install command line: for package names of ASCII characters
    without white space, [getInstallCommand] answers the base command, a
    space, the development flag when asked for, another space and the names
    separated by single spaces -- so that without the flag two spaces stand
    before the first name; for an empty list the spaces at the end are
    trimmed away. *)
Theorem getInstallCommand_shape (pm : PackageManager) (packages : list string)
    (isDev : bool) :
  forallb package_name packages = true ->
  packageManager.getInstallCommand pm packages isDev
  = match packages with
    | [] =>
        if isDev then packageManager.baseCommand pm ++ " " ++ packageManager.devFlag pm
        else packageManager.baseCommand pm
    | _ =>
        packageManager.baseCommand pm ++ " "
          ++ (if isDev then packageManager.devFlag pm else "") ++ " "
          ++ JsString.join " " packages
    end.
Proof.
  intros Hnames. unfold packageManager.getInstallCommand.
  destruct packages as [|name names]; [by destruct pm, isDev|].
  destruct (join_packages_last name names Hnames) as (body & d & -> & Hd).
  destruct pm, isDev.
  - exact (trim_fixed "n" "pm install --save-dev " body d eq_refl Hd).
  - exact (trim_fixed "n" "pm install  " body d eq_refl Hd).
  - exact (trim_fixed "y" "arn add -D " body d eq_refl Hd).
  - exact (trim_fixed "y" "arn add  " body d eq_refl Hd).
  - exact (trim_fixed "p" "npm add -D " body d eq_refl Hd).
  - exact (trim_fixed "p" "npm add  " body d eq_refl Hd).
  - exact (trim_fixed "b" "un add -d " body d eq_refl Hd).
  - exact (trim_fixed "b" "un add  " body d eq_refl Hd).
Qed.

Lemma getInstallCommand_shape_witness :
  packageManager.getInstallCommand yarn ["react"; "react-dom"] false
  = "yarn add  react react-dom"
  /\ packageManager.getInstallCommand npm [] true = "npm install --save-dev".
Proof.
  split.
  - apply (getInstallCommand_shape yarn ["react"; "react-dom"] false). reflexivity.
  - apply (getInstallCommand_shape npm [] true). reflexivity.
Defined.
